(** * Grocery store server: order placement, auth gating and SSE fan-out

    A shallow embedding of the monolithic Express server (server.js) of the
    grocery-store repository: the three Mongoose schemas and the model
    methods the handlers call, the two auth middlewares, the SSE subscriber
    list with [broadcastNewOrder], and the JSON API handlers for
    registration, login, profile update, guest and authenticated checkout,
    and the admin product and order routes.  The router modules under
    routes/ are not mounted by the server and are not modelled.

    Conventions.
    - A Mongo collection is a finite map from [ObjectId] to documents.
    - [req.body] is one record whose fields are all optional: a key that the
      client did not send reads as [None] (JavaScript [undefined]).  A key
      bound for a [String] path is a string when it is sent, [items] is an
      array of objects and [deliveryAddress] an object; a key bound for a
      [Number] or an [ObjectId] path of [orderSchema] is any JSON value,
      and [Order.create] casts it.
    - What a handler reads from its environment ([Date.now()],
      [Math.random()], the bcrypt salt, the outcome of the Cloudinary
      upload) is gathered in [Env] and passed explicitly.
    - Library functions whose results are not determined by this repository
      (bcrypt, jsonwebtoken's signature check, [JSON.stringify], [Number] on
      strings, Mongoose's casts of values of another type) are the fields
      of the class [Libraries].
    - Numbers that are only copied around are rationals; where the code
      adds numbers they are IEEE 754 doubles, with the addition of the
      Standard Library's [SpecFloat].
    - The database connection is assumed to be up: a model method throws
      only for the reasons the schemas give it (a duplicate unique key, a
      value that cannot be cast).  *)

From Stdlib Require Import QArith ZArith NArith Ascii String.
From Stdlib Require Floats.SpecFloat.
From stdpp Require Import gmap strings list fin_maps infinite sorting pretty.

Local Open Scope string_scope.

(** ** Schemas *)

Definition ObjectId := N.

(** JavaScript numbers that the handlers only copy around. *)
Definition Number := Q.

(** JavaScript numbers that the code computes with: binary64. *)
Definition Double := SpecFloat.spec_float.

(** The double nearest to [m * 2^e]. *)
Definition double (m e : Z) : Double :=
  SpecFloat.binary_normalize 53 1024 m e false.

(** [x + y] *)
Definition Double_add (x y : Double) : Double := SpecFloat.SFadd 53 1024 x y.

(** [x <= y] *)
Definition Double_leb (x y : Double) : bool := SpecFloat.SFleb x y.

(** The rational a finite double stands for (0 for an infinity and for
    [NaN], which a clock reading plus a random part never is). *)
Definition Number_of_Double (x : Double) : Number :=
  match x with
  | SpecFloat.S754_finite s m e =>
      let n := if s then Z.neg m else Z.pos m in
      match e with
      | Z.neg k => Qmake n (2 ^ k)
      | _ => inject_Z (n * 2 ^ e)
      end
  | _ => 0%Q
  end.

(** ** Values of [req.body] bound for a schema path *)

(** A JSON value as [express.json()] parses it. *)
Inductive JsValue :=
| JsNull
| JsBool (b : bool)
| JsNum (n : Number)
| JsStr (s : string)
| JsId (id : ObjectId)    (* the string of 24 hex digits that names [id] *)
| JsOther.                (* an array or an object *)

Module Address.
(** [orderSchema.deliveryAddress] *)
Record t := mk {
  name : option string;
  phone : option string;
  line1 : option string;
  line2 : option string;
  city : option string;
  pincode : option string;
  lat : option Number;
  lng : option Number;
  notes : option string
}.
End Address.

Module OrderItem.
(** One element of [orderSchema.items]. *)
Record t := mk {
  productId : option ObjectId;
  name : option string;
  price : option Number;
  quantity : option Number
}.
End OrderItem.

Module DeliveryAddress.
(** [req.body.deliveryAddress] *)
Record t := mk {
  name : option string;
  phone : option string;
  line1 : option string;
  line2 : option string;
  city : option string;
  pincode : option string;
  lat : option JsValue;
  lng : option JsValue;
  notes : option string
}.

(** An address whose values have the types of the schema already. *)
Definition sent (a : Address.t) : t :=
  mk (Address.name a) (Address.phone a) (Address.line1 a) (Address.line2 a)
     (Address.city a) (Address.pincode a) (JsNum <$> Address.lat a)
     (JsNum <$> Address.lng a) (Address.notes a).
End DeliveryAddress.

Module Item.
(** One element of [req.body.items]. *)
Record t := mk {
  productId : option JsValue;
  name : option string;
  price : option JsValue;
  quantity : option JsValue
}.

(** An item whose values have the types of the schema already. *)
Definition sent (i : OrderItem.t) : t :=
  mk (JsId <$> OrderItem.productId i) (OrderItem.name i)
     (JsNum <$> OrderItem.price i) (JsNum <$> OrderItem.quantity i).
End Item.

Module CartEntry.
Record t := mk { product : ObjectId; quantity : Number }.
End CartEntry.

Module SavedAddress.
Record t := mk {
  label : option string;
  line1 : option string;
  line2 : option string;
  city : option string;
  pincode : option string;
  isDefault : bool
}.
End SavedAddress.

Module User.
(** [userSchema]; [email] carries [unique: true]. *)
Record t := mk {
  _id : ObjectId;
  name : string;
  email : string;
  passwordHash : string;
  phone : option string;
  role : string;
  cart : list CartEntry.t;
  addresses : list SavedAddress.t;
  createdAt : Z
}.

Definition with_email (e : string) (u : t) : t :=
  mk (_id u) (name u) e (passwordHash u) (phone u) (role u) (cart u)
     (addresses u) (createdAt u).

Definition with_passwordHash (h : string) (u : t) : t :=
  mk (_id u) (name u) (email u) h (phone u) (role u) (cart u)
     (addresses u) (createdAt u).
End User.

Module Product.
(** [productSchema] *)
Record t := mk {
  _id : ObjectId;
  name : string;
  description : option string;
  price : Number;
  category : option string;
  image : option string;
  unit : string;
  createdAt : Z
}.
End Product.

Module Order.
(** [orderSchema] *)
Record t := mk {
  _id : ObjectId;
  userId : ObjectId;
  items : list OrderItem.t;
  total : option Number;
  deliveryAddress : option Address.t;
  status : string;
  createdAt : Z
}.

Definition with_status (s : string) (o : t) : t :=
  mk (_id o) (userId o) (items o) (total o) (deliveryAddress o) s
     (createdAt o).
End Order.

(** The three collections. *)
Record Db := mkDb {
  users : gmap N User.t;
  products : gmap N Product.t;
  orders : gmap N Order.t
}.

Definition set_users (m : gmap N User.t) (d : Db) : Db :=
  mkDb m (products d) (orders d).
Definition set_products (m : gmap N Product.t) (d : Db) : Db :=
  mkDb (users d) m (orders d).
Definition set_orders (m : gmap N Order.t) (d : Db) : Db :=
  mkDb (users d) (products d) m.

(** ** Exceptions and results *)

(** What the awaited calls inside a handler's [try] can throw. *)
Inductive Thrown :=
| DuplicateKey       (* E11000 on the unique [email] index *)
| CastError          (* a value Mongoose cannot cast to the schema type *)
| DocumentNotFound   (* [save()] of a document that is no longer stored *)
| TypeError          (* a property read on [undefined] *)
| UploadFailed       (* the Cloudinary upload rejected *)
| StreamError.       (* a write on a stream that cannot take it *)

Definition Result (A : Type) : Type := Thrown + A.

Definition throw {A} (e : Thrown) : Result A := inl e.
Definition ok {A} (a : A) : Result A := inr a.

(** Awaited calls in sequence: the first one that throws ends the block. *)
#[global] Instance Result_bind : MBind Result := λ A B f m,
  match m with
  | inl e => inl e
  | inr a => f a
  end.

#[global] Instance Result_fmap : FMap Result := λ A B f m,
  match m with
  | inl e => inl e
  | inr a => inr (f a)
  end.

(** A URL segment [:id]: the hex form of an ObjectId, or any other string,
    for which Mongoose's cast of the query throws. *)
Inductive IdParam :=
| ObjectIdString (id : ObjectId)
| OtherString (s : string).

Definition castObjectId (p : IdParam) : Result ObjectId :=
  match p with
  | ObjectIdString id => ok id
  | OtherString _ => throw CastError
  end.

(** The value of [Number(s)] on a string. *)
Inductive JsNumber :=
| NaN
| Finite (q : Number).

(** ** JavaScript truthiness of an optional string *)

Definition truthy (s : option string) : bool :=
  match s with
  | Some v => negb (String.eqb v "")
  | None => false
  end.

(** [s || d] *)
Definition or_else (s : option string) (d : string) : string :=
  match s with
  | Some v => if String.eqb v "" then d else v
  | None => d
  end.

(** The string itself when it is truthy. *)
Definition present (s : option string) : option string :=
  if truthy s then s else None.

(** [String.prototype.split] with a one-character separator. *)
Fixpoint String_split (sep : Ascii.ascii) (s : string) : list string :=
  match s with
  | EmptyString => [""]
  | String c r =>
      if Ascii.eqb c sep then "" :: String_split sep r
      else match String_split sep r with
           | h :: t => String c h :: t
           | [] => [String c ""]
           end
  end.

(** ** Model methods *)

(** [User.findOne({ email })] *)
Definition User_findOne (e : string) (d : Db) : option User.t :=
  (λ r, r.2.2) <$> list_find (λ kv, User.email kv.2 = e) (map_to_list (users d)).

(** [User.findById(id)] *)
Definition User_findById (id : ObjectId) (d : Db) : option User.t :=
  users d !! id.

(** [User.create({ name, email, passwordHash, phone })]: the document gets a
    new [_id], the schema defaults ([role] is ['user'], empty [cart] and
    [addresses], [createdAt] is now), and the unique index on [email]
    rejects an address that some document already has. *)
Definition User_create (name email passwordHash : string)
    (phone : option string) (now : Z) (d : Db) : Result (User.t * Db) :=
  match User_findOne email d with
  | Some _ => throw DuplicateKey
  | None =>
      let u := User.mk (fresh (dom (users d))) name email passwordHash phone
                       "user" [] [] now in
      ok (u, set_users (<[User._id u := u]> (users d)) d)
  end.

(** [user.save()] on a document loaded by [findById]: only modified paths
    are written, so the unique index is consulted when [email] changed. *)
Definition User_save (u : User.t) (d : Db) : Result Db :=
  match users d !! User._id u with
  | None => throw DocumentNotFound
  | Some old =>
      if bool_decide (User.email old = User.email u) then
        ok (set_users (<[User._id u := u]> (users d)) d)
      else
        match User_findOne (User.email u) d with
        | Some _ => throw DuplicateKey
        | None => ok (set_users (<[User._id u := u]> (users d)) d)
        end
  end.

(** [Order.findByIdAndDelete(id)] *)
Definition Order_findByIdAndDelete (p : IdParam) (d : Db)
    : Result (option Order.t * Db) :=
  match castObjectId p with
  | inl e => throw e
  | inr id => ok (orders d !! id, set_orders (delete id (orders d)) d)
  end.

(** [Order.findByIdAndUpdate(id, { status }, { new: true })] *)
Definition Order_findByIdAndUpdate (p : IdParam) (status : string) (d : Db)
    : Result (option Order.t * Db) :=
  match castObjectId p with
  | inl e => throw e
  | inr id =>
      match orders d !! id with
      | None => ok (None, d)
      | Some o =>
          let o' := Order.with_status status o in
          ok (Some o', set_orders (<[id := o']> (orders d)) d)
      end
  end.

(** [Product.create({ name, description, price, category, unit, image })];
    [unit] defaults to the empty string and a [NaN] price is not castable. *)
Definition Product_create (name : string) (description : option string)
    (price : JsNumber) (category unit : option string) (image : string)
    (now : Z) (d : Db) : Result (Product.t * Db) :=
  match price with
  | NaN => throw CastError
  | Finite q =>
      let p := Product.mk (fresh (dom (products d))) name description q
                          category (Some image) (default "" unit) now in
      ok (p, set_products (<[Product._id p := p]> (products d)) d)
  end.

(** [Product.findByIdAndDelete(id)] *)
Definition Product_findByIdAndDelete (p : IdParam) (d : Db)
    : Result (option Product.t * Db) :=
  match castObjectId p with
  | inl e => throw e
  | inr id => ok (products d !! id, set_products (delete id (products d)) d)
  end.

Module ProductUpdate.
(** The [update] object of the product PUT handler; [None] is a key that
    is absent (or was deleted for being [undefined]). *)
Record t := mk {
  name : option string;
  description : option string;
  price : option JsNumber;
  category : option string;
  unit : option string;
  image : option string
}.

Definition with_image (i : string) (u : t) : t :=
  mk (name u) (description u) (price u) (category u) (unit u) (Some i).

(** The keys of the update are [$set] on the stored document. *)
Definition apply (u : t) (p : Product.t) : Product.t :=
  Product.mk (Product._id p)
    (default (Product.name p) (name u))
    (match description u with Some v => Some v | None => Product.description p end)
    (match price u with Some (Finite q) => q | _ => Product.price p end)
    (match category u with Some v => Some v | None => Product.category p end)
    (match image u with Some v => Some v | None => Product.image p end)
    (default (Product.unit p) (unit u))
    (Product.createdAt p).
End ProductUpdate.

(** [Product.findByIdAndUpdate(id, update, { new: true })]: the id and the
    update are cast first, then the document, when there is one, is
    modified and returned. *)
Definition Product_findByIdAndUpdate (p : IdParam) (u : ProductUpdate.t)
    (d : Db) : Result (option Product.t * Db) :=
  match castObjectId p with
  | inl e => throw e
  | inr id =>
      match ProductUpdate.price u with
      | Some NaN => throw CastError
      | _ =>
          match products d !! id with
          | None => ok (None, d)
          | Some old =>
              let new := ProductUpdate.apply u old in
              ok (Some new, set_products (<[id := new]> (products d)) d)
          end
      end
  end.

(** [Order.find().populate('userId', 'name email phone')
      .sort({ createdAt: -1 }).limit(500)] *)
Definition newest_first (a b : Order.t) : Prop :=
  (Order.createdAt b ≤ Order.createdAt a)%Z.

#[local] Instance newest_first_dec a b : Decision (newest_first a b) :=
  decide (Order.createdAt b ≤ Order.createdAt a)%Z.

Definition Order_find_populated (d : Db)
    : list (Order.t * option (string * string * option string)) :=
  (λ o, (o, (λ u, (User.name u, User.email u, User.phone u))
              <$> users d !! Order.userId o))
  <$> take 500 (merge_sort newest_first (map_to_list (orders d)).*2).

(** ** Requests, responses and the environment *)

Module Body.
(** [req.body]: every key a handler destructures, [None] when absent. *)
Record t := mk {
  name : option string;
  email : option string;
  password : option string;
  phone : option string;
  currentPassword : option string;
  newPassword : option string;
  items : option (list Item.t);
  total : option JsValue;
  deliveryAddress : option DeliveryAddress.t;
  description : option string;
  price : option string;
  category : option string;
  unit : option string;
  status : option string
}.

Definition empty : t :=
  mk None None None None None None None None None None None None None None.

Definition register (name email password phone : option string) : t :=
  mk name email password phone None None None None None None None None None None.

Definition profile (email currentPassword newPassword : option string) : t :=
  mk None email None None currentPassword newPassword None None None None
     None None None None.

Definition checkout (items : option (list Item.t))
    (total : option JsValue) (deliveryAddress : option DeliveryAddress.t) : t :=
  mk None None None None None None items total deliveryAddress None None
     None None None.

Definition product (name description price category unit : option string) : t :=
  mk name None None None None None None None None description price
     category unit None.
End Body.

Module Claims.
(** The decoded token: the signed payload with [iat] and [exp] (seconds). *)
Record t := mk {
  id : ObjectId;
  role : string;
  name : string;
  iat : Z;
  exp : Z
}.
End Claims.

Module Request.
Record t := mk {
  authorization : option string;   (* [req.headers.authorization] *)
  params_id : IdParam;             (* [req.params.id] *)
  body : Body.t;
  file : option string;            (* [req.file.path] set by multer *)
  user : option Claims.t           (* [req.user] set by [authMiddleware] *)
}.

Definition with_user (c : Claims.t) (r : t) : t :=
  mk (authorization r) (params_id r) (body r) (file r) (Some c).
End Request.

(** What one request reads from outside the process state. *)
Record Env := mkEnv {
  now : Z;                               (* [Date.now()], milliseconds *)
  mathRandom : Double;                   (* [Math.random()], in [0, 1) *)
  randomPassword : string;               (* [Math.random().toString(36).slice(2)] *)
  salt : string;                         (* the salt bcrypt generates *)
  uploadResult : Result (option string)  (* Cloudinary: [secure_url] or a rejection *)
}.

Module UserView.
(** [{ id, name, email, role }] in the register and login responses. *)
Record t := mk { id : ObjectId; name : string; email : string; role : string }.
End UserView.

(** The JSON documents the handlers send. *)
Inductive Json :=
| JError (error : string)                         (* [{ error: '...' }] *)
| JThrown (e : Thrown)                            (* [{ error: err.message }] *)
| JAuth (token : string) (user : UserView.t)      (* [{ token, user }] *)
| JProfile (email : string)                       (* [{ success: true, email }] *)
| JOrderPlaced (orderId : ObjectId)               (* [{ success: true, orderId }] *)
| JSuccess                                        (* [{ success: true }] *)
| JProduct (p : Product.t)
| JOrder (o : Order.t)
| JOrders (l : list (Order.t * option (string * string * option string)))
| EventStream.                                    (* headers sent, stream left open *)

Record Response := mkResponse { status : nat; json : Json }.

(** ** SSE subscribers *)

(** The line feed of [\n]. *)
Definition LF : string := String (Ascii.ascii_of_nat 10) "".

Module Socket.
(** The response stream of one [GET /events] request. *)
Record t := mk {
  writable : bool;
  head : nat;               (* status given to [writeHead] *)
  written : list string     (* chunks written so far, oldest first *)
}.
End Socket.

Module SseClient.
(** [{ id: clientId, res }]; [res] is a reference to a socket. *)
Record t := mk { id : Number; res : N }.
End SseClient.

Module OrderSummary.
(** The object handed to [broadcastNewOrder]: [deliveryAddress] is the
    object of the request on the guest route and the one of the stored
    order on the authenticated route; [items] are those of the request. *)
Inductive address :=
| Submitted (a : option DeliveryAddress.t)
| Stored (a : option Address.t).

Record t := mk {
  id : ObjectId;
  userName : string;
  deliveryAddress : address;
  items : list Item.t;
  total : option Number;
  createdAt : Z;
  status : string
}.
End OrderSummary.

(** The process state: the database and the SSE registry. *)
Record Server := mkServer {
  db : Db;
  sseClients : list SseClient.t;
  sockets : gmap N Socket.t
}.

Definition set_db (d : Db) (s : Server) : Server :=
  mkServer d (sseClients s) (sockets s).

(** Observable steps of a broadcast. *)
Inductive Effect :=
| Serialized (o : OrderSummary.t)
| Wrote (res : N) (chunk : string)
| WriteThrew (res : N).

(** [res.write(chunk)]: throws unless the stream is there and writable. *)
Definition res_write (res : N) (chunk : string) (m : gmap N Socket.t)
    : Result (gmap N Socket.t) :=
  match m !! res with
  | Some k =>
      if Socket.writable k then
        ok (<[res := Socket.mk true (Socket.head k) (Socket.written k ++ [chunk])]> m)
      else throw StreamError
  | None => throw StreamError
  end.

(** ** The server *)

Definition Handler := Env → Request.t → Server → Response * Server.

(** A middleware either sends a response or calls [next()], possibly
    after setting fields of [req]. *)
Definition Middleware := Env → Request.t → Response + Request.t.

(** [app.METHOD(path, m1, ..., mn, handler)] *)
Fixpoint route (ms : list Middleware) (h : Handler) : Handler :=
  match ms with
  | [] => h
  | m :: ms' => λ env req s,
      match m env req with
      | inl res => (res, s)
      | inr req' => route ms' h env req' s
      end
  end.

(** [res.status(c).json({ error })] and friends. *)
Definition error (c : nat) (msg : string) : Response := mkResponse c (JError msg).
Definition caught (e : Thrown) : Response := mkResponse 500 (JThrown e).

(** The library functions the server calls whose results this repository
    does not determine. *)
Class Libraries := {
  (** [bcrypt.hash(password, rounds)] with the salt it draws, and
      [bcrypt.compare(password, hash)]. *)
  bcrypt_hash : string → nat → string → string;
  bcrypt_compare : string → string → bool;
  (** jsonwebtoken under [JWT_SECRET]: producing the signed string for a
      set of claims, and checking the signature and decoding. *)
  jwt_encode : Claims.t → string;
  jwt_decode : string → option Claims.t;
  JSON_stringify : OrderSummary.t → string;
  (** [Number(s)] *)
  Number_of : string → JsNumber;
  (** Mongoose's casts to [Number] and to [ObjectId] of a value that is
      of another type: [None] when the cast throws, [Some None] when the
      value is stored as [null]. *)
  Number_cast : JsValue → option (option Number);
  ObjectId_cast : JsValue → option (option ObjectId)
}.

Section Server.

Context {libs : Libraries}.

(** The claims of a token for [u] signed at [now]: the payload
    [{ id: user._id, role: user.role, name: user.name }], [iat] in seconds
    and [exp] seven days later. *)
Definition claims_of (u : User.t) (now : Z) : Claims.t :=
  let iat := (now / 1000)%Z in
  Claims.mk (User._id u) (User.role u) (User.name u) iat
            (iat + 7 * 24 * 60 * 60)%Z.

(** [jwt.sign({ id, role, name }, JWT_SECRET, { expiresIn: '7d' })] *)
Definition jwt_sign (u : User.t) (now : Z) : string :=
  jwt_encode (claims_of u now).

(** [jwt.verify(token, JWT_SECRET)]; [None] when it throws: no token, a
    string that does not decode under the secret, or [exp] reached. *)
Definition jwt_verify (token : option string) (now : Z) : option Claims.t :=
  match token with
  | None => None
  | Some t =>
      if String.eqb t "" then None
      else match jwt_decode t with
           | None => None
           | Some c => if (Claims.exp c <=? now / 1000)%Z then None else Some c
           end
  end.

(** *** Auth helpers *)

Definition authMiddleware : Middleware := λ env req,
  match present (Request.authorization req) with
  | None => inl (error 401 "No token")
  | Some auth =>
      let token := String_split " "%char auth !! 1%nat in
      match jwt_verify token (now env) with
      | Some decoded => inr (Request.with_user decoded req)
      | None => inl (error 401 "Invalid token")
      end
  end.

Definition adminMiddleware : Middleware := λ env req,
  match Request.user req with
  | None => inl (error 403 "Admin only")
  | Some u =>
      if negb (String.eqb (Claims.role u) "admin")
      then inl (error 403 "Admin only")
      else inr req
  end.

(** [upload.single('image')]: multer has already filled [req.file] and
    [req.body] in the request as modelled. *)
Definition upload_single : Middleware := λ env req, inr req.

(** *** SSE *)

Definition broadcast_one (payload : string) (c : SseClient.t)
    (acc : gmap N Socket.t * list Effect) : gmap N Socket.t * list Effect :=
  match res_write (SseClient.res c) payload acc.1 with
  | inr m => (m, (acc.2 ++ [Wrote (SseClient.res c) payload])%list)
  | inl _ => (acc.1, (acc.2 ++ [WriteThrew (SseClient.res c)])%list)
  end.

Definition broadcastNewOrder (orderObj : OrderSummary.t)
    (clients : list SseClient.t) (m : gmap N Socket.t)
    : gmap N Socket.t * list Effect :=
  let payload := "data: " ++ JSON_stringify orderObj ++ LF ++ LF in
  foldl (λ acc c, broadcast_one payload c acc) (m, [Serialized orderObj]) clients.

(** [Date.now() + Math.random()]: the sum of two doubles. *)
Definition clientId (env : Env) : Number :=
  Number_of_Double (Double_add (double (now env) 0) (mathRandom env)).

(** [GET /events] *)
Definition events : Handler := λ env req s,
  let res := fresh (dom (sockets s)) in
  let sock := Socket.mk true 200 [LF] in
  (mkResponse 200 EventStream,
   mkServer (db s) (sseClients s ++ [SseClient.mk (clientId env) res])%list
            (<[res := sock]> (sockets s))).

(** The ['close'] listener installed by [GET /events]. *)
Fixpoint remove_first (clientId : Number) (l : list SseClient.t)
    : list SseClient.t :=
  match l with
  | [] => []
  | c :: l' =>
      if Qeq_bool (SseClient.id c) clientId then l'
      else c :: remove_first clientId l'
  end.

Definition on_close (clientId : Number) (s : Server) : Server :=
  mkServer (db s) (remove_first clientId (sseClients s)) (sockets s).

(** *** Auth routes *)

Definition view (u : User.t) : UserView.t :=
  UserView.mk (User._id u) (User.name u) (User.email u) (User.role u).

(** [POST /api/auth/register] *)
Definition register : Handler := λ env req s,
  let b := Request.body req in
  match present (Body.name b), present (Body.email b),
        present (Body.password b) with
  | Some name, Some email, Some password =>
      match User_findOne email (db s) with
      | Some _ => (error 400 "Email exists", s)
      | None =>
          let passwordHash := bcrypt_hash password 10 (salt env) in
          match User_create name email passwordHash (Body.phone b)
                            (now env) (db s) with
          | inl e => (caught e, s)
          | inr (user, d) =>
              let token := jwt_sign user (now env) in
              (mkResponse 201 (JAuth token (view user)), set_db d s)
          end
      end
  | _, _, _ => (error 400 "Missing fields", s)
  end.

(** [POST /api/auth/login] *)
Definition login : Handler := λ env req s,
  let b := Request.body req in
  match present (Body.email b), present (Body.password b) with
  | Some email, Some password =>
      match User_findOne email (db s) with
      | None => (error 401 "Invalid credentials", s)
      | Some user =>
          if negb (bcrypt_compare password (User.passwordHash user))
          then (error 401 "Invalid credentials", s)
          else
            let token := jwt_sign user (now env) in
            (mkResponse 200 (JAuth token (view user)), s)
      end
  | _, _ => (error 400 "Missing fields", s)
  end.

(** [PUT /api/auth/profile], behind [authMiddleware] *)
Definition profile : Handler := λ env req s,
  let b := Request.body req in
  match Request.user req with
  | None => (caught TypeError, s)
  | Some ru =>
      match User_findById (Claims.id ru) (db s) with
      | None => (error 404 "User not found", s)
      | Some user =>
          if negb (bcrypt_compare (or_else (Body.currentPassword b) "")
                                  (User.passwordHash user))
          then (error 401 "Current password incorrect", s)
          else
            let user1 :=
              match present (Body.email b) with
              | Some email => User.with_email email user
              | None => user
              end in
            let user2 :=
              match present (Body.newPassword b) with
              | Some newPassword =>
                  User.with_passwordHash
                    (bcrypt_hash newPassword 10 (salt env)) user1
              | None => user1
              end in
            match User_save user2 (db s) with
            | inl e => (caught e, s)
            | inr d => (mkResponse 200 (JProfile (User.email user2)), set_db d s)
            end
      end
  end.

(** *** Checkout *)

(** Mongoose's cast to a [Number] path: [undefined] and [null] stay, a
    number is stored as it is, any other value is up to the library. *)
Definition castNumber (v : option JsValue) : Result (option Number) :=
  match v with
  | None | Some JsNull => ok None
  | Some (JsNum n) => ok (Some n)
  | Some w =>
      match Number_cast w with
      | Some n => ok n
      | None => throw CastError
      end
  end.

(** The same for the [ObjectId] path [productId]. *)
Definition castProductId (v : option JsValue) : Result (option ObjectId) :=
  match v with
  | None | Some JsNull => ok None
  | Some (JsId id) => ok (Some id)
  | Some w =>
      match ObjectId_cast w with
      | Some id => ok id
      | None => throw CastError
      end
  end.

(** One element of [items] as a subdocument. *)
Definition cast_item (i : Item.t) : Result OrderItem.t :=
  productId ← castProductId (Item.productId i);
  price ← castNumber (Item.price i);
  quantity ← castNumber (Item.quantity i);
  ok (OrderItem.mk productId (Item.name i) price quantity).

Fixpoint cast_items (l : list Item.t) : Result (list OrderItem.t) :=
  match l with
  | [] => ok []
  | i :: l' =>
      i' ← cast_item i;
      l'' ← cast_items l';
      ok (i' :: l'')
  end.

Definition cast_address (a : DeliveryAddress.t) : Result Address.t :=
  lat ← castNumber (DeliveryAddress.lat a);
  lng ← castNumber (DeliveryAddress.lng a);
  ok (Address.mk (DeliveryAddress.name a) (DeliveryAddress.phone a)
        (DeliveryAddress.line1 a) (DeliveryAddress.line2 a)
        (DeliveryAddress.city a) (DeliveryAddress.pincode a) lat lng
        (DeliveryAddress.notes a)).

(** The three values a checkout hands to [Order.create], cast to the paths
    [items], [total] and [deliveryAddress] of [orderSchema]. *)
Definition Order_cast (items : list Item.t) (total : option JsValue)
    (deliveryAddress : option DeliveryAddress.t)
    : Result (list OrderItem.t * option Number * option Address.t) :=
  items' ← cast_items items;
  total' ← castNumber total;
  deliveryAddress' ← match deliveryAddress with
                      | Some a => Some <$> cast_address a
                      | None => ok None
                      end;
  ok (items', total', deliveryAddress').

(** [Order.create({ userId, items, total, deliveryAddress, status })]: the
    document is cast to the schema, and stored when every value casts. *)
Definition Order_create (userId : ObjectId) (items : list Item.t)
    (total : option JsValue) (deliveryAddress : option DeliveryAddress.t)
    (status : string) (now : Z) (d : Db) : Result (Order.t * Db) :=
  '(items', total', deliveryAddress') ← Order_cast items total deliveryAddress;
  let o := Order.mk (fresh (dom (orders d))) userId items' total'
                    deliveryAddress' status now in
  ok (o, set_orders (<[Order._id o := o]> (orders d)) d).

(** The address [guest+${Date.now()}@local]. *)
Definition guest_email (now : Z) : string :=
  "guest+" ++ pretty now ++ "@local".

(** [POST /api/placeGuestOrder] *)
Definition placeGuestOrder : Handler := λ env req s,
  let b := Request.body req in
  match Body.items b with
  | None | Some [] => (error 400 "No items", s)
  | Some items =>
      let deliveryAddress := Body.deliveryAddress b in
      match User_create
              (or_else (deliveryAddress ≫= DeliveryAddress.name) "Guest")
              (guest_email (now env))
              (bcrypt_hash (randomPassword env) 8 (salt env))
              (Some (or_else (deliveryAddress ≫= DeliveryAddress.phone) ""))
              (now env) (db s) with
      | inl e => (caught e, s)
      | inr (guest, d1) =>
          match Order_create (User._id guest) items (Body.total b)
                             deliveryAddress "pending" (now env) d1 with
          | inl e => (caught e, set_db d1 s)
          | inr (order, d2) =>
              let '(socks, _) :=
                broadcastNewOrder
                  (OrderSummary.mk (Order._id order) (User.name guest)
                     (OrderSummary.Submitted deliveryAddress) items
                     (Order.total order) (Order.createdAt order)
                     (Order.status order))
                  (sseClients s) (sockets s) in
              (mkResponse 201 (JOrderPlaced (Order._id order)),
               mkServer d2 (sseClients s) socks)
          end
      end
  end.

(** [POST /api/orders], behind [authMiddleware] *)
Definition placeOrder : Handler := λ env req s,
  let b := Request.body req in
  match Body.items b with
  | None | Some [] => (error 400 "No items", s)
  | Some items =>
      match Request.user req with
      | None => (caught TypeError, s)
      | Some ru =>
          match User_findById (Claims.id ru) (db s) with
          | None => (error 404 "User not found", s)
          | Some user =>
              match Order_create (User._id user) items (Body.total b)
                                 (Body.deliveryAddress b) "pending" (now env)
                                 (db s) with
              | inl e => (caught e, s)
              | inr (order, d1) =>
                  let '(socks, _) :=
                    broadcastNewOrder
                      (OrderSummary.mk (Order._id order) (User.name user)
                         (OrderSummary.Stored (Order.deliveryAddress order))
                         items (Order.total order) (Order.createdAt order)
                         (Order.status order))
                      (sseClients s) (sockets s) in
                  (mkResponse 201 (JOrderPlaced (Order._id order)),
                   mkServer d1 (sseClients s) socks)
              end
          end
      end
  end.

(** *** Admin orders *)

(** [GET /api/admin/orders] *)
Definition adminOrders : Handler := λ env req s,
  (mkResponse 200 (JOrders (Order_find_populated (db s))), s).

(** [DELETE /api/admin/orders/:id] *)
Definition adminDeleteOrder : Handler := λ env req s,
  match Order_findByIdAndDelete (Request.params_id req) (db s) with
  | inl e => (caught e, s)
  | inr (_, d) => (mkResponse 200 JSuccess, set_db d s)
  end.

(** [PUT /api/admin/orders/:id/status] *)
Definition adminOrderStatus : Handler := λ env req s,
  match Order_findByIdAndUpdate (Request.params_id req)
          (or_else (Body.status (Request.body req)) "completed") (db s) with
  | inl e => (caught e, s)
  | inr (None, _) => (error 404 "Order not found", s)
  | inr (Some order, d) => (mkResponse 200 (JOrder order), set_db d s)
  end.

(** *** Admin product CRUD *)

(** [POST /api/admin/products] *)
Definition adminCreateProduct : Handler := λ env req s,
  let b := Request.body req in
  match present (Body.name b), present (Body.price b) with
  | Some name, Some price =>
      let uploaded : Result string :=
        match Request.file req with
        | Some _ =>
            match uploadResult env with
            | inl e => throw e
            | inr secure_url => ok (or_else secure_url "")
            end
        | None => ok ""
        end in
      match uploaded with
      | inl e => (caught e, s)
      | inr imageUrl =>
          match Product_create name (Body.description b) (Number_of price)
                  (Body.category b) (Body.unit b) imageUrl (now env) (db s) with
          | inl e => (caught e, s)
          | inr (product, d) => (mkResponse 201 (JProduct product), set_db d s)
          end
      end
  | _, _ => (error 400 "Name and price are required", s)
  end.

(** The [update] object after the [undefined] keys are deleted. *)
Definition product_update (b : Body.t) : ProductUpdate.t :=
  ProductUpdate.mk (Body.name b) (Body.description b)
    (match Body.price b with
     | Some price => if String.eqb price "" then None else Some (Number_of price)
     | None => None
     end)
    (Body.category b) (Body.unit b) None.

(** [PUT /api/admin/products/:id] *)
Definition adminUpdateProduct : Handler := λ env req s,
  let update := product_update (Request.body req) in
  let uploaded : Result ProductUpdate.t :=
    match Request.file req with
    | Some _ =>
        match uploadResult env with
        | inl e => throw e
        | inr secure_url =>
            ok (ProductUpdate.with_image (or_else secure_url "") update)
        end
    | None => ok update
    end in
  match uploaded with
  | inl e => (caught e, s)
  | inr update =>
      match Product_findByIdAndUpdate (Request.params_id req) update (db s) with
      | inl e => (caught e, s)
      | inr (None, _) => (error 404 "Product not found", s)
      | inr (Some product, d) => (mkResponse 200 (JProduct product), set_db d s)
      end
  end.

(** [DELETE /api/admin/products/:id] *)
Definition adminDeleteProduct : Handler := λ env req s,
  match Product_findByIdAndDelete (Request.params_id req) (db s) with
  | inl e => (caught e, s)
  | inr (None, _) => (error 404 "Product not found", s)
  | inr (Some _, d) => (mkResponse 200 JSuccess, set_db d s)
  end.

(** *** The routing table *)

Inductive Route :=
| POST_auth_register
| POST_auth_login
| PUT_auth_profile
| POST_placeGuestOrder
| POST_orders
| GET_admin_orders
| DELETE_admin_orders_id
| GET_events
| POST_admin_products
| PUT_admin_products_id
| DELETE_admin_products_id
| PUT_admin_orders_id_status.

(** The routes under [/api/admin/]. *)
Definition is_admin_route (r : Route) : bool :=
  match r with
  | GET_admin_orders | DELETE_admin_orders_id | POST_admin_products
  | PUT_admin_products_id | DELETE_admin_products_id
  | PUT_admin_orders_id_status => true
  | _ => false
  end.

(** The handler each route is registered with, without its middlewares. *)
Definition handler_of (r : Route) : Handler :=
  match r with
  | POST_auth_register => register
  | POST_auth_login => login
  | PUT_auth_profile => profile
  | POST_placeGuestOrder => placeGuestOrder
  | POST_orders => placeOrder
  | GET_admin_orders => adminOrders
  | DELETE_admin_orders_id => adminDeleteOrder
  | GET_events => events
  | POST_admin_products => adminCreateProduct
  | PUT_admin_products_id => adminUpdateProduct
  | DELETE_admin_products_id => adminDeleteProduct
  | PUT_admin_orders_id_status => adminOrderStatus
  end.

(** The middlewares each route is registered with, in order. *)
Definition middlewares_of (r : Route) : list Middleware :=
  match r with
  | POST_auth_register | POST_auth_login | POST_placeGuestOrder
  | GET_events => []
  | PUT_auth_profile | POST_orders => [authMiddleware]
  | GET_admin_orders | DELETE_admin_orders_id
  | DELETE_admin_products_id | PUT_admin_orders_id_status =>
      [authMiddleware; adminMiddleware]
  | POST_admin_products | PUT_admin_products_id =>
      [authMiddleware; adminMiddleware; upload_single]
  end.

Definition app (r : Route) : Handler :=
  route (middlewares_of r) (handler_of r).

(** ** Vocabulary of the properties *)

Implicit Types (env : Env) (req : Request.t) (s : Server) (r : Route).

(** A request is turned away, with [res], before the handler of the route
    runs: whatever handler is registered behind the route's middlewares,
    the outcome is [res] and the state is untouched. *)
Definition turned_away r env req s (res : Response) : Prop :=
  ∀ h : Handler, route (middlewares_of r) h env req s = (res, s).

(** The update object the handler hands to Mongoose. *)
Definition final_update (env : Env) (req : Request.t) : Result ProductUpdate.t :=
  match Request.file req with
  | Some _ =>
      match uploadResult env with
      | inl e => throw e
      | inr secure_url =>
          ok (ProductUpdate.with_image (or_else secure_url "")
                (product_update (Request.body req)))
      end
  | None => ok (product_update (Request.body req))
  end.

(** The fields of [p'] that the request did not send are those of [p]. *)
Definition omitted_fields_kept (req : Request.t) (p p' : Product.t) : Prop :=
  let b := Request.body req in
  Product._id p' = Product._id p
  ∧ Product.createdAt p' = Product.createdAt p
  ∧ (Body.name b = None → Product.name p' = Product.name p)
  ∧ (Body.description b = None → Product.description p' = Product.description p)
  ∧ (Body.price b = None → Product.price p' = Product.price p)
  ∧ (Body.category b = None → Product.category p' = Product.category p)
  ∧ (Body.unit b = None → Product.unit p' = Product.unit p)
  ∧ (Request.file req = None → Product.image p' = Product.image p).

(** The fields of [p'] that the request did send have the values sent. *)
Definition sent_fields_set (env : Env) (req : Request.t) (p' : Product.t) : Prop :=
  let b := Request.body req in
  (∀ v, Body.name b = Some v → Product.name p' = v)
  ∧ (∀ v, Body.description b = Some v → Product.description p' = Some v)
  ∧ (∀ v q, Body.price b = Some v → v ≠ "" → Number_of v = Finite q →
       Product.price p' = q)
  ∧ (∀ v, Body.category b = Some v → Product.category p' = Some v)
  ∧ (∀ v, Body.unit b = Some v → Product.unit p' = v)
  ∧ (∀ f url, Request.file req = Some f → uploadResult env = inr url →
       Product.image p' = Some (or_else url "")).

(** [res.write] would not throw on [res]. *)
Definition can_write (m : gmap N Socket.t) (res : N) : bool :=
  match m !! res with
  | Some k => Socket.writable k
  | None => false
  end.

(** The step a broadcast records for a subscriber. *)
Definition attempt (m : gmap N Socket.t) (payload : string) (c : SseClient.t) : Effect :=
  if can_write m (SseClient.res c) then Wrote (SseClient.res c) payload
  else WriteThrew (SseClient.res c).

(** How many subscribers hold the stream [res]. *)
Definition holders (res : N) (clients : list SseClient.t) : nat :=
  length (filter (λ c, SseClient.res c = res) clients).

(** A stream after [n] deliveries of [payload]. *)
Definition delivered (payload : string) (n : nat) (k : Socket.t) : Socket.t :=
  if Socket.writable k
  then Socket.mk true (Socket.head k) (Socket.written k ++ replicate n payload)%list
  else k.

(** The text of one event. *)
Definition sse_payload (o : OrderSummary.t) : string :=
  "data: " ++ JSON_stringify o ++ LF ++ LF.

(** The throwaway account of a guest checkout. *)
Definition guest_account (env : Env) (req : Request.t) (s : Server) : User.t :=
  let a := Body.deliveryAddress (Request.body req) in
  User.mk (fresh (dom (users (db s))))
          (or_else (a ≫= DeliveryAddress.name) "Guest")
          (guest_email (now env))
          (bcrypt_hash (randomPassword env) 8 (salt env))
          (Some (or_else (a ≫= DeliveryAddress.phone) ""))
          "user" [] [] (now env).

(** What Mongoose makes of the [items], [total] and [deliveryAddress] of a
    request. *)
Definition cast_of (req : Request.t)
    : Result (list OrderItem.t * option Number * option Address.t) :=
  let b := Request.body req in
  Order_cast (default [] (Body.items b)) (Body.total b) (Body.deliveryAddress b).

(** A request whose [items], [total] and [deliveryAddress] have the types
    of the schema already, with the values [sent]. *)
Definition sends (req : Request.t)
    (sent : list OrderItem.t * option Number * option Address.t) : Prop :=
  let b := Request.body req in
  Body.items b = Some (Item.sent <$> sent.1.1)
  ∧ Body.total b = JsNum <$> sent.1.2
  ∧ Body.deliveryAddress b = DeliveryAddress.sent <$> sent.2.

(** The order document a checkout stores for the account [owner] when the
    submitted values cast to [cast]. *)
Definition submitted_order (env : Env) (s : Server) (owner : ObjectId)
    (cast : list OrderItem.t * option Number * option Address.t) : Order.t :=
  Order.mk (fresh (dom (orders (db s)))) owner cast.1.1 cast.1.2 cast.2
           "pending" (now env).

(** The summaries the two checkouts broadcast. *)
Definition guest_summary (req : Request.t) (guest : User.t) (o : Order.t)
    : OrderSummary.t :=
  let b := Request.body req in
  OrderSummary.mk (Order._id o) (User.name guest)
                  (OrderSummary.Submitted (Body.deliveryAddress b))
                  (default [] (Body.items b)) (Order.total o)
                  (Order.createdAt o) (Order.status o).

Definition account_summary (req : Request.t) (user : User.t) (o : Order.t)
    : OrderSummary.t :=
  let b := Request.body req in
  OrderSummary.mk (Order._id o) (User.name user)
                  (OrderSummary.Stored (Order.deliveryAddress o))
                  (default [] (Body.items b)) (Order.total o)
                  (Order.createdAt o) (Order.status o).

(** The routes that write to the catalog. *)
Definition is_catalog_mutation (r : Route) : bool :=
  match r with
  | POST_admin_products | PUT_admin_products_id | DELETE_admin_products_id => true
  | _ => false
  end.

(** A sequence of requests, served one after the other. *)
Fixpoint serve (reqs : list (Route * Env * Request.t)) (s : Server) : Server :=
  match reqs with
  | [] => s
  | (r, env, req) :: reqs' => serve reqs' (app r env req s).2
  end.

(** The order a successful checkout answers with is stored, new, and holds
    the values [cast] for the account [owner]. *)
Definition placed_as_submitted
    (cast : list OrderItem.t * option Number * option Address.t)
    (owner : ObjectId) (s : Server) (out : Response * Server) : Prop :=
  ∃ order,
    out.1 = mkResponse 201 (JOrderPlaced (Order._id order))
    ∧ orders (db s) !! Order._id order = None
    ∧ orders (db out.2) !! Order._id order = Some order
    ∧ (∀ other, other ≠ Order._id order →
         orders (db out.2) !! other = orders (db s) !! other)
    ∧ products (db out.2) = products (db s)
    ∧ Order.userId order = owner
    ∧ Order.items order = cast.1.1
    ∧ Order.total order = cast.1.2
    ∧ Order.deliveryAddress order = cast.2
    ∧ Order.status order = "pending".


End Server.


(** ** A reference instantiation of the libraries

    Small stand-ins for bcrypt, jsonwebtoken, [JSON.stringify] and
    [Number], used to run the handlers on concrete requests. *)

Module Demo.

Definition bcrypt_hash (password : string) (rounds : nat) (salt : string) : string :=
  "$2a$" ++ pretty rounds ++ "$" ++ salt ++ "$" ++ password.

Definition bcrypt_compare (password hash : string) : bool :=
  String.eqb hash (bcrypt_hash password 10 "salt")
  || String.eqb hash (bcrypt_hash password 8 "salt").

Definition shopper : Claims.t := Claims.mk 1%N "user" "Asha" 1700000000 1700604800.
Definition manager : Claims.t := Claims.mk 0%N "admin" "Admin" 1700000000 1700604800.

Definition jwt_encode (c : Claims.t) : string :=
  if String.eqb (Claims.role c) "admin" then "manager.jwt" else "shopper.jwt".

Definition jwt_decode (t : string) : option Claims.t :=
  if String.eqb t "manager.jwt" then Some manager
  else if String.eqb t "shopper.jwt" then Some shopper
  else None.

Definition JSON_stringify (o : OrderSummary.t) : string :=
  "{id:" ++ pretty (OrderSummary.id o) ++ ",userName:" ++ OrderSummary.userName o ++ "}".

Definition Number_of (s : string) : JsNumber :=
  if String.eqb s "90" then Finite 90%Q
  else if String.eqb s "60" then Finite 60%Q
  else if String.eqb s "75" then Finite 75%Q
  else NaN.

(** Numeric strings and booleans cast to numbers, the empty string to
    [null]; nothing else does. *)
Definition Number_cast (v : JsValue) : option (option Number) :=
  match v with
  | JsStr s =>
      if String.eqb s "" then Some None
      else match Number_of s with
           | Finite q => Some (Some q)
           | NaN => None
           end
  | JsBool b => Some (Some (if b then 1%Q else 0%Q))
  | _ => None
  end.

Definition ObjectId_cast (v : JsValue) : option (option ObjectId) := None.

Definition libs : Libraries :=
  Build_Libraries bcrypt_hash bcrypt_compare jwt_encode jwt_decode
                  JSON_stringify Number_of Number_cast ObjectId_cast.

Definition env : Env :=
  mkEnv 1700000000000 (double 1 (-1)) "k3j2h1x" "salt"
        (inr (Some "https://cdn.example/rice.png")).

Definition later : Env :=
  mkEnv 1700000005000 (double 1 (-2)) "p9q8r7s" "salt"
        (inr (Some "https://cdn.example/milk.png")).

Definition rice : OrderItem.t :=
  OrderItem.mk (Some 0%N) (Some "Rice") (Some 90%Q) (Some 2%Q).

Definition home : Address.t :=
  Address.mk (Some "A") (Some "123") (Some "X") None (Some "Y") (Some "1")
             None None None.

Definition request (auth : option string) (id : IdParam) (b : Body.t) : Request.t :=
  Request.mk auth id b None None.

Definition checkout_body : Body.t :=
  Body.checkout (Some [Item.sent rice]) (Some (JsNum 180%Q))
                (Some (DeliveryAddress.sent home)).

(** The same checkout with the price of the item sent as a word. *)
Definition priceless_body : Body.t :=
  Body.checkout (Some [Item.mk (Some (JsId 0%N)) (Some "Rice")
                               (Some (JsStr "ninety")) (Some (JsNum 2%Q))])
                (Some (JsNum 180%Q)) (Some (DeliveryAddress.sent home)).

Definition asha : User.t :=
  User.mk 1%N "Asha" "asha@example.com" (bcrypt_hash "secret" 10 "salt") None
          "user" [] [] 1690000000000.

Definition admin : User.t :=
  User.mk 0%N "Admin" "admin@grocery.com" (bcrypt_hash "admin123" 10 "salt") None
          "admin" [] [] 1680000000000.

Definition rice_product : Product.t :=
  Product.mk 0%N "Rice" (Some "Basmati rice") 90%Q (Some "Essentials") (Some "")
             "1 kg packet" 1680000000000.

Definition pending_order : Order.t :=
  Order.mk 0%N 1%N [rice] (Some 180%Q) (Some home) "pending" 1690000000001.

Definition empty_server : Server := mkServer (mkDb ∅ ∅ ∅) [] ∅.

(** The seeded shop with one registered shopper and one pending order. *)
Definition shop : Server :=
  mkServer (mkDb (<[1%N := asha]> (<[0%N := admin]> ∅))
                 (<[0%N := rice_product]> ∅)
                 (<[0%N := pending_order]> ∅))
           [] ∅.

Definition guest_checkout : Request.t :=
  request None (OtherString "") checkout_body.

Definition shopper_checkout : Request.t :=
  request (Some "Bearer shopper.jwt") (OtherString "") checkout_body.

Definition priceless_guest_checkout : Request.t :=
  request None (OtherString "") priceless_body.

Definition shopper_empty_cart : Request.t :=
  request (Some "Bearer shopper.jwt") (OtherString "")
          (Body.checkout (Some []) (Some (JsNum 0%Q))
                         (Some (DeliveryAddress.sent home))).

Definition price_change : Request.t :=
  request (Some "Bearer manager.jwt") (ObjectIdString 0%N)
          (Body.product None None (Some "75") None None).

Definition password_change : Request.t :=
  request (Some "Bearer shopper.jwt") (OtherString "")
          (Body.profile None (Some "secret") (Some "better")).

Definition bina_registers : Request.t :=
  request None (OtherString "")
          (Body.register (Some "Bina") (Some "bina@example.com") (Some "pw1") None).

Definition bina_again : Request.t :=
  request None (OtherString "")
          (Body.register (Some "Someone") (Some "bina@example.com") (Some "pw2")
                         (Some "555")).

End Demo.


(** * The remaining routes and helpers

    The public catalog routes, the account routes [/api/me] and
    [/api/orders/my], the seeding done at start-up, and the helpers of the
    pages the server sends ([escapeHtml] and the cart of the storefront). *)

Module Query.
(** [req.query] of [GET /api/products]. *)
Record t := mk { category : option string; search : option string }.
End Query.

Module Me.
(** The keys [PUT /api/me] reads from [req.body]; [addresses] is [Some]
    exactly when [Array.isArray(addresses)]. *)
Record t := mk {
  name : option string;
  phone : option string;
  addresses : option (list SavedAddress.t)
}.
End Me.

Module Account.
(** A user document after [.select('-passwordHash')]. *)
Record t := mk {
  _id : ObjectId;
  name : string;
  email : string;
  phone : option string;
  role : string;
  cart : list CartEntry.t;
  addresses : list SavedAddress.t;
  createdAt : Z
}.
End Account.

Module MeUpdated.
(** [{ id, name, email, phone, addresses }] in the answer of [PUT /api/me]. *)
Record t := mk {
  id : ObjectId;
  name : string;
  email : string;
  phone : option string;
  addresses : list SavedAddress.t
}.
End MeUpdated.

(** What a route whose document is not one of [Json] sends: the document
    with its status, one of the error responses, or 500 with the message of
    an exception that is not one of [Thrown]. *)
Inductive Answer (A : Type) :=
| Sent (code : nat) (doc : A)
| Refused (res : Response)
| Crashed.

Arguments Sent {A} code doc.
Arguments Refused {A} res.
Arguments Crashed {A}.

(** MongoDB's [$regex] with [$options: 'i']: [None] for a pattern the server
    rejects, else the test of a subject string. *)
Class RegexEngine := regex_i : string → option (string → bool).

(** ** More model methods *)

(** [sort({ name: 1 })]: strings compare by their bytes. *)
Definition by_name (a b : Product.t) : Prop :=
  String.le (Product.name a) (Product.name b).

#[local] Instance by_name_dec a b : Decision (by_name a b) :=
  decide (String.le (Product.name a) (Product.name b)).

(** [Product.find(filter).sort({ name: 1 })] for a filter given as a test. *)
Definition Product_find_sorted (keep : Product.t → bool) (d : Db) : list Product.t :=
  merge_sort by_name (filter (λ p, keep p = true) (map_to_list (products d)).*2).

(** [Order.find({ userId }).sort({ createdAt: -1 })] *)
Definition Order_find_by_user (userId : ObjectId) (d : Db) : list Order.t :=
  merge_sort newest_first
    (filter (λ o, Order.userId o = userId) (map_to_list (orders d)).*2).

(** [Product.countDocuments()] *)
Definition Product_countDocuments (d : Db) : nat := size (products d).

(** [User.countDocuments({ role })] *)
Definition User_countDocuments_role (role : string) (d : Db) : nat :=
  size (filter (λ kv, User.role kv.2 = role) (users d)).

(** One document of [Product.insertMany]: no [image], [createdAt] is now. *)
Definition Product_insert (name description category unit : string)
    (price : Number) (now : Z) (d : Db) : Db :=
  let p := Product.mk (fresh (dom (products d))) name (Some description) price
                      (Some category) None unit now in
  set_products (<[Product._id p := p]> (products d)) d.

(** [User.create({ name, email, passwordHash, role })] *)
Definition User_create_with_role (name email passwordHash role : string)
    (now : Z) (d : Db) : Result (User.t * Db) :=
  match User_findOne email d with
  | Some _ => throw DuplicateKey
  | None =>
      let u := User.mk (fresh (dom (users d))) name email passwordHash None
                       role [] [] now in
      ok (u, set_users (<[User._id u := u]> (users d)) d)
  end.

Section MoreRoutes.

Context {libs : Libraries} {regex : RegexEngine}.

(** ** Seed *)

(** [seed()]: two sample products when the catalog is empty, then the
    default admin when no account has the role; an exception ends it. *)
Definition seed (env : Env) (d : Db) : Db :=
  let d1 :=
    if decide (Product_countDocuments d = 0%nat) then
      Product_insert "Milk" "Fresh milk" "Dairy" "1 litre" 60%Q (now env)
        (Product_insert "Rice" "Basmati rice" "Essentials" "1 kg packet" 90%Q
           (now env) d)
    else d in
  if decide (User_countDocuments_role "admin" d1 = 0%nat) then
    let hash := bcrypt_hash "admin123" 10 (salt env) in
    match User_create_with_role "Admin" "admin@grocery.com" hash "admin"
            (now env) d1 with
    | inl _ => d1
    | inr (_, d2) => d2
    end
  else d1.

(** ** Products API *)

(** The filter object of [GET /api/products] as a test on products, when
    the server accepts the pattern. *)
Definition product_filter (q : Query.t) : option (Product.t → bool) :=
  let by_category (p : Product.t) : bool :=
    match present (Query.category q) with
    | Some category => bool_decide (Product.category p = Some category)
    | None => true
    end in
  match present (Query.search q) with
  | None => Some by_category
  | Some search =>
      match regex_i search with
      | None => None
      | Some test => Some (λ p, by_category p && test (Product.name p))
      end
  end.

(** [GET /api/products] *)
Definition getProducts (q : Query.t) (s : Server) : Answer (list Product.t) :=
  match product_filter q with
  | None => Crashed
  | Some keep => Sent 200 (Product_find_sorted keep (db s))
  end.

(** [GET /api/products/:id] *)
Definition getProduct : Handler := λ env req s,
  match castObjectId (Request.params_id req) with
  | inl e => (caught e, s)
  | inr id =>
      match products (db s) !! id with
      | None => (error 404 "Not found", s)
      | Some p => (mkResponse 200 (JProduct p), s)
      end
  end.

(** ** The account routes *)

Definition without_passwordHash (u : User.t) : Account.t :=
  Account.mk (User._id u) (User.name u) (User.email u) (User.phone u)
             (User.role u) (User.cart u) (User.addresses u) (User.createdAt u).

(** The handler of [GET /api/me] *)
Definition getMe (req : Request.t) (s : Server) : Answer Account.t :=
  match Request.user req with
  | None => Refused (caught TypeError)
  | Some ru =>
      match User_findById (Claims.id ru) (db s) with
      | None => Refused (error 404 "User not found")
      | Some user => Sent 200 (without_passwordHash user)
      end
  end.

(** The assignments of [PUT /api/me]. *)
Definition assign_me (b : Me.t) (u : User.t) : User.t :=
  User.mk (User._id u)
    (default (User.name u) (Me.name b))
    (User.email u) (User.passwordHash u)
    (match Me.phone b with Some phone => Some phone | None => User.phone u end)
    (User.role u) (User.cart u)
    (default (User.addresses u) (Me.addresses b))
    (User.createdAt u).

(** The handler of [PUT /api/me] *)
Definition putMe (b : Me.t) (req : Request.t) (s : Server)
    : Answer MeUpdated.t * Server :=
  match Request.user req with
  | None => (Refused (caught TypeError), s)
  | Some ru =>
      match User_findById (Claims.id ru) (db s) with
      | None => (Refused (error 404 "User not found"), s)
      | Some user =>
          let user' := assign_me b user in
          match User_save user' (db s) with
          | inl e => (Refused (caught e), s)
          | inr d =>
              (Sent 200 (MeUpdated.mk (User._id user') (User.name user')
                           (User.email user') (User.phone user')
                           (User.addresses user')),
               set_db d s)
          end
      end
  end.

(** The handler of [GET /api/orders/my] *)
Definition myOrders (req : Request.t) (s : Server) : Answer (list Order.t) :=
  match Request.user req with
  | None => Refused (caught TypeError)
  | Some ru => Sent 200 (Order_find_by_user (Claims.id ru) (db s))
  end.

(** A route behind [authMiddleware] alone. *)
Definition behind_auth {A} (env : Env) (req : Request.t)
    (h : Request.t → A) (refuse : Response → A) : A :=
  match authMiddleware env req with
  | inl res => refuse res
  | inr req' => h req'
  end.

(** [app.get('/api/me', authMiddleware, ...)] *)
Definition GET_me (env : Env) (req : Request.t) (s : Server) : Answer Account.t :=
  behind_auth env req (λ req', getMe req' s) Refused.

(** [app.put('/api/me', authMiddleware, ...)] *)
Definition PUT_me (b : Me.t) (env : Env) (req : Request.t) (s : Server)
    : Answer MeUpdated.t * Server :=
  behind_auth env req (λ req', putMe b req' s) (λ res, (Refused res, s)).

(** [app.get('/api/orders/my', authMiddleware, ...)] *)
Definition GET_orders_my (env : Env) (req : Request.t) (s : Server)
    : Answer (list Order.t) :=
  behind_auth env req (λ req', myOrders req' s) Refused.

End MoreRoutes.

(** ** Helpers of the pages *)

(** The character [U+0022]. *)
Definition dquote : Ascii.ascii := Ascii.ascii_of_nat 34.

(** The replacement [escapeHtml] makes for one character. *)
Definition escape_char (c : Ascii.ascii) : string :=
  if Ascii.eqb c "&" then "&amp;"
  else if Ascii.eqb c "<" then "&lt;"
  else if Ascii.eqb c ">" then "&gt;"
  else if Ascii.eqb c dquote then "&quot;"
  else if Ascii.eqb c "'" then "&#39;"
  else String c "".

Fixpoint escape (s : string) : string :=
  match s with
  | EmptyString => ""
  | String c r => escape_char c +:+ escape r
  end.

(** [escapeHtml(s)]: the falsy argument reads as the empty string, then each
    of the five characters is replaced by its entity, on the bytes of the
    string. *)
Definition escapeHtml (s : option string) : string := escape (or_else s "").

(** The [cart] object of the storefront: product id to quantity, keys in
    insertion order. *)
Definition Cart := list (string * Double).

(** [cart[id]] *)
Fixpoint cart_get (id : string) (cart : Cart) : option Double :=
  match cart with
  | [] => None
  | (k, v) :: rest => if String.eqb k id then Some v else cart_get id rest
  end.

(** [cart[id] = v] *)
Fixpoint cart_set (id : string) (v : Double) (cart : Cart) : Cart :=
  match cart with
  | [] => [(id, v)]
  | (k, w) :: rest =>
      if String.eqb k id then (k, v) :: rest
      else (k, w) :: cart_set id v rest
  end.

(** [delete cart[id]] *)
Fixpoint cart_delete (id : string) (cart : Cart) : Cart :=
  match cart with
  | [] => []
  | (k, w) :: rest =>
      if String.eqb k id then rest else (k, w) :: cart_delete id rest
  end.

(** [x || d] on a number: [0], [-0] and [NaN] are falsy. *)
Definition number_or (x : option Double) (d : Double) : Double :=
  match x with
  | Some (SpecFloat.S754_zero _) | Some SpecFloat.S754_nan | None => d
  | Some v => v
  end.

(** [addToCart(id)]; [qEl] is the quantity field when the page has it, as
    [parseInt] reads it. *)
Definition addToCart (qEl : option Double) (id : string) (cart : Cart) : Cart :=
  let qty := match qEl with
             | Some parsed => number_or (Some parsed) (double 1 0)
             | None => double 1 0
             end in
  cart_set id (Double_add (number_or (cart_get id cart) (double 0 0)) qty) cart.

(** [changeQty(id, delta)] *)
Definition changeQty (id : string) (delta : Double) (cart : Cart) : Cart :=
  let cart' :=
    cart_set id (Double_add (number_or (cart_get id cart) (double 0 0)) delta)
             cart in
  match cart_get id cart' with
  | Some v => if Double_leb v (double 0 0) then cart_delete id cart' else cart'
  | None => cart'
  end.

(** [removeItem(id)] *)
Definition removeItem (id : string) (cart : Cart) : Cart := cart_delete id cart.

(** ** More vocabulary *)

(** The request with another [Authorization] header. *)
Definition with_authorization (h : string) (r : Request.t) : Request.t :=
  Request.mk (Some h) (Request.params_id r) (Request.body r) (Request.file r)
             (Request.user r).

(** No space among the characters. *)
Fixpoint spaceless (s : string) : bool :=
  match s with
  | EmptyString => true
  | String c r => negb (Ascii.eqb c " ") && spaceless r
  end.

(** What a status update leaves of an order. *)
Definition snapshot (o : Order.t)
    : ObjectId * ObjectId * list OrderItem.t * option Number * option Address.t * Z :=
  (Order._id o, Order.userId o, Order.items o, Order.total o,
   Order.deliveryAddress o, Order.createdAt o).

(** Every subscriber's stream is in the table of streams. *)
Definition registry_ok (s : Server) : Prop :=
  ∀ c, c ∈ sseClients s → is_Some (sockets s !! SseClient.res c).

(** Accounts are stored under their own [_id] and no two share an email. *)
Definition accounts_ok (d : Db) : Prop :=
  (∀ i u, users d !! i = Some u → User._id u = i)
  ∧ (∀ i j u v, users d !! i = Some u → users d !! j = Some v →
       User.email u = User.email v → i = j).

(** The keys of a cart are pairwise distinct, as those of an object are. *)
Definition cart_ok (cart : Cart) : Prop := NoDup cart.*1.

(** Every order of [s] is still stored in [s'] with the same snapshot. *)
Definition orders_kept (s s' : Server) : Prop :=
  ∀ id o, orders (db s) !! id = Some o →
    ∃ o', orders (db s') !! id = Some o' ∧ snapshot o' = snapshot o.


(** The quantity [addToCart] adds. *)
Definition entered (qEl : option Double) : Double :=
  match qEl with
  | Some parsed => number_or (Some parsed) (double 1 0)
  | None => double 1 0
  end.


(** ** What can happen to the process state *)

Section Steps.

Context {libs : Libraries}.

(** One change of the process state: a request to a route of [app] or to
    [PUT /api/me] is served, [seed()] runs, or the connection of a
    subscriber closes and its listener runs. *)
Inductive Step :=
| Served (r : Route) (env : Env) (req : Request.t)
| ServedPutMe (b : Me.t) (env : Env) (req : Request.t)
| Seeded (env : Env)
| Closed (clientId : Number).

Definition step (x : Step) (s : Server) : Server :=
  match x with
  | Served r env req => (app r env req s).2
  | ServedPutMe b env req => (PUT_me b env req s).2
  | Seeded env => set_db (seed env (db s)) s
  | Closed clientId => on_close clientId s
  end.

Fixpoint run (steps : list Step) (s : Server) : Server :=
  match steps with
  | [] => s
  | x :: steps' => run steps' (step x s)
  end.


End Steps.

(** ** More sample data *)

Module Sample.

(** A stand-in for the regular expressions of the database: the pattern is
    read as a prefix, and an opening parenthesis alone is rejected. *)
Definition regex : RegexEngine :=
  λ pattern, if String.eqb pattern "(" then None
             else Some (λ subject, String.prefix pattern subject).

Definition new_product : Request.t :=
  Demo.request (Some "Bearer manager.jwt") (OtherString "")
               (Body.product (Some "Milk") (Some "Fresh milk") (Some "60")
                             (Some "Dairy") (Some "1 litre")).

Definition product_0 : Request.t :=
  Demo.request None (ObjectIdString 0%N) Body.empty.

Definition product_1 : Request.t :=
  Demo.request None (ObjectIdString 1%N) Body.empty.

Definition mark_completed : Request.t :=
  Demo.request (Some "Bearer manager.jwt") (ObjectIdString 0%N)
               (Body.mk None None None None None None None None None None None
                        None None (Some "completed")).

Definition shopper_session : Request.t :=
  Demo.request (Some "Bearer shopper.jwt") (OtherString "") Body.empty.

Definition manager_session : Request.t :=
  Demo.request (Some "Bearer manager.jwt") (OtherString "") Body.empty.

Definition bina_logs_in : Request.t :=
  Demo.request None (OtherString "")
               (Body.register None (Some "bina@example.com") (Some "pw1") None).

Definition admin_logs_in : Request.t :=
  Demo.request None (OtherString "")
               (Body.register None (Some "admin@grocery.com") (Some "admin123") None).

Definition new_email : Request.t :=
  Demo.request (Some "Bearer shopper.jwt") (OtherString "")
               (Body.profile (Some "asha@new.example") (Some "secret") None).

Definition taken_email : Request.t :=
  Demo.request (Some "Bearer shopper.jwt") (OtherString "")
               (Body.profile (Some "admin@grocery.com") (Some "secret") None).

Definition me : Me.t := Me.mk (Some "Asha K") None (Some []).

Definition first_tab : SseClient.t := SseClient.mk (7 # 2) 0%N.
Definition second_tab : SseClient.t := SseClient.mk (9 # 2) 1%N.

Definition two_tabs : Server :=
  mkServer (db Demo.shop) [first_tab; second_tab]
           (<[1%N := Socket.mk true 200 [LF]]> (<[0%N := Socket.mk true 200 [LF]]> ∅)).

(** Seven days to the second after [Demo.env]. *)
(** The millisecond of [Demo.env] with the random part 0.5 + 2^-14. *)
Definition same_millisecond : Env :=
  mkEnv 1700000000000 (double 8193 (-14)) "z1y2x3w" "salt" (inl UploadFailed).

Definition a_week_later : Env :=
  mkEnv 1700604800000 (double 1 (-1)) "n4m3k2q" "salt" (inl UploadFailed).

Definition basket : Cart := [("rice", double 2 0); ("milk", double 1 0)].

(** What the shop sees after a dashboard has subscribed: a guest checkout,
    a second dashboard that connects and leaves, a change of price, a
    shopper who renames the account, and the seeding. *)
Definition afterwards : list Step :=
  [Served POST_placeGuestOrder Demo.env Demo.guest_checkout;
   Served GET_events Demo.later shopper_session;
   Closed (clientId Demo.later);
   Served PUT_admin_products_id Demo.later Demo.price_change;
   ServedPutMe me Demo.later shopper_session;
   Seeded Demo.later].

End Sample.

(** * Properties *)

Section Properties.

Context {libs : Libraries}.

Implicit Types (env : Env) (req : Request.t) (s : Server) (r : Route).

(** ** Auth and role gating *)

Lemma authMiddleware_no_header env req :
  present (Request.authorization req) = None →
  authMiddleware env req = inl (error 401 "No token").
Proof. unfold authMiddleware. by intros ->. Qed.

Lemma authMiddleware_invalid env req auth :
  present (Request.authorization req) = Some auth →
  jwt_verify (String_split " "%char auth !! 1%nat) (now env) = None →
  authMiddleware env req = inl (error 401 "Invalid token").
Proof. unfold authMiddleware. by intros -> ->. Qed.

Lemma authMiddleware_verified env req auth c :
  present (Request.authorization req) = Some auth →
  jwt_verify (String_split " "%char auth !! 1%nat) (now env) = Some c →
  authMiddleware env req = inr (Request.with_user c req).
Proof. unfold authMiddleware. by intros -> ->. Qed.

Lemma authMiddleware_next env req req' :
  authMiddleware env req = inr req' →
  ∃ c, req' = Request.with_user c req.
Proof.
  unfold authMiddleware. intros Hm.
  destruct (present _); [|discriminate].
  destruct (jwt_verify _ _) as [c|]; [|discriminate].
  exists c. congruence.
Qed.

Lemma adminMiddleware_forbidden env req c :
  Request.user req = Some c →
  Claims.role c ≠ "admin" →
  adminMiddleware env req = inl (error 403 "Admin only").
Proof.
  unfold adminMiddleware. intros -> Hrole.
  destruct (String.eqb_spec (Claims.role c) "admin"); [contradiction | reflexivity].
Qed.

Lemma admin_route_middlewares r :
  is_admin_route r = true →
  ∃ ms, middlewares_of r = authMiddleware :: adminMiddleware :: ms.
Proof. destruct r; try discriminate; intros _; eexists; reflexivity. Qed.

Lemma turned_away_app r env req s res :
  turned_away r env req s res → app r env req s = (res, s).
Proof. intros Ht. apply Ht. Qed.

(** C3.  On every route under [/api/admin/], a request without an
    [Authorization] header is answered 401, a request whose token does not
    verify (malformed, or its [exp] reached) is answered 401, and a request
    whose token verifies with a role other than ['admin'] is answered 403;
    in each case the handler behind the middlewares does not run and the
    state is unchanged.  In particular an unexpired token carrying the
    claims signed for an account whose role is not ['admin'] gets 403 on
    every such route. *)
Theorem admin_routes_reject_before_handler r env req s :
  is_admin_route r = true →
  (present (Request.authorization req) = None →
     turned_away r env req s (error 401 "No token"))
  ∧ (∀ auth,
       present (Request.authorization req) = Some auth →
       jwt_verify (String_split " "%char auth !! 1%nat) (now env) = None →
       turned_away r env req s (error 401 "Invalid token"))
  ∧ (∀ auth c,
       present (Request.authorization req) = Some auth →
       jwt_verify (String_split " "%char auth !! 1%nat) (now env) = Some c →
       Claims.role c ≠ "admin" →
       turned_away r env req s (error 403 "Admin only"))
  ∧ (∀ auth token u issued,
       present (Request.authorization req) = Some auth →
       String_split " "%char auth !! 1%nat = Some token →
       token ≠ "" →
       jwt_decode token = Some (claims_of u issued) →
       (now env / 1000 < Claims.exp (claims_of u issued))%Z →
       User.role u ≠ "admin" →
       turned_away r env req s (error 403 "Admin only")).
Proof.
  intros [ms Hms]%admin_route_middlewares.
  assert (H403 : ∀ auth c,
       present (Request.authorization req) = Some auth →
       jwt_verify (String_split " "%char auth !! 1%nat) (now env) = Some c →
       Claims.role c ≠ "admin" →
       turned_away r env req s (error 403 "Admin only")).
  { intros auth c Hauth Hver Hrole h. rewrite Hms. simpl.
    rewrite (authMiddleware_verified _ _ _ _ Hauth Hver).
    by rewrite (adminMiddleware_forbidden _ _ c). }
  repeat split.
  - intros Hnone h. rewrite Hms. simpl.
    by rewrite authMiddleware_no_header.
  - intros auth Hauth Hver h. rewrite Hms. simpl.
    by rewrite (authMiddleware_invalid _ _ _ Hauth Hver).
  - exact H403.
  - intros auth token u issued Hauth Htok Hne Hdec Hexp Hrole.
    apply (H403 auth (claims_of u issued)); [done | | done].
    rewrite Htok. unfold jwt_verify.
    destruct (String.eqb_spec token ""); [contradiction|].
    rewrite Hdec.
    destruct (Z.leb_spec (Claims.exp (claims_of u issued)) (now env / 1000)); [lia | done].
Qed.

(** ** Empty or missing item lists *)

Lemma placeGuestOrder_no_items env req s :
  Body.items (Request.body req) = None ∨ Body.items (Request.body req) = Some [] →
  placeGuestOrder env req s = (error 400 "No items", s).
Proof. unfold placeGuestOrder. by intros [-> | ->]. Qed.

Lemma placeOrder_no_items env req s :
  Body.items (Request.body req) = None ∨ Body.items (Request.body req) = Some [] →
  placeOrder env req s = (error 400 "No items", s).
Proof. unfold placeOrder. by intros [-> | ->]. Qed.

(** C5.  A checkout whose [items] is missing or the empty list is answered
    400 ['No items'] and leaves the whole state, hence the orders, as it
    was: on the guest route for every request, on the authenticated route
    for every request that passes [authMiddleware]. *)
Theorem checkout_without_items_is_rejected env req s :
  Body.items (Request.body req) = None ∨ Body.items (Request.body req) = Some [] →
  app POST_placeGuestOrder env req s = (error 400 "No items", s)
  ∧ (∀ req', authMiddleware env req = inr req' →
       app POST_orders env req s = (error 400 "No items", s)).
Proof.
  intros Hitems. split.
  - by apply placeGuestOrder_no_items.
  - intros req' Hauth. unfold app. simpl. rewrite Hauth.
    apply placeOrder_no_items.
    destruct (authMiddleware_next _ _ _ Hauth) as [c ->]. exact Hitems.
Qed.

(** ** Admin deletes *)

Lemma adminDeleteOrder_any env req s id :
  Request.params_id req = ObjectIdString id →
  adminDeleteOrder env req s
  = (mkResponse 200 JSuccess,
     set_db (set_orders (delete id (orders (db s))) (db s)) s).
Proof. unfold adminDeleteOrder, Order_findByIdAndDelete. by intros ->. Qed.

Lemma adminDeleteProduct_found env req s id p :
  Request.params_id req = ObjectIdString id →
  products (db s) !! id = Some p →
  adminDeleteProduct env req s
  = (mkResponse 200 JSuccess,
     set_db (set_products (delete id (products (db s))) (db s)) s).
Proof.
  unfold adminDeleteProduct, Product_findByIdAndDelete.
  intros -> Hp. simpl. by rewrite Hp.
Qed.

Lemma adminDeleteProduct_missing env req s id :
  Request.params_id req = ObjectIdString id →
  products (db s) !! id = None →
  adminDeleteProduct env req s = (error 404 "Product not found", s).
Proof.
  unfold adminDeleteProduct, Product_findByIdAndDelete.
  intros -> Hp. simpl. by rewrite Hp.
Qed.

(** C6, as the handlers have it.  For every ObjectId, the admin order delete
    answers 200 and removes the order under that id if there is one,
    whether or not there is one and whatever its status; the admin product
    delete answers 200 and removes the product when there is one under that
    id, and answers 404 ['Product not found'] with the state unchanged when
    there is none. *)
Theorem admin_delete_by_id env req s id :
  Request.params_id req = ObjectIdString id →
  (adminDeleteOrder env req s).1 = mkResponse 200 JSuccess
  ∧ orders (db (adminDeleteOrder env req s).2) = delete id (orders (db s))
  ∧ (∀ o status,
       orders (db s) !! id = Some o →
       let s' := set_db (set_orders (<[id := Order.with_status status o]> (orders (db s))) (db s)) s in
       adminDeleteOrder env req s' = (mkResponse 200 JSuccess, (adminDeleteOrder env req s).2))
  ∧ (is_Some (products (db s) !! id) →
       adminDeleteProduct env req s
       = (mkResponse 200 JSuccess,
          set_db (set_products (delete id (products (db s))) (db s)) s))
  ∧ (products (db s) !! id = None →
       adminDeleteProduct env req s = (error 404 "Product not found", s)).
Proof.
  intros Hid. rewrite (adminDeleteOrder_any _ _ _ _ Hid). simpl.
  repeat split.
  - intros o status Ho. rewrite (adminDeleteOrder_any _ _ _ _ Hid). simpl.
    unfold set_db, set_orders. simpl. by rewrite delete_insert_eq.
  - intros [p Hp]. by apply adminDeleteProduct_found with p.
  - by apply adminDeleteProduct_missing.
Qed.

(** ** Accounts and the unique email *)

(** Closes the branches of a handler in which nothing is left to decide. *)
Ltac settle :=
  repeat split; simpl; try done; intros; try congruence; try contradiction.

Lemma User_findOne_is_Some e d id u :
  users d !! id = Some u → User.email u = e → is_Some (User_findOne e d).
Proof.
  intros Hu He. unfold User_findOne.
  apply fmap_is_Some.
  apply (list_find_elem_of _ _ (id, u)); [|done].
  by apply elem_of_map_to_list.
Qed.

Lemma User_findOne_None e d :
  User_findOne e d = None ↔ ∀ id u, users d !! id = Some u → User.email u ≠ e.
Proof.
  unfold User_findOne. rewrite fmap_None, list_find_None, Forall_forall.
  split.
  - intros H id u Hu. apply (H (id, u)). by apply elem_of_map_to_list.
  - intros H [id u] Hin%elem_of_map_to_list. by apply (H id u).
Qed.

Lemma fresh_id_unused {A} (m : gmap N A) : m !! fresh (dom m) = None.
Proof. apply not_elem_of_dom, is_fresh. Qed.

Lemma User_create_ok name email passwordHash phone now d u d' :
  User_create name email passwordHash phone now d = inr (u, d') →
  User_findOne email d = None
  ∧ u = User.mk (fresh (dom (users d))) name email passwordHash phone "user" [] [] now
  ∧ d' = set_users (<[User._id u := u]> (users d)) d.
Proof.
  unfold User_create. destruct (User_findOne email d); [discriminate|].
  intros [= <- <-]. done.
Qed.

Lemma register_created env req s :
  status (register env req s).1 = 201%nat →
  ∃ name email password,
    present (Body.name (Request.body req)) = Some name
    ∧ present (Body.email (Request.body req)) = Some email
    ∧ present (Body.password (Request.body req)) = Some password
    ∧ User_findOne email (db s) = None
    ∧ let u := User.mk (fresh (dom (users (db s)))) name email
                       (bcrypt_hash password 10 (salt env))
                       (Body.phone (Request.body req)) "user" [] [] (now env) in
      register env req s
      = (mkResponse 201 (JAuth (jwt_sign u (now env)) (view u)),
         set_db (set_users (<[User._id u := u]> (users (db s))) (db s)) s).
Proof.
  unfold register.
  destruct (present (Body.name _)) as [name|]; [|discriminate].
  destruct (present (Body.email _)) as [email|]; [|discriminate].
  destruct (present (Body.password _)) as [password|]; [|discriminate].
  destruct (User_findOne email (db s)) eqn:Hfind; [discriminate|].
  unfold User_create. rewrite Hfind. simpl. intros _.
  by exists name, email, password.
Qed.

Lemma present_Some (o : option string) v :
  present o = Some v → o = Some v ∧ v ≠ "".
Proof.
  unfold present, truthy. destruct o as [w|]; [|discriminate].
  destruct (String.eqb_spec w ""); [discriminate|]. simpl. by intros [= ->].
Qed.

Lemma register_email_taken env req s email id u :
  present (Body.email (Request.body req)) = Some email →
  users (db s) !! id = Some u →
  User.email u = email →
  status (register env req s).1 = 400%nat
  ∧ (register env req s).2 = s
  ∧ (present (Body.name (Request.body req)) ≠ None →
     present (Body.password (Request.body req)) ≠ None →
     (register env req s).1 = error 400 "Email exists").
Proof.
  intros Hemail Hu He. unfold register.
  rewrite Hemail.
  destruct (present (Body.name _)) as [name|]; [|settle].
  destruct (present (Body.password _)) as [password|]; [|settle].
  destruct (User_findOne_is_Some email (db s) id u Hu He) as [v ->]. settle.
Qed.

(** C9.  After a registration that created an account (201), a second
    registration with the same email is answered 400 (with ['Email exists']
    when its name and password are present), the state is exactly what it
    was after the first, and the account the first one created, which was
    not there before, is still stored unchanged. *)
Theorem second_registration_with_same_email env1 env2 req1 req2 s :
  status (register env1 req1 s).1 = 201%nat →
  Body.email (Request.body req2) = Body.email (Request.body req1) →
  let s1 := (register env1 req1 s).2 in
  status (register env2 req2 s1).1 = 400%nat
  ∧ (register env2 req2 s1).2 = s1
  ∧ (present (Body.name (Request.body req2)) ≠ None →
     present (Body.password (Request.body req2)) ≠ None →
     (register env2 req2 s1).1 = error 400 "Email exists")
  ∧ ∃ u, users (db s1) !! User._id u = Some u
         ∧ users (db (register env2 req2 s1).2) !! User._id u = Some u
         ∧ Some (User.email u) = Body.email (Request.body req1)
         ∧ users (db s) !! User._id u = None.
Proof.
  intros Hok Hsame.
  destruct (register_created _ _ _ Hok) as (name & email & password & Hn & He & Hp & Hfree & Hreg).
  simpl in Hreg. rewrite Hreg. simpl.
  set (u := User.mk _ name email _ _ _ _ _ _).
  set (s1 := set_db _ s).
  assert (Hu : users (db s1) !! User._id u = Some u) by (simpl; apply lookup_insert_eq).
  assert (He2 := He). rewrite <- Hsame in He2.
  destruct (register_email_taken env2 req2 s1 email (User._id u) u He2 Hu eq_refl)
    as (H400 & Hst & Hmsg).
  repeat split; try done.
  exists u. rewrite Hst. repeat split; try done.
  - apply present_Some in He as [-> _]. done.
  - simpl. apply fresh_id_unused.
Qed.

(** ** Profile update *)

Lemma User_save_unchanged_email u h d :
  users d !! User._id u = Some u →
  User_save (User.with_passwordHash h u) d
  = inr (set_users (<[User._id u := User.with_passwordHash h u]> (users d)) d).
Proof.
  intros Hu. unfold User_save. simpl. rewrite Hu. simpl.
  by rewrite bool_decide_eq_true_2.
Qed.

Lemma User_save_untouched u d :
  users d !! User._id u = Some u → User_save u d = inr d.
Proof.
  intros Hu. unfold User_save. rewrite Hu.
  rewrite bool_decide_eq_true_2 by done.
  rewrite insert_id by done. by destruct d.
Qed.

(** C8.  For an authenticated account [u] and a request whose
    [currentPassword] matches the stored hash and which carries no [email]:
    without a [newPassword] the response is 200 and the state is unchanged;
    with a [newPassword] the response is 200 and the only change to the
    state is that [u]'s [passwordHash] is replaced (by the hash of the new
    password when that is not the empty string), every other field of [u],
    every other account, the products and the orders staying as they were. *)
Theorem profile_update_changes_only_what_is_sent env req s c u currentPassword :
  authMiddleware env req = inr (Request.with_user c req) →
  Claims.id c = User._id u →
  users (db s) !! User._id u = Some u →
  Body.currentPassword (Request.body req) = Some currentPassword →
  bcrypt_compare (or_else (Some currentPassword) "") (User.passwordHash u) = true →
  Body.email (Request.body req) = None →
  (Body.newPassword (Request.body req) = None →
     app PUT_auth_profile env req s = (mkResponse 200 (JProfile (User.email u)), s))
  ∧ (∀ newPassword,
       Body.newPassword (Request.body req) = Some newPassword →
       ∃ hash,
         app PUT_auth_profile env req s
         = (mkResponse 200 (JProfile (User.email u)),
            set_db (set_users (<[User._id u := User.with_passwordHash hash u]>
                                 (users (db s))) (db s)) s)
         ∧ (newPassword ≠ "" → hash = bcrypt_hash newPassword 10 (salt env))).
Proof.
  intros Hauth Hid Hu Hcur Hvalid Hemail.
  unfold app. simpl. rewrite Hauth. unfold profile. simpl.
  unfold User_findById. rewrite Hid, Hu, Hcur, Hvalid, Hemail. simpl.
  split.
  - intros ->. simpl. rewrite (User_save_untouched u _ Hu). simpl.
    by destruct s as [[] ? ?].
  - intros newPassword ->. unfold present, truthy.
    destruct (String.eqb_spec newPassword "") as [->|Hne]; simpl.
    + exists (User.passwordHash u).
      rewrite (User_save_untouched u _ Hu). simpl. split; [|done].
      f_equal. replace (User.with_passwordHash (User.passwordHash u) u) with u by by destruct u.
      rewrite insert_id by done. by destruct s as [[] ? ?].
    + exists (bcrypt_hash newPassword 10 (salt env)).
      by rewrite (User_save_unchanged_email u _ _ Hu).
Qed.

(** ** Product update *)

(** What [$set] of an update object leaves alone. *)
Lemma ProductUpdate_apply_keeps (u : ProductUpdate.t) (p : Product.t) :
  let p' := ProductUpdate.apply u p in
  Product._id p' = Product._id p
  ∧ Product.createdAt p' = Product.createdAt p
  ∧ (ProductUpdate.name u = None → Product.name p' = Product.name p)
  ∧ (ProductUpdate.description u = None → Product.description p' = Product.description p)
  ∧ (ProductUpdate.price u = None → Product.price p' = Product.price p)
  ∧ (ProductUpdate.category u = None → Product.category p' = Product.category p)
  ∧ (ProductUpdate.unit u = None → Product.unit p' = Product.unit p)
  ∧ (ProductUpdate.image u = None → Product.image p' = Product.image p).
Proof.
  unfold ProductUpdate.apply. simpl.
  repeat split; by intros ->.
Qed.

(** What [$set] of an update object writes. *)
Lemma ProductUpdate_apply_sets (u : ProductUpdate.t) (p : Product.t) :
  let p' := ProductUpdate.apply u p in
  (∀ v, ProductUpdate.name u = Some v → Product.name p' = v)
  ∧ (∀ v, ProductUpdate.description u = Some v → Product.description p' = Some v)
  ∧ (∀ q, ProductUpdate.price u = Some (Finite q) → Product.price p' = q)
  ∧ (∀ v, ProductUpdate.category u = Some v → Product.category p' = Some v)
  ∧ (∀ v, ProductUpdate.unit u = Some v → Product.unit p' = v)
  ∧ (∀ v, ProductUpdate.image u = Some v → Product.image p' = Some v).
Proof.
  unfold ProductUpdate.apply. simpl.
  repeat split; by intros ? ->.
Qed.

Lemma adminUpdateProduct_unfold env req s :
  adminUpdateProduct env req s
  = match final_update env req with
    | inl e => (caught e, s)
    | inr update =>
        match Product_findByIdAndUpdate (Request.params_id req) update (db s) with
        | inl e => (caught e, s)
        | inr (None, _) => (error 404 "Product not found", s)
        | inr (Some product, d) => (mkResponse 200 (JProduct product), set_db d s)
        end
    end.
Proof. reflexivity. Qed.

Lemma final_update_fields env req u :
  final_update env req = inr u →
  let b := Request.body req in
  ProductUpdate.name u = Body.name b
  ∧ ProductUpdate.description u = Body.description b
  ∧ ProductUpdate.category u = Body.category b
  ∧ ProductUpdate.unit u = Body.unit b
  ∧ ProductUpdate.price u
    = match Body.price b with
      | Some v => if String.eqb v "" then None else Some (Number_of v)
      | None => None
      end
  ∧ ProductUpdate.image u
    = match Request.file req, uploadResult env with
      | Some _, inr url => Some (or_else url "")
      | _, _ => None
      end.
Proof.
  unfold final_update.
  destruct (Request.file req); [destruct (uploadResult env); [discriminate|]|];
    intros [= <-]; by repeat split.
Qed.

Lemma applied_update_keeps env req u p :
  final_update env req = inr u →
  omitted_fields_kept req p (ProductUpdate.apply u p).
Proof.
  intros (Hn & Hd & Hc & Hu & Hp & Hi)%final_update_fields.
  destruct (ProductUpdate_apply_keeps u p) as (K1 & K2 & K3 & K4 & K5 & K6 & K7 & K8).
  unfold omitted_fields_kept. repeat split; try done.
  - intros H. apply K3. congruence.
  - intros H. apply K4. congruence.
  - intros H. apply K5. by rewrite Hp, H.
  - intros H. apply K6. congruence.
  - intros H. apply K7. congruence.
  - intros H. apply K8. by rewrite Hi, H.
Qed.

Lemma applied_update_sets env req u p :
  final_update env req = inr u →
  sent_fields_set env req (ProductUpdate.apply u p).
Proof.
  intros (Hn & Hd & Hc & Hu & Hp & Hi)%final_update_fields.
  destruct (ProductUpdate_apply_sets u p) as (S1 & S2 & S3 & S4 & S5 & S6).
  unfold sent_fields_set. repeat split.
  - intros v H. apply S1. congruence.
  - intros v H. apply S2. congruence.
  - intros v q H Hv Hq. apply S3. rewrite Hp, H.
    destruct (String.eqb_spec v ""); [done | by rewrite Hq].
  - intros v H. apply S4. congruence.
  - intros v H. apply S5. congruence.
  - intros f url Hf Hup. apply S6. by rewrite Hi, Hf, Hup.
Qed.

(** Every way the update handler can end on a stored product. *)
Lemma adminUpdateProduct_cases env req s id old :
  Request.params_id req = ObjectIdString id →
  products (db s) !! id = Some old →
  (∃ e, adminUpdateProduct env req s = (caught e, s))
  ∨ (∃ new,
       adminUpdateProduct env req s
       = (mkResponse 200 (JProduct new),
          set_db (set_products (<[id := new]> (products (db s))) (db s)) s)
       ∧ omitted_fields_kept req old new
       ∧ sent_fields_set env req new).
Proof.
  intros Hid Hold. rewrite adminUpdateProduct_unfold.
  destruct (final_update env req) as [e|u] eqn:Hfin; [left; by exists e|].
  unfold Product_findByIdAndUpdate. rewrite Hid. simpl.
  destruct (ProductUpdate.price u) as [[|q]|] eqn:Hprice;
    [left; by eexists | | ]; rewrite Hold; right;
    (eexists; split; [reflexivity|]; split;
     [by eapply applied_update_keeps | by eapply applied_update_sets]).
Qed.

(** C7.  After [PUT /api/admin/products/:id] on a stored product, the
    product is still stored under its id and every field the request did
    not send has its previous value, the image included when no file came
    with the request; when the response is 200 the fields that were sent
    have the values sent; no other product, no account and no order
    changes. *)
Theorem product_update_keeps_omitted_fields env req s id old :
  Request.params_id req = ObjectIdString id →
  products (db s) !! id = Some old →
  let s' := (adminUpdateProduct env req s).2 in
  (∃ new, products (db s') !! id = Some new
          ∧ omitted_fields_kept req old new
          ∧ (status (adminUpdateProduct env req s).1 = 200%nat →
             sent_fields_set env req new
             ∧ json (adminUpdateProduct env req s).1 = JProduct new))
  ∧ (∀ other, other ≠ id → products (db s') !! other = products (db s) !! other)
  ∧ users (db s') = users (db s)
  ∧ orders (db s') = orders (db s).
Proof.
  intros Hid Hold.
  destruct (adminUpdateProduct_cases env req s id old Hid Hold)
    as [[e ->] | (new & -> & Hkept & Hset)]; simpl.
  - split; [|done]. exists old. split; [done|]. split; [by repeat split|].
    discriminate.
  - split; [|split; [|done]].
    + exists new. rewrite lookup_insert_eq. done.
    + intros other Hne. by rewrite lookup_insert_ne.
Qed.

(** ** The SSE fan-out *)

Lemma delivered_0 payload k : delivered payload 0 k = k.
Proof.
  unfold delivered. destruct k as [[] h w]; simpl; [|done].
  by rewrite app_nil_r.
Qed.

Lemma delivered_S payload n k :
  Socket.writable k = true →
  delivered payload n
    (Socket.mk true (Socket.head k) (Socket.written k ++ [payload])%list)
  = delivered payload (S n) k.
Proof.
  unfold delivered. intros ->. simpl. by rewrite <- app_assoc.
Qed.

Lemma broadcast_one_sockets payload c m tr :
  (broadcast_one payload c (m, tr)).1
  = if can_write m (SseClient.res c)
    then alter (delivered payload 1) (SseClient.res c) m
    else m.
Proof.
  unfold broadcast_one, res_write, can_write. simpl.
  destruct (m !! SseClient.res c) as [k|] eqn:Hk; [|done].
  destruct (Socket.writable k) eqn:Hw; [|done]. simpl.
  apply map_eq. intros h. rewrite lookup_alter.
  destruct (decide (SseClient.res c = h)) as [<-|Hne].
  - rewrite lookup_insert_eq, Hk. simpl. unfold delivered. by rewrite Hw.
  - by rewrite lookup_insert_ne.
Qed.

Lemma broadcast_one_trace payload c m tr :
  (broadcast_one payload c (m, tr)).2 = (tr ++ [attempt m payload c])%list.
Proof.
  unfold broadcast_one, res_write, attempt, can_write. simpl.
  destruct (m !! SseClient.res c) as [k|]; [|done].
  by destruct (Socket.writable k).
Qed.

Lemma can_write_after_one payload c m tr h :
  can_write (broadcast_one payload c (m, tr)).1 h = can_write m h.
Proof.
  rewrite broadcast_one_sockets.
  destruct (can_write m (SseClient.res c)) eqn:Hc; [|done].
  unfold can_write in *. rewrite lookup_alter.
  destruct (decide (SseClient.res c = h)) as [<-|]; [|done].
  destruct (m !! SseClient.res c) as [k|]; [|done]. simpl in *.
  unfold delivered. by rewrite Hc.
Qed.

Lemma fan_out_spec payload clients : ∀ m tr,
  let out := foldl (λ acc c, broadcast_one payload c acc) (m, tr) clients in
  (∀ h, out.1 !! h = delivered payload (holders h clients) <$> m !! h)
  ∧ out.2 = (tr ++ (attempt m payload <$> clients))%list.
Proof.
  induction clients as [|c clients IH]; intros m tr; simpl.
  - split; [|by rewrite app_nil_r].
    intros h. destruct (m !! h) as [k|]; [|done]. simpl.
    by rewrite delivered_0.
  - destruct (broadcast_one payload c (m, tr)) as [m1 tr1] eqn:Hone.
    pose proof (broadcast_one_sockets payload c m tr) as Hm1.
    pose proof (broadcast_one_trace payload c m tr) as Htr1.
    pose proof (can_write_after_one payload c m tr) as Hcw.
    rewrite Hone in Hm1, Htr1, Hcw. simpl in Hm1, Htr1, Hcw.
    destruct (IH m1 tr1) as [IHm IHtr]. split.
    + intros h. rewrite IHm. unfold holders. rewrite filter_cons.
      destruct (decide (SseClient.res c = h)) as [<-|Hne]; simpl.
      * rewrite Hm1. unfold can_write.
        destruct (m !! SseClient.res c) as [k|] eqn:Hk; [|by rewrite Hk].
        destruct (Socket.writable k) eqn:Hw.
        -- rewrite lookup_alter, decide_True by done. rewrite Hk. simpl.
           f_equal. unfold delivered at 2. rewrite Hw. by apply delivered_S.
        -- rewrite Hk. simpl. f_equal. unfold delivered. by rewrite Hw.
      * rewrite Hm1. destruct (can_write m (SseClient.res c)); [|done].
        by rewrite lookup_alter_ne.
    + rewrite IHtr, Htr1, <- app_assoc. simpl. do 2 f_equal.
      apply list_fmap_ext. intros _ c' _. unfold attempt. by rewrite Hcw.
Qed.

Lemma broadcastNewOrder_spec o clients m :
  (∀ h, (broadcastNewOrder o clients m).1 !! h
        = delivered (sse_payload o) (holders h clients) <$> m !! h)
  ∧ (broadcastNewOrder o clients m).2
    = Serialized o :: (attempt m (sse_payload o) <$> clients).
Proof. apply (fan_out_spec (sse_payload o) clients m [Serialized o]). Qed.

(** ** Checkout *)

(** Values that have the types of the schema are stored as they are. *)
Lemma cast_item_sent (i : OrderItem.t) : cast_item (Item.sent i) = ok i.
Proof. by destruct i as [[?|] ? [?|] [?|]]. Qed.

Lemma cast_items_sent (l : list OrderItem.t) :
  cast_items (Item.sent <$> l) = ok l.
Proof.
  induction l as [|i l IH]; [done|].
  rewrite fmap_cons. cbn [cast_items]. by rewrite cast_item_sent, IH.
Qed.

Lemma cast_address_sent (a : Address.t) :
  cast_address (DeliveryAddress.sent a) = ok a.
Proof. by destruct a as [? ? ? ? ? ? [?|] [?|] ?]. Qed.

Lemma Order_cast_sent items total deliveryAddress :
  Order_cast (Item.sent <$> items) (JsNum <$> total)
             (DeliveryAddress.sent <$> deliveryAddress)
  = ok (items, total, deliveryAddress).
Proof.
  unfold Order_cast. rewrite cast_items_sent. simpl.
  destruct total as [?|], deliveryAddress as [a|]; simpl;
    rewrite ?cast_address_sent; done.
Qed.

Lemma cast_of_sends req sent : sends req sent → cast_of req = ok sent.
Proof.
  destruct sent as [[items total] deliveryAddress].
  intros (Hitems & Htotal & Haddress). unfold cast_of.
  simpl in *. rewrite Hitems, Htotal, Haddress. apply Order_cast_sent.
Qed.

Lemma Order_create_cast userId items total deliveryAddress status now d cast :
  Order_cast items total deliveryAddress = ok cast →
  let o := Order.mk (fresh (dom (orders d))) userId cast.1.1 cast.1.2 cast.2
                    status now in
  Order_create userId items total deliveryAddress status now d
  = ok (o, set_orders (<[Order._id o := o]> (orders d)) d).
Proof.
  intros Hcast. unfold Order_create. rewrite Hcast.
  by destruct cast as [[? ?] ?].
Qed.

Lemma Order_create_throws userId items total deliveryAddress status now d e :
  Order_cast items total deliveryAddress = throw e →
  Order_create userId items total deliveryAddress status now d = throw e.
Proof. intros Hcast. unfold Order_create. by rewrite Hcast. Qed.

Lemma Order_create_ok userId items total deliveryAddress status now d o d' :
  Order_create userId items total deliveryAddress status now d = inr (o, d') →
  Order._id o = fresh (dom (orders d))
  ∧ d' = set_orders (<[Order._id o := o]> (orders d)) d.
Proof.
  unfold Order_create.
  destruct (Order_cast _ _ _) as [e|[[? ?] ?]]; [discriminate|].
  by intros [= <- <-].
Qed.

Lemma cast_of_items req l :
  Body.items (Request.body req) = Some l →
  cast_of req
  = Order_cast l (Body.total (Request.body req))
               (Body.deliveryAddress (Request.body req)).
Proof. intros Hitems. unfold cast_of. by rewrite Hitems. Qed.

Lemma placeGuestOrder_placed env req s i items cast :
  Body.items (Request.body req) = Some (i :: items) →
  User_findOne (guest_email (now env)) (db s) = None →
  cast_of req = ok cast →
  let guest := guest_account env req s in
  let order := submitted_order env s (User._id guest) cast in
  placeGuestOrder env req s
  = (mkResponse 201 (JOrderPlaced (Order._id order)),
     mkServer
       (mkDb (<[User._id guest := guest]> (users (db s))) (products (db s))
             (<[Order._id order := order]> (orders (db s))))
       (sseClients s)
       (broadcastNewOrder (guest_summary req guest order)
                          (sseClients s) (sockets s)).1).
Proof.
  intros Hitems Hfree Hcast. rewrite (cast_of_items _ _ Hitems) in Hcast.
  unfold placeGuestOrder, User_create, guest_summary.
  rewrite Hitems, Hfree. simpl.
  rewrite (Order_create_cast _ _ _ _ _ _ _ _ Hcast). simpl.
  by destruct (broadcastNewOrder _ _ _).
Qed.

Lemma placeGuestOrder_uncastable env req s i items e :
  Body.items (Request.body req) = Some (i :: items) →
  User_findOne (guest_email (now env)) (db s) = None →
  cast_of req = throw e →
  let guest := guest_account env req s in
  placeGuestOrder env req s
  = (caught e,
     set_db (set_users (<[User._id guest := guest]> (users (db s))) (db s)) s).
Proof.
  intros Hitems Hfree Hcast. rewrite (cast_of_items _ _ Hitems) in Hcast.
  unfold placeGuestOrder, User_create.
  rewrite Hitems, Hfree. simpl.
  by rewrite (Order_create_throws _ _ _ _ _ _ _ _ Hcast).
Qed.

Lemma placeGuestOrder_email_taken env req s i items u :
  Body.items (Request.body req) = Some (i :: items) →
  User_findOne (guest_email (now env)) (db s) = Some u →
  placeGuestOrder env req s = (caught DuplicateKey, s).
Proof.
  intros Hitems Htaken. unfold placeGuestOrder, User_create.
  by rewrite Hitems, Htaken.
Qed.

Lemma placeOrder_placed env req s i items c user cast :
  Body.items (Request.body req) = Some (i :: items) →
  Request.user req = Some c →
  users (db s) !! Claims.id c = Some user →
  cast_of req = ok cast →
  let order := submitted_order env s (User._id user) cast in
  placeOrder env req s
  = (mkResponse 201 (JOrderPlaced (Order._id order)),
     mkServer
       (mkDb (users (db s)) (products (db s))
             (<[Order._id order := order]> (orders (db s))))
       (sseClients s)
       (broadcastNewOrder (account_summary req user order)
                          (sseClients s) (sockets s)).1).
Proof.
  intros Hitems Hc Huser Hcast. rewrite (cast_of_items _ _ Hitems) in Hcast.
  unfold placeOrder, User_findById, account_summary.
  rewrite Hitems, Hc, Huser. simpl.
  rewrite (Order_create_cast _ _ _ _ _ _ _ _ Hcast). simpl.
  by destruct (broadcastNewOrder _ _ _).
Qed.

Lemma placeOrder_uncastable env req s i items c user e :
  Body.items (Request.body req) = Some (i :: items) →
  Request.user req = Some c →
  users (db s) !! Claims.id c = Some user →
  cast_of req = throw e →
  placeOrder env req s = (caught e, s).
Proof.
  intros Hitems Hc Huser Hcast. rewrite (cast_of_items _ _ Hitems) in Hcast.
  unfold placeOrder, User_findById.
  rewrite Hitems, Hc, Huser. simpl.
  by rewrite (Order_create_throws _ _ _ _ _ _ _ _ Hcast).
Qed.

Lemma placeOrder_account_missing env req s i items c :
  Body.items (Request.body req) = Some (i :: items) →
  Request.user req = Some c →
  users (db s) !! Claims.id c = None →
  placeOrder env req s = (error 404 "User not found", s).
Proof.
  intros Hitems Hc Huser. unfold placeOrder, User_findById.
  by rewrite Hitems, Hc, Huser.
Qed.

Lemma app_POST_orders env req s c :
  authMiddleware env req = inr (Request.with_user c req) →
  app POST_orders env req s = placeOrder env (Request.with_user c req) s.
Proof. intros Hauth. unfold app. simpl. by rewrite Hauth. Qed.

(** *** Catalog mutations leave the orders alone *)

Lemma route_preserves (P : Server → Server → Prop) ms (h : Handler) :
  (∀ s, P s s) →
  (∀ env req s, P s (h env req s).2) →
  ∀ env req s, P s (route ms h env req s).2.
Proof.
  intros Hrefl Hh. induction ms as [|m ms IH]; intros env req s; simpl.
  - apply Hh.
  - destruct (m env req); [apply Hrefl | apply IH].
Qed.

Lemma Product_create_orders name description price category unit image now d p d' :
  Product_create name description price category unit image now d = inr (p, d') →
  orders d' = orders d.
Proof. unfold Product_create. destruct price; [discriminate|]. by intros [= <- <-]. Qed.

Lemma Product_findByIdAndUpdate_orders p u d found d' :
  Product_findByIdAndUpdate p u d = inr (found, d') → orders d' = orders d.
Proof.
  unfold Product_findByIdAndUpdate, ok, throw.
  repeat case_match; intros; simplify_eq; done.
Qed.

Lemma Product_findByIdAndDelete_orders p d found d' :
  Product_findByIdAndDelete p d = inr (found, d') → orders d' = orders d.
Proof.
  unfold Product_findByIdAndDelete, ok, throw.
  repeat case_match; intros; simplify_eq; done.
Qed.

Lemma adminCreateProduct_orders env req s :
  orders (db (adminCreateProduct env req s).2) = orders (db s).
Proof.
  unfold adminCreateProduct.
  repeat (case_match; simpl; try done);
    by eapply Product_create_orders.
Qed.

Lemma adminUpdateProduct_orders env req s :
  orders (db (adminUpdateProduct env req s).2) = orders (db s).
Proof.
  unfold adminUpdateProduct.
  repeat (case_match; simpl; try done);
    by eapply Product_findByIdAndUpdate_orders.
Qed.

Lemma adminDeleteProduct_orders env req s :
  orders (db (adminDeleteProduct env req s).2) = orders (db s).
Proof.
  unfold adminDeleteProduct.
  repeat (case_match; simpl; try done);
    by eapply Product_findByIdAndDelete_orders.
Qed.

Lemma catalog_mutation_orders r env req s :
  is_catalog_mutation r = true →
  orders (db (app r env req s).2) = orders (db s).
Proof.
  intros Hr. unfold app.
  apply (route_preserves (λ s s', orders (db s') = orders (db s))); [done|].
  destruct r; try discriminate; simpl; intros.
  - apply adminCreateProduct_orders.
  - apply adminUpdateProduct_orders.
  - apply adminDeleteProduct_orders.
Qed.

Lemma serve_catalog_mutations_orders reqs s :
  Forall (λ x, is_catalog_mutation x.1.1 = true) reqs →
  orders (db (serve reqs s)) = orders (db s).
Proof.
  intros Hall. revert s.
  induction Hall as [|[[r env] req] reqs Hr _ IH]; intros s; simpl; [done|].
  rewrite IH. by apply catalog_mutation_orders.
Qed.

(** C1, as the handlers have it.  For a checkout with a non-empty item
    list.  On the guest route, when the placeholder account is created, and
    on the authenticated route, when the account of the verified token is
    stored: if Mongoose casts the submitted items, total and delivery
    address to the order schema, the response is 201 with the id of a new
    order that holds the cast values, whatever the catalog holds; if a
    value does not cast, the response is 500 and no order is stored, and
    on the guest route the placeholder account stays behind.  Values that
    have the types of the schema already always cast, to themselves, so
    the stored items, total and address are then exactly the submitted
    ones.  On the authenticated route, when the account of the token is not
    stored, the response is 404 and nothing changes.  No sequence of later
    product creations, updates and deletions changes the stored orders. *)
Theorem checkout_persists_submitted_order env req s i items :
  Body.items (Request.body req) = Some (i :: items) →
  (User_findOne (guest_email (now env)) (db s) = None →
     let guest := guest_account env req s in
     (∀ cast, cast_of req = ok cast →
        placed_as_submitted cast (User._id guest) s
          (app POST_placeGuestOrder env req s))
     ∧ (∀ e, cast_of req = throw e →
          app POST_placeGuestOrder env req s
          = (caught e,
             set_db (set_users (<[User._id guest := guest]> (users (db s)))
                               (db s)) s)))
  ∧ (∀ c user,
       authMiddleware env req = inr (Request.with_user c req) →
       users (db s) !! Claims.id c = Some user →
       (∀ cast, cast_of req = ok cast →
          placed_as_submitted cast (User._id user) s
            (app POST_orders env req s))
       ∧ (∀ e, cast_of req = throw e →
            app POST_orders env req s = (caught e, s)))
  ∧ (∀ sent, sends req sent → cast_of req = ok sent)
  ∧ (∀ c,
       authMiddleware env req = inr (Request.with_user c req) →
       users (db s) !! Claims.id c = None →
       app POST_orders env req s = (error 404 "User not found", s))
  ∧ (∀ later s',
       Forall (λ x, is_catalog_mutation x.1.1 = true) later →
       orders (db (serve later s')) = orders (db s')).
Proof.
  intros Hitems. split_and!.
  - intros Hfree guest. split.
    + intros cast Hcast. unfold app. simpl.
      rewrite (placeGuestOrder_placed env req s i items cast Hitems Hfree Hcast).
      exists (submitted_order env s (User._id guest) cast).
      simpl. split_and!; try done.
      * apply fresh_id_unused.
      * apply lookup_insert_eq.
      * intros other Hne. by rewrite lookup_insert_ne.
    + intros e Hcast. unfold app. simpl.
      by rewrite (placeGuestOrder_uncastable env req s i items e).
  - intros c user Hauth Huser. rewrite (app_POST_orders _ _ _ _ Hauth). split.
    + intros cast Hcast.
      rewrite (placeOrder_placed env (Request.with_user c req) s i items c user
                 cast Hitems eq_refl Huser Hcast).
      exists (submitted_order env s (User._id user) cast).
      simpl. split_and!; try done.
      * apply fresh_id_unused.
      * apply lookup_insert_eq.
      * intros other Hne. by rewrite lookup_insert_ne.
    + intros e Hcast.
      by apply (placeOrder_uncastable env (Request.with_user c req) s i items c user).
  - apply cast_of_sends.
  - intros c Hauth Huser. rewrite (app_POST_orders _ _ _ _ Hauth).
    by apply (placeOrder_account_missing env (Request.with_user c req) s i items c).
  - intros later s'. apply serve_catalog_mutations_orders.
Qed.

(** *** The placeholder address of a guest *)

Lemma String_length_app (a b : string) :
  String.length (a +:+ b) = (String.length a + String.length b)%nat.
Proof. induction a as [|x a IH]; simpl; [done | by rewrite IH]. Qed.

Lemma String_app_inj_r (t a b : string) : a +:+ t = b +:+ t → a = b.
Proof.
  revert b. induction a as [|x a IH]; intros [|y b] H; simpl in H.
  - done.
  - apply (f_equal String.length) in H.
    rewrite !String_length_app in H. simpl in H. lia.
  - apply (f_equal String.length) in H.
    rewrite !String_length_app in H. simpl in H. lia.
  - injection H as -> H. f_equal. by apply IH.
Qed.

(** Distinct clock readings give distinct placeholder addresses. *)
Lemma guest_email_inj t1 t2 : guest_email t1 = guest_email t2 → t1 = t2.
Proof.
  unfold guest_email. intros H.
  apply (inj (String.append "guest+")) in H.
  apply String_app_inj_r in H.
  by apply (inj pretty).
Qed.

Lemma placeGuestOrder_201 env req s :
  status (placeGuestOrder env req s).1 = 201%nat →
  ∃ i items cast,
    Body.items (Request.body req) = Some (i :: items)
    ∧ User_findOne (guest_email (now env)) (db s) = None
    ∧ cast_of req = ok cast.
Proof.
  destruct (Body.items (Request.body req)) as [[|i items]|] eqn:Hitems;
    try (unfold placeGuestOrder; rewrite Hitems; discriminate).
  destruct (User_findOne (guest_email (now env)) (db s)) as [u|] eqn:Hfree.
  { by rewrite (placeGuestOrder_email_taken env req s i items u). }
  destruct (cast_of req) as [e|cast] eqn:Hcast.
  { by rewrite (placeGuestOrder_uncastable env req s i items e). }
  intros _. by exists i, items, cast.
Qed.

(** C4, at two checkouts on one clock reading.  When a guest checkout has
    succeeded and a second one with a non-empty item list reads the same
    [Date.now()], the second one derives the same placeholder address, the
    unique index rejects the account, and the response is 500 with the
    state unchanged: no account and no order for the second guest. *)
Theorem guest_checkouts_in_one_millisecond env1 env2 req1 req2 s i items :
  status (placeGuestOrder env1 req1 s).1 = 201%nat →
  now env2 = now env1 →
  Body.items (Request.body req2) = Some (i :: items) →
  let s1 := (placeGuestOrder env1 req1 s).2 in
  placeGuestOrder env2 req2 s1 = (caught DuplicateKey, s1).
Proof.
  intros (i1 & items1 & cast & Hitems1 & Hfree & Hcast)%placeGuestOrder_201
         Hnow Hitems.
  rewrite (placeGuestOrder_placed env1 req1 s i1 items1 cast Hitems1 Hfree Hcast).
  simpl. set (guest := guest_account env1 req1 s).
  set (s1 := mkServer _ _ _).
  destruct (User_findOne_is_Some (guest_email (now env2)) (db s1)
              (User._id guest) guest) as [u Hu].
  - simpl. apply lookup_insert_eq.
  - simpl. by rewrite Hnow.
  - by apply (placeGuestOrder_email_taken env2 req2 s1 i items u).
Qed.

(** ** Broadcast and checkout together *)

Lemma placeGuestOrder_ignores_registry env req s clients socks :
  let s' := mkServer (db s) clients socks in
  (placeGuestOrder env req s').1 = (placeGuestOrder env req s).1
  ∧ db (placeGuestOrder env req s').2 = db (placeGuestOrder env req s).2.
Proof.
  simpl. unfold placeGuestOrder. simpl.
  destruct (Body.items (Request.body req)) as [[|i items]|]; try done.
  destruct (User_create _ _ _ _ _ _) as [e|[guest d1]]; [done|].
  destruct (Order_create _ _ _ _ _ _ _) as [e|[order d2]]; [done|].
  by do 2 destruct (broadcastNewOrder _ _ _).
Qed.

Lemma placeOrder_ignores_registry env req s clients socks :
  let s' := mkServer (db s) clients socks in
  (placeOrder env req s').1 = (placeOrder env req s).1
  ∧ db (placeOrder env req s').2 = db (placeOrder env req s).2.
Proof.
  simpl. unfold placeOrder. simpl.
  destruct (Body.items (Request.body req)) as [[|i items]|]; try done.
  destruct (Request.user req) as [c|]; [|done].
  destruct (User_findById _ _) as [user|]; [|done].
  destruct (Order_create _ _ _ _ _ _ _) as [e|[order d1]]; [done|].
  by do 2 destruct (broadcastNewOrder _ _ _).
Qed.

Lemma broadcastNewOrder_dom o clients m :
  dom (broadcastNewOrder o clients m).1 = dom m.
Proof.
  apply set_eq. intros h. rewrite !elem_of_dom.
  destruct (broadcastNewOrder_spec o clients m) as [-> _].
  by rewrite fmap_is_Some.
Qed.

(** C2.  [broadcastNewOrder] serialises the summary once, then attempts one
    write of that one payload per subscriber in the list, in order; a
    writable stream gets the payload appended once per subscriber holding
    it, a stream whose write throws is left as it was and the remaining
    subscribers are still served.  The response and the database of both
    checkout routes do not depend on the subscriber list or on the state
    of the streams: once the owning account is resolved and the order is
    stored the response is 201 with the new order's id.  A stream opened by
    [GET /events] after a broadcast was not there at broadcast time and
    holds only the initial line feed. *)
Theorem broadcast_is_best_effort :
  (∀ o clients m,
     (broadcastNewOrder o clients m).2
     = Serialized o :: (attempt m (sse_payload o) <$> clients)
     ∧ (∀ h, (broadcastNewOrder o clients m).1 !! h
             = delivered (sse_payload o) (holders h clients) <$> m !! h))
  ∧ (∀ env req s clients socks,
       let s' := mkServer (db s) clients socks in
       (placeGuestOrder env req s').1 = (placeGuestOrder env req s).1
       ∧ db (placeGuestOrder env req s').2 = db (placeGuestOrder env req s).2
       ∧ (placeOrder env req s').1 = (placeOrder env req s).1
       ∧ db (placeOrder env req s').2 = db (placeOrder env req s).2)
  ∧ (∀ env req s i items cast,
       Body.items (Request.body req) = Some (i :: items) →
       cast_of req = ok cast →
       (User_findOne (guest_email (now env)) (db s) = None →
          (placeGuestOrder env req s).1
          = mkResponse 201 (JOrderPlaced (fresh (dom (orders (db s))))))
       ∧ (∀ c user,
            Request.user req = Some c →
            users (db s) !! Claims.id c = Some user →
            (placeOrder env req s).1
            = mkResponse 201 (JOrderPlaced (fresh (dom (orders (db s)))))))
  ∧ (∀ o env req s,
       let s1 := mkServer (db s) (sseClients s)
                   (broadcastNewOrder o (sseClients s) (sockets s)).1 in
       let res := fresh (dom (sockets s1)) in
       sockets s !! res = None
       ∧ sockets (events env req s1).2 !! res = Some (Socket.mk true 200 [LF])
       ∧ sseClients (events env req s1).2
         = (sseClients s ++ [SseClient.mk (clientId env) res])%list).
Proof.
  split_and!.
  - intros o clients m.
    destruct (broadcastNewOrder_spec o clients m) as [Hm Htr]. by split.
  - intros env req s clients socks. simpl.
    destruct (placeGuestOrder_ignores_registry env req s clients socks) as [-> ->].
    destruct (placeOrder_ignores_registry env req s clients socks) as [-> ->].
    done.
  - intros env req s i items cast Hitems Hcast. split.
    + intros Hfree. by rewrite (placeGuestOrder_placed env req s i items cast).
    + intros c user Hc Huser.
      by rewrite (placeOrder_placed env req s i items c user cast).
  - intros o env req s. simpl. split_and!.
    + rewrite broadcastNewOrder_dom. apply fresh_id_unused.
    + apply lookup_insert_eq.
    + done.
Qed.

(** ** Who may subscribe *)





(** *** A subscriber stays connected *)










Lemma placeOrder_201 env req s :
  status (app POST_orders env req s).1 = 201%nat →
  ∃ c user i items cast,
    authMiddleware env req = inr (Request.with_user c req)
    ∧ users (db s) !! Claims.id c = Some user
    ∧ Body.items (Request.body req) = Some (i :: items)
    ∧ cast_of req = ok cast.
Proof.
  unfold app. simpl.
  destruct (authMiddleware env req) as [res|req'] eqn:Hauth.
  { unfold authMiddleware in Hauth.
    destruct (present _); [|by simplify_eq].
    destruct (jwt_verify _ _); by simplify_eq. }
  destruct (authMiddleware_next _ _ _ Hauth) as [c ->].
  destruct (Body.items (Request.body req)) as [[|i items]|] eqn:Hitems;
    try (unfold placeOrder; simpl; rewrite Hitems; discriminate).
  destruct (users (db s) !! Claims.id c) as [user|] eqn:Huser.
  2: { by rewrite (placeOrder_account_missing env (Request.with_user c req)
                     s i items c). }
  destruct (cast_of req) as [e|cast] eqn:Hcast.
  { by rewrite (placeOrder_uncastable env (Request.with_user c req)
                  s i items c user e). }
  intros _. by exists c, user, i, items, cast.
Qed.


End Properties.

(** * The properties on concrete requests *)

Section Instances.

#[local] Existing Instance Demo.libs.

(** C1: a checkout by a verified token whose account is not stored answers
    404 and stores no order. *)
Lemma checkout_of_unknown_account :
  Body.items (Request.body Demo.shopper_checkout) = Some [Item.sent Demo.rice]
  ∧ authMiddleware Demo.env Demo.shopper_checkout
    = inr (Request.with_user Demo.shopper Demo.shopper_checkout)
  ∧ app POST_orders Demo.env Demo.shopper_checkout Demo.empty_server
    = (error 404 "User not found", Demo.empty_server)
  ∧ status (app POST_orders Demo.env Demo.shopper_checkout Demo.empty_server).1
    ≠ 201%nat.
Proof. split_and!; [reflexivity | reflexivity | reflexivity | discriminate]. Qed.

Lemma checkout_persists_submitted_order_witness :
  Body.items (Request.body Demo.shopper_checkout) = Some [Item.sent Demo.rice]
  ∧ placed_as_submitted ([Demo.rice], Some 180%Q, Some Demo.home)
      (User._id (guest_account Demo.env Demo.shopper_checkout Demo.shop))
      Demo.shop (app POST_placeGuestOrder Demo.env Demo.shopper_checkout Demo.shop)
  ∧ placed_as_submitted ([Demo.rice], Some 180%Q, Some Demo.home)
      (User._id Demo.asha)
      Demo.shop (app POST_orders Demo.env Demo.shopper_checkout Demo.shop).
Proof.
  destruct (checkout_persists_submitted_order Demo.env Demo.shopper_checkout
              Demo.shop (Item.sent Demo.rice) [] eq_refl) as (Hguest & Hauth & _).
  split_and!.
  - reflexivity.
  - apply (proj1 (Hguest eq_refl)). reflexivity.
  - apply (proj1 (Hauth Demo.shopper Demo.asha eq_refl eq_refl)). reflexivity.
Defined.

(** C1: a guest checkout whose item has a word for its price answers 500
    and stores no order; the placeholder account has been created. *)
Example checkout_with_a_price_that_is_no_number :
  app POST_placeGuestOrder Demo.env Demo.priceless_guest_checkout Demo.shop
  = (caught CastError,
     set_db (set_users
               (<[2%N := guest_account Demo.env Demo.priceless_guest_checkout
                           Demo.shop]> (users (db Demo.shop)))
               (db Demo.shop)) Demo.shop)
  ∧ orders (db (app POST_placeGuestOrder Demo.env Demo.priceless_guest_checkout
                  Demo.shop).2)
    = orders (db Demo.shop).
Proof. split; reflexivity. Qed.

Lemma admin_routes_reject_before_handler_witness :
  is_admin_route DELETE_admin_orders_id = true
  ∧ app DELETE_admin_orders_id Demo.env
        (Demo.request None (ObjectIdString 0%N) Body.empty) Demo.shop
    = (error 401 "No token", Demo.shop)
  ∧ app DELETE_admin_orders_id Demo.env
        (Demo.request (Some "Bearer not.a.token") (ObjectIdString 0%N) Body.empty)
        Demo.shop
    = (error 401 "Invalid token", Demo.shop)
  ∧ app DELETE_admin_orders_id Demo.later
        (Demo.request (Some "Bearer shopper.jwt") (ObjectIdString 0%N) Body.empty)
        Demo.shop
    = (error 403 "Admin only", Demo.shop).
Proof.
  split_and!.
  - reflexivity.
  - apply turned_away_app.
    apply (admin_routes_reject_before_handler DELETE_admin_orders_id Demo.env
             (Demo.request None (ObjectIdString 0%N) Body.empty) Demo.shop eq_refl).
    reflexivity.
  - apply turned_away_app.
    apply (proj1 (proj2 (admin_routes_reject_before_handler DELETE_admin_orders_id
             Demo.env
             (Demo.request (Some "Bearer not.a.token") (ObjectIdString 0%N) Body.empty)
             Demo.shop eq_refl)) "Bearer not.a.token"); reflexivity.
  - apply turned_away_app.
    apply (proj2 (proj2 (proj2 (admin_routes_reject_before_handler
             DELETE_admin_orders_id Demo.later
             (Demo.request (Some "Bearer shopper.jwt") (ObjectIdString 0%N) Body.empty)
             Demo.shop eq_refl))) "Bearer shopper.jwt" "shopper.jwt" Demo.asha
             1700000000000%Z);
      [reflexivity | reflexivity | discriminate | reflexivity
      | vm_compute; reflexivity | discriminate].
Defined.

Lemma guest_checkouts_in_one_millisecond_witness :
  status (placeGuestOrder Demo.env Demo.guest_checkout Demo.empty_server).1 = 201%nat
  ∧ now Demo.env = now Demo.env
  ∧ Body.items (Request.body Demo.guest_checkout) = Some [Item.sent Demo.rice]
  ∧ placeGuestOrder Demo.env Demo.guest_checkout
      (placeGuestOrder Demo.env Demo.guest_checkout Demo.empty_server).2
    = (caught DuplicateKey,
       (placeGuestOrder Demo.env Demo.guest_checkout Demo.empty_server).2).
Proof.
  split_and!; [reflexivity | reflexivity | reflexivity |].
  apply (guest_checkouts_in_one_millisecond Demo.env Demo.env Demo.guest_checkout
           Demo.guest_checkout Demo.empty_server (Item.sent Demo.rice) []);
    reflexivity.
Defined.

Lemma checkout_without_items_is_rejected_witness :
  (Body.items (Request.body Demo.shopper_empty_cart) = None
   ∨ Body.items (Request.body Demo.shopper_empty_cart) = Some [])
  ∧ app POST_placeGuestOrder Demo.env Demo.shopper_empty_cart Demo.shop
    = (error 400 "No items", Demo.shop)
  ∧ app POST_orders Demo.env Demo.shopper_empty_cart Demo.shop
    = (error 400 "No items", Demo.shop).
Proof.
  assert (H : Body.items (Request.body Demo.shopper_empty_cart) = None
              ∨ Body.items (Request.body Demo.shopper_empty_cart) = Some [])
    by (right; reflexivity).
  destruct (checkout_without_items_is_rejected Demo.env Demo.shopper_empty_cart
              Demo.shop H) as [Hguest Hauth].
  split_and!; [exact H | exact Hguest |].
  apply (Hauth (Request.with_user Demo.shopper Demo.shopper_empty_cart)).
  reflexivity.
Defined.

(** C6: deleting a product that is not in the catalog answers 404. *)
Lemma delete_of_unknown_product :
  products (db Demo.shop) !! 7%N = None
  ∧ app DELETE_admin_products_id Demo.env
        (Demo.request (Some "Bearer manager.jwt") (ObjectIdString 7%N) Body.empty)
        Demo.shop
    = (error 404 "Product not found", Demo.shop).
Proof. split; reflexivity. Qed.

Lemma admin_delete_by_id_witness :
  Request.params_id (Demo.request None (ObjectIdString 0%N) Body.empty)
  = ObjectIdString 0%N
  ∧ (adminDeleteOrder Demo.env (Demo.request None (ObjectIdString 0%N) Body.empty)
       Demo.shop).1
    = mkResponse 200 JSuccess
  ∧ orders (db (adminDeleteOrder Demo.env
                  (Demo.request None (ObjectIdString 0%N) Body.empty) Demo.shop).2)
    = delete 0%N (orders (db Demo.shop))
  ∧ adminDeleteProduct Demo.env (Demo.request None (ObjectIdString 0%N) Body.empty)
      Demo.shop
    = (mkResponse 200 JSuccess,
       set_db (set_products (delete 0%N (products (db Demo.shop))) (db Demo.shop))
              Demo.shop).
Proof.
  destruct (admin_delete_by_id Demo.env
              (Demo.request None (ObjectIdString 0%N) Body.empty) Demo.shop 0%N eq_refl)
    as (Hres & Horders & _ & Hfound & _).
  split_and!; [reflexivity | exact Hres | exact Horders |].
  apply Hfound. by eexists.
Defined.

Lemma product_update_keeps_omitted_fields_witness :
  Request.params_id Demo.price_change = ObjectIdString 0%N%N
  ∧ products (db Demo.shop) !! 0%N = Some Demo.rice_product
  ∧ ∃ new,
      products (db (adminUpdateProduct Demo.env Demo.price_change Demo.shop).2) !! 0%N
      = Some new
      ∧ omitted_fields_kept Demo.price_change Demo.rice_product new.
Proof.
  split; [reflexivity|]. split; [reflexivity|].
  destruct (product_update_keeps_omitted_fields Demo.env Demo.price_change
              Demo.shop 0%N Demo.rice_product eq_refl eq_refl)
    as ((new & Hnew & Hkept & _) & _).
  exists new. by split.
Defined.

Lemma profile_update_changes_only_what_is_sent_witness :
  authMiddleware Demo.env Demo.password_change
  = inr (Request.with_user Demo.shopper Demo.password_change)
  ∧ bcrypt_compare (or_else (Some "secret") "") (User.passwordHash Demo.asha) = true
  ∧ app PUT_auth_profile Demo.env Demo.password_change Demo.shop
    = (mkResponse 200 (JProfile "asha@example.com"),
       set_db (set_users
                 (<[1%N := User.with_passwordHash (bcrypt_hash "better" 10 "salt")
                             Demo.asha]> (users (db Demo.shop)))
                 (db Demo.shop)) Demo.shop).
Proof.
  split; [reflexivity|]. split; [reflexivity|].
  assert (Hauth : authMiddleware Demo.env Demo.password_change
                  = inr (Request.with_user Demo.shopper Demo.password_change))
    by reflexivity.
  assert (Hvalid : bcrypt_compare (or_else (Some "secret") "")
                     (User.passwordHash Demo.asha) = true) by reflexivity.
  destruct (profile_update_changes_only_what_is_sent Demo.env Demo.password_change
              Demo.shop Demo.shopper Demo.asha "secret"
              Hauth eq_refl eq_refl eq_refl Hvalid eq_refl) as [_ Hnew].
  destruct (Hnew "better" eq_refl) as (hash & Hres & Hhash).
  rewrite Hres, Hhash; [reflexivity | discriminate].
Defined.

Lemma second_registration_with_same_email_witness :
  status (register Demo.env Demo.bina_registers Demo.shop).1 = 201%nat
  ∧ Body.email (Request.body Demo.bina_again) = Body.email (Request.body Demo.bina_registers)
  ∧ (register Demo.later Demo.bina_again
       (register Demo.env Demo.bina_registers Demo.shop).2).1
    = error 400 "Email exists"
  ∧ (register Demo.later Demo.bina_again
       (register Demo.env Demo.bina_registers Demo.shop).2).2
    = (register Demo.env Demo.bina_registers Demo.shop).2.
Proof.
  split; [reflexivity|]. split; [reflexivity|].
  assert (Hok : status (register Demo.env Demo.bina_registers Demo.shop).1 = 201%nat)
    by reflexivity.
  destruct (second_registration_with_same_email Demo.env Demo.later
              Demo.bina_registers Demo.bina_again Demo.shop Hok eq_refl)
    as (_ & Hsame & Hmsg & _).
  split; [|exact Hsame].
  apply Hmsg; discriminate.
Defined.

(** A guest checkout of two packets of rice: 201 with the order
    id, and the admin listing then shows the order with total 180 and
    status ['pending'], owned by the throwaway account. *)
Example guest_checkout_then_admin_listing :
  (app POST_placeGuestOrder Demo.env Demo.guest_checkout Demo.empty_server).1
  = mkResponse 201 (JOrderPlaced 0%N)
  ∧ (app GET_admin_orders Demo.later
         (Demo.request (Some "Bearer manager.jwt") (OtherString "") Body.empty)
         (app POST_placeGuestOrder Demo.env Demo.guest_checkout Demo.empty_server).2).1
    = mkResponse 200
        (JOrders
           [(Order.mk 0%N 0%N [Demo.rice] (Some 180%Q) (Some Demo.home) "pending"
                      1700000000000%Z,
             Some ("A", "guest+1700000000000@local", Some "123"))]).
Proof. split; reflexivity. Qed.


(** A dashboard that subscribed without a token holds, after the requests
    of [Sample.afterwards] and one more guest checkout, the initial line feed
    and one event for each of the two orders placed. *)
Example subscriber_hears_every_later_checkout :
  let s1 := (app GET_events Demo.env Demo.guest_checkout Demo.shop).2 in
  let s2 := run Sample.afterwards s1 in
  Socket.written
    <$> sockets (app POST_placeGuestOrder Demo.later Demo.guest_checkout s2).2 !! 0%N
  = Some [LF; ("data: {id:1,userName:A}" +:+ LF +:+ LF);
          ("data: {id:2,userName:A}" +:+ LF +:+ LF)].
Proof. reflexivity. Qed.

Example one_event_per_connected_subscriber :
  let open := (events Demo.env Demo.guest_checkout Demo.empty_server).2 in
  let broken :=
    mkServer (db open) (sseClients open)
             (<[0%N := Socket.mk false 200 [LF]]> (sockets open)) in
  Socket.written
    <$> sockets (placeGuestOrder Demo.later Demo.guest_checkout open).2 !! 0%N
  = Some [LF; ("data: {id:0,userName:A}" +:+ LF +:+ LF)]
  ∧ Socket.written
      <$> sockets (placeGuestOrder Demo.later Demo.guest_checkout broken).2 !! 0%N
    = Some [LF]
  ∧ (placeGuestOrder Demo.later Demo.guest_checkout broken).1
    = mkResponse 201 (JOrderPlaced 0%N).
Proof. split_and!; reflexivity. Qed.

End Instances.

(** * Properties of the remaining code *)

Section MoreProperties.

Context {libs : Libraries} {regex : RegexEngine}.

Implicit Types (env : Env) (req : Request.t) (s : Server) (r : Route).

(** ** The catalog: create, fetch, delete *)

(** Every way product creation can end. *)
Lemma adminCreateProduct_cases env req s :
  (∃ res, adminCreateProduct env req s = (res, s) ∧ status res ≠ 201%nat
          ∧ (present (Body.name (Request.body req)) = None
             ∨ present (Body.price (Request.body req)) = None →
             res = error 400 "Name and price are required"))
  ∨ (∃ name price q image,
       present (Body.name (Request.body req)) = Some name
       ∧ present (Body.price (Request.body req)) = Some price
       ∧ Number_of price = Finite q
       ∧ image = match Request.file req, uploadResult env with
                 | Some _, inr url => or_else url ""
                 | _, _ => ""
                 end
       ∧ let b := Request.body req in
         let p := Product.mk (fresh (dom (products (db s)))) name
                    (Body.description b) q (Body.category b) (Some image)
                    (default "" (Body.unit b)) (now env) in
         adminCreateProduct env req s
         = (mkResponse 201 (JProduct p),
            set_db (set_products (<[Product._id p := p]> (products (db s))) (db s)) s)).
Proof.
  unfold adminCreateProduct, Product_create.
  destruct (present (Body.name _)) as [name|] eqn:Hn.
  2:{ left. eexists. split; [reflexivity|]. split; [discriminate | done]. }
  destruct (present (Body.price _)) as [price|] eqn:Hp.
  2:{ left. eexists. split; [reflexivity|]. split; [discriminate | done]. }
  destruct (Request.file req) as [f|].
  - destruct (uploadResult env) as [e|url].
    + left. eexists. split; [reflexivity|]. split; [discriminate|].
      intros [?|?]; discriminate.
    + simpl. destruct (Number_of price) as [|q] eqn:Hq.
      * left. eexists. split; [reflexivity|]. split; [discriminate|].
        intros [?|?]; discriminate.
      * right. by exists name, price, q, (or_else url "").
  - simpl. destruct (Number_of price) as [|q] eqn:Hq.
    + left. eexists. split; [reflexivity|]. split; [discriminate|].
      intros [?|?]; discriminate.
    + right. by exists name, price, q, "".
Qed.

(** X1.  When [POST /api/admin/products] answers 201, the product in the
    answer is new in the catalog, has the name sent, the price [Number]
    gives for the price sent and, without a file, the empty image; [GET
    /api/products/:id] with its id then answers 200 with that same product,
    and no other product is affected. *)
Theorem created_product_can_be_fetched env req s env' req' :
  status (adminCreateProduct env req s).1 = 201%nat →
  ∃ p, (adminCreateProduct env req s).1 = mkResponse 201 (JProduct p)
       ∧ products (db s) !! Product._id p = None
       ∧ Some (Product.name p) = Body.name (Request.body req)
       ∧ (∀ v, Body.price (Request.body req) = Some v →
            Number_of v = Finite (Product.price p))
       ∧ (Request.file req = None → Product.image p = Some "")
       ∧ (Request.params_id req' = ObjectIdString (Product._id p) →
          getProduct env' req' (adminCreateProduct env req s).2
          = (mkResponse 200 (JProduct p), (adminCreateProduct env req s).2))
       ∧ (∀ other, other ≠ Product._id p →
            products (db (adminCreateProduct env req s).2) !! other
            = products (db s) !! other).
Proof.
  intros Hok.
  destruct (adminCreateProduct_cases env req s)
    as [(res & Hres & Hne & _) | (name & price & q & image & Hn & Hp & Hq & Himg & Hres)].
  { rewrite Hres in Hok. contradiction. }
  simpl in Hres. rewrite Hres. simpl. eexists. split; [reflexivity|]. simpl.
  apply present_Some in Hn as [Hn _]. apply present_Some in Hp as [Hp _].
  split_and!.
  - apply fresh_id_unused.
  - done.
  - intros v Hv. congruence.
  - intros Hfile. rewrite Hfile in Himg. by rewrite Himg.
  - intros Hid. unfold getProduct. rewrite Hid. simpl.
    by rewrite lookup_insert_eq.
  - intros other Hother. by rewrite lookup_insert_ne.
Qed.

(** X2.  Product creation that does not answer 201 leaves the whole state as
    it was.  A missing or empty name or price is answered 400; a rejected
    upload is answered 500; a price that [Number] reads as [NaN] never gives
    201. *)
Theorem failed_create_changes_nothing env req s :
  (status (adminCreateProduct env req s).1 ≠ 201%nat →
     (adminCreateProduct env req s).2 = s)
  ∧ (present (Body.name (Request.body req)) = None
     ∨ present (Body.price (Request.body req)) = None →
     adminCreateProduct env req s = (error 400 "Name and price are required", s))
  ∧ (Request.file req ≠ None → uploadResult env = inl UploadFailed →
     present (Body.name (Request.body req)) ≠ None →
     present (Body.price (Request.body req)) ≠ None →
     adminCreateProduct env req s = (caught UploadFailed, s))
  ∧ (∀ price, present (Body.price (Request.body req)) = Some price →
       Number_of price = NaN →
       status (adminCreateProduct env req s).1 ≠ 201%nat).
Proof.
  split_and!.
  - intros Hne.
    destruct (adminCreateProduct_cases env req s)
      as [(res & -> & _) | (name & price & q & image & _ & _ & _ & _ & Hres)];
      [done|].
    simpl in Hres. rewrite Hres in Hne. simpl in Hne. done.
  - intros Hmissing.
    destruct (adminCreateProduct_cases env req s)
      as [(res & -> & _ & H400) | (name & price & q & image & Hn & Hp & _)].
    + by rewrite H400.
    + destruct Hmissing; congruence.
  - intros Hfile Hup Hn Hp. unfold adminCreateProduct.
    destruct (present (Body.name _)); [|done].
    destruct (present (Body.price _)); [|done].
    destruct (Request.file req); [|done]. by rewrite Hup.
  - intros price Hp Hnan.
    destruct (adminCreateProduct_cases env req s)
      as [(res & -> & Hne & _) | (name & price' & q & image & _ & Hp' & Hq & _)];
      [done|].
    congruence.
Qed.

(** X3.  When [DELETE /api/admin/products/:id] answers 200 there was a
    product under that id, and afterwards [GET /api/products/:id] and a
    second delete both answer 404; the other products, the orders and the
    accounts are as before. *)
Theorem deleted_product_is_gone env req s env' req' id :
  Request.params_id req = ObjectIdString id →
  Request.params_id req' = ObjectIdString id →
  status (adminDeleteProduct env req s).1 = 200%nat →
  let s' := (adminDeleteProduct env req s).2 in
  is_Some (products (db s) !! id)
  ∧ getProduct env' req' s' = (error 404 "Not found", s')
  ∧ adminDeleteProduct env' req' s' = (error 404 "Product not found", s')
  ∧ (∀ other, other ≠ id → products (db s') !! other = products (db s) !! other)
  ∧ orders (db s') = orders (db s) ∧ users (db s') = users (db s).
Proof.
  intros Hid Hid' Hok.
  destruct (products (db s) !! id) as [p|] eqn:Hp.
  - rewrite (adminDeleteProduct_found env req s id p Hid Hp). simpl.
    split_and!; try done.
    + unfold getProduct. rewrite Hid'. simpl. by rewrite lookup_delete_eq.
    + apply (adminDeleteProduct_missing env' req' _ id Hid'). simpl.
      apply lookup_delete_eq.
    + intros other Hother. by rewrite lookup_delete_ne.
  - rewrite (adminDeleteProduct_missing env req s id Hid Hp) in Hok. discriminate.
Qed.

(** X4.  When [PUT /api/admin/products/:id] answers 200, [GET
    /api/products/:id] answers with the same status and document.  On an id
    with no product the update does not answer 200 and changes nothing; a
    non-empty price that [Number] reads as [NaN] is answered 500 with
    nothing changed. *)
Theorem updated_product_is_what_is_fetched env req s env' req' id :
  Request.params_id req = ObjectIdString id →
  Request.params_id req' = ObjectIdString id →
  (status (adminUpdateProduct env req s).1 = 200%nat →
     getProduct env' req' (adminUpdateProduct env req s).2
     = ((adminUpdateProduct env req s).1, (adminUpdateProduct env req s).2))
  ∧ (products (db s) !! id = None →
     status (adminUpdateProduct env req s).1 ≠ 200%nat
     ∧ (adminUpdateProduct env req s).2 = s)
  ∧ (∀ v, Body.price (Request.body req) = Some v → v ≠ "" → Number_of v = NaN →
       Request.file req = None →
       adminUpdateProduct env req s = (caught CastError, s)).
Proof.
  intros Hid Hid'. split_and!.
  - intros Hok. destruct (products (db s) !! id) as [old|] eqn:Hold.
    + destruct (adminUpdateProduct_cases env req s id old Hid Hold)
        as [[e He] | (new & Hres & _)].
      * rewrite He in Hok. discriminate.
      * rewrite Hres. unfold getProduct. rewrite Hid'. simpl.
        by rewrite lookup_insert_eq.
    + exfalso. revert Hok. rewrite adminUpdateProduct_unfold.
      destruct (final_update env req); [discriminate|].
      unfold Product_findByIdAndUpdate. rewrite Hid. simpl.
      destruct (ProductUpdate.price _) as [[|]|]; rewrite ?Hold; discriminate.
  - intros Hold. rewrite adminUpdateProduct_unfold.
    destruct (final_update env req); [by split|].
    unfold Product_findByIdAndUpdate. rewrite Hid. simpl.
    destruct (ProductUpdate.price _) as [[|]|]; rewrite ?Hold; by split.
  - intros v Hv Hne Hnan Hfile. rewrite adminUpdateProduct_unfold.
    unfold final_update. rewrite Hfile.
    unfold Product_findByIdAndUpdate. rewrite Hid. simpl. rewrite Hv.
    destruct (String.eqb_spec v ""); [done|]. by rewrite Hnan.
Qed.

(** ** Orders once placed *)

Lemma orders_kept_refl s : orders_kept s s.
Proof. intros id o Ho. by exists o. Qed.

Lemma orders_kept_trans s1 s2 s3 :
  orders_kept s1 s2 → orders_kept s2 s3 → orders_kept s1 s3.
Proof.
  intros H12 H23 id o Ho.
  destruct (H12 id o Ho) as (o2 & Ho2 & Hs2).
  destruct (H23 id o2 Ho2) as (o3 & Ho3 & Hs3).
  exists o3. split; [done | congruence].
Qed.

Lemma orders_kept_same s s' : orders (db s') = orders (db s) → orders_kept s s'.
Proof. intros Heq id o Ho. exists o. by rewrite Heq. Qed.

Lemma register_orders env req s : orders (db (register env req s).2) = orders (db s).
Proof.
  unfold register, User_create, ok, throw.
  repeat (case_match; simpl; try done); simplify_eq; done.
Qed.

Lemma login_state env req s : (login env req s).2 = s.
Proof. unfold login. repeat (case_match; simpl; try done). Qed.

Lemma profile_orders env req s : orders (db (profile env req s).2) = orders (db s).
Proof.
  unfold profile, User_save, ok, throw.
  repeat (case_match; simpl; try done); simplify_eq; done.
Qed.

Lemma placeGuestOrder_orders_kept env req s : orders_kept s (placeGuestOrder env req s).2.
Proof.
  unfold placeGuestOrder.
  destruct (Body.items (Request.body req)) as [[|i items]|];
    try apply orders_kept_refl.
  destruct (User_create _ _ _ _ _ _) as [e|[guest d1]] eqn:Hguest;
    [apply orders_kept_refl|].
  apply User_create_ok in Hguest as (_ & _ & ->).
  destruct (Order_create _ _ _ _ _ _ _) as [e|[order d2]] eqn:Horder.
  { by apply orders_kept_same. }
  apply Order_create_ok in Horder as (Hid & ->).
  destruct (broadcastNewOrder _ _ _). simpl in *.
  intros id0 o0 Ho0. exists o0. split; [|done]. simpl.
  rewrite lookup_insert_ne; [done|].
  rewrite Hid. intros <-. rewrite fresh_id_unused in Ho0. discriminate.
Qed.

Lemma placeOrder_orders_kept env req s : orders_kept s (placeOrder env req s).2.
Proof.
  unfold placeOrder.
  destruct (Body.items (Request.body req)) as [[|i items]|];
    try apply orders_kept_refl.
  destruct (Request.user req) as [c|]; [|apply orders_kept_refl].
  destruct (User_findById _ _) as [user|]; [|apply orders_kept_refl].
  destruct (Order_create _ _ _ _ _ _ _) as [e|[order d1]] eqn:Horder;
    [apply orders_kept_refl|].
  apply Order_create_ok in Horder as (Hid & ->).
  destruct (broadcastNewOrder _ _ _). simpl in *.
  intros id0 o0 Ho0. exists o0. split; [|done]. simpl.
  rewrite lookup_insert_ne; [done|].
  rewrite Hid. intros <-. rewrite fresh_id_unused in Ho0. discriminate.
Qed.

Lemma adminOrderStatus_orders_kept env req s : orders_kept s (adminOrderStatus env req s).2.
Proof.
  unfold adminOrderStatus, Order_findByIdAndUpdate.
  destruct (castObjectId (Request.params_id req)) as [e|id]; simpl;
    [apply orders_kept_refl|].
  destruct (orders (db s) !! id) as [old|] eqn:Hold; simpl;
    [|apply orders_kept_refl].
  intros id0 o0 Ho0. simpl.
  destruct (decide (id = id0)) as [->|Hne].
  - rewrite lookup_insert_eq. eexists. split; [reflexivity|].
    pose proof (eq_trans (eq_sym Hold) Ho0) as Heq. by injection Heq as ->.
  - rewrite lookup_insert_ne by done. by exists o0.
Qed.

Lemma handler_orders_kept r env req s :
  r ≠ DELETE_admin_orders_id → orders_kept s (handler_of r env req s).2.
Proof.
  intros Hr. destruct r; simpl; try done.
  - apply orders_kept_same, register_orders.
  - rewrite login_state. apply orders_kept_refl.
  - apply orders_kept_same, profile_orders.
  - apply placeGuestOrder_orders_kept.
  - apply placeOrder_orders_kept.
  - apply orders_kept_refl.
  - by apply orders_kept_same.
  - apply orders_kept_same, adminCreateProduct_orders.
  - apply orders_kept_same, adminUpdateProduct_orders.
  - apply orders_kept_same, adminDeleteProduct_orders.
  - apply adminOrderStatus_orders_kept.
Qed.

(** X5.  Through any sequence of requests to the modelled routes other than
    [DELETE /api/admin/orders/:id], an order that is stored stays stored
    under its id with the same owner, items, total, delivery address and
    creation time: only its status can change. *)
Theorem order_snapshot_is_immutable
    (reqs : list (Route * Env * Request.t)) s id o :
  Forall (λ x, x.1.1 ≠ DELETE_admin_orders_id) reqs →
  orders (db s) !! id = Some o →
  ∃ o', orders (db (serve reqs s)) !! id = Some o'
        ∧ Order._id o' = Order._id o
        ∧ Order.userId o' = Order.userId o
        ∧ Order.items o' = Order.items o
        ∧ Order.total o' = Order.total o
        ∧ Order.deliveryAddress o' = Order.deliveryAddress o
        ∧ Order.createdAt o' = Order.createdAt o.
Proof.
  intros Hall Ho.
  assert (Hkept : orders_kept s (serve reqs s)).
  { clear Ho. revert s. induction Hall as [|[[r env] req] reqs Hr _ IH];
      intros s; simpl; [apply orders_kept_refl|].
    eapply orders_kept_trans; [|apply IH].
    unfold app.
    apply (route_preserves orders_kept); [apply orders_kept_refl|].
    intros. by apply handler_orders_kept. }
  destruct (Hkept id o Ho) as (o' & Ho' & Hsnap).
  exists o'. unfold snapshot in Hsnap. simplify_eq. done.
Qed.


(** ** Listings *)

Lemma newest_first_trans : Transitive newest_first.
Proof. intros a b c. unfold newest_first. lia. Qed.

Lemma newest_first_total : Total newest_first.
Proof. intros a b. unfold newest_first. lia. Qed.

Lemma by_name_trans : Transitive by_name.
Proof. intros a b c. unfold by_name. apply transitivity. Qed.

Lemma by_name_total : Total by_name.
Proof. intros a b. unfold by_name. apply total, _. Qed.

#[local] Existing Instances newest_first_trans newest_first_total by_name_trans
  by_name_total.

Lemma StronglySorted_take {A} (R : relation A) n (l : list A) :
  StronglySorted R l → StronglySorted R (take n l).
Proof.
  intros Hs. revert n. induction Hs as [|x l Hs IH Hx]; intros [|n]; simpl;
    try constructor.
  - apply IH.
  - apply Forall_take. done.
Qed.

Lemma elem_of_values {A} (m : gmap N A) (x : A) :
  x ∈ (map_to_list m).*2 ↔ ∃ id, m !! id = Some x.
Proof.
  rewrite list_elem_of_fmap. split.
  - intros ([id y] & -> & Hin%elem_of_map_to_list). by exists id.
  - intros [id Hid]. exists (id, x). split; [done|]. by apply elem_of_map_to_list.
Qed.

(** X6.  The admin listing holds at most 500 orders, newest first, each one
    a stored order paired with the name, email and phone of the account its
    [userId] names (nothing when there is no such account); with at most
    500 orders stored it holds all of them. *)
Theorem admin_listing_is_newest_first_and_capped (d : Db) :
  let listed := (Order_find_populated d).*1 in
  (length listed ≤ 500)%nat
  ∧ StronglySorted newest_first listed
  ∧ (∀ o, o ∈ listed → ∃ id, orders d !! id = Some o)
  ∧ ((size (orders d) ≤ 500)%nat → listed ≡ₚ (map_to_list (orders d)).*2)
  ∧ (∀ o owner, (o, owner) ∈ Order_find_populated d →
       owner = (λ u, (User.name u, User.email u, User.phone u))
                 <$> users d !! Order.userId o).
Proof.
  unfold Order_find_populated.
  set (sorted := merge_sort newest_first (map_to_list (orders d)).*2).
  assert (Hfst : ((λ o, (o, (λ u, (User.name u, User.email u, User.phone u))
                              <$> users d !! Order.userId o))
                  <$> take 500 sorted).*1 = take 500 sorted).
  { rewrite <- list_fmap_compose. apply list_fmap_id. }
  simpl. rewrite Hfst. split_and!.
  - rewrite length_take. lia.
  - apply StronglySorted_take, StronglySorted_merge_sort; apply _.
  - intros o Ho. apply elem_of_values.
    apply (subseteq_take 500 sorted) in Ho.
    unfold sorted in Ho. by rewrite merge_sort_Permutation in Ho.
  - intros Hsize. rewrite take_ge.
    + apply merge_sort_Permutation.
    + unfold sorted. rewrite merge_sort_Permutation, length_fmap.
      by rewrite length_map_to_list.
  - intros o owner ([o' ?] & [= -> ->] & _)%list_elem_of_fmap. done.
Qed.

Lemma Order_find_by_user_spec userId d :
  StronglySorted newest_first (Order_find_by_user userId d)
  ∧ Order_find_by_user userId d
    ≡ₚ filter (λ o, Order.userId o = userId) (map_to_list (orders d)).*2
  ∧ (∀ o, o ∈ Order_find_by_user userId d
          ↔ Order.userId o = userId ∧ ∃ id, orders d !! id = Some o).
Proof.
  unfold Order_find_by_user. split_and!.
  - apply StronglySorted_merge_sort; apply _.
  - apply merge_sort_Permutation.
  - intros o. rewrite merge_sort_Permutation, list_elem_of_filter.
    by rewrite elem_of_values.
Qed.

(** X7.  For an authenticated caller, [GET /api/orders/my] answers 200 with
    exactly the stored orders whose [userId] is the caller's id, newest
    first and without a cap. *)
Theorem my_orders_are_exactly_the_callers env req s c :
  authMiddleware env req = inr (Request.with_user c req) →
  ∃ listed,
    GET_orders_my env req s = Sent 200 listed
    ∧ StronglySorted newest_first listed
    ∧ (∀ o, o ∈ listed
            ↔ Order.userId o = Claims.id c ∧ ∃ id, orders (db s) !! id = Some o)
    ∧ length listed
      = length (filter (λ o, Order.userId o = Claims.id c)
                       (map_to_list (orders (db s))).*2).
Proof.
  intros Hauth. unfold GET_orders_my, behind_auth. rewrite Hauth.
  unfold myOrders. simpl.
  destruct (Order_find_by_user_spec (Claims.id c) (db s)) as (Hsorted & Hperm & Hin).
  eexists. split; [reflexivity|]. split_and!; try done.
  by rewrite Hperm.
Qed.

(** X8.  After an authenticated checkout answered 201, the caller's [GET
    /api/orders/my] contains the new order, with the items, total and
    address that the submitted ones cast to (the submitted ones themselves
    when they have the types of the schema) and status ['pending'], and has
    one entry more than the caller had orders before. *)
Theorem placed_order_shows_in_my_orders env req s c user env' req' :
  authMiddleware env req = inr (Request.with_user c req) →
  authMiddleware env' req' = inr (Request.with_user c req') →
  users (db s) !! Claims.id c = Some user →
  User._id user = Claims.id c →
  status (app POST_orders env req s).1 = 201%nat →
  let s' := (app POST_orders env req s).2 in
  ∃ order listed,
    (app POST_orders env req s).1 = mkResponse 201 (JOrderPlaced (Order._id order))
    ∧ GET_orders_my env' req' s' = Sent 200 listed
    ∧ order ∈ listed
    ∧ cast_of req
      = ok (Order.items order, Order.total order, Order.deliveryAddress order)
    ∧ (∀ sent, sends req sent →
         Order.items order = sent.1.1 ∧ Order.total order = sent.1.2
         ∧ Order.deliveryAddress order = sent.2)
    ∧ Order.status order = "pending"
    ∧ length listed
      = S (length (filter (λ o, Order.userId o = Claims.id c)
                          (map_to_list (orders (db s))).*2)).
Proof.
  intros Hauth Hauth' Huser Hid Hok.
  destruct (placeOrder_201 _ _ _ Hok)
    as (_ & _ & i & items & cast & _ & _ & Hitems & Hcast).
  rewrite (app_POST_orders _ _ _ _ Hauth) in *.
  rewrite (placeOrder_placed env (Request.with_user c req) s i items c user
             cast Hitems eq_refl Huser Hcast) in *.
  set (order := submitted_order env s (User._id user) cast).
  simpl.
  unfold GET_orders_my, behind_auth. rewrite Hauth'. unfold myOrders. simpl.
  exists order. eexists. split; [reflexivity|]. split; [reflexivity|].
  set (d' := mkDb _ _ _).
  destruct (Order_find_by_user_spec (Claims.id c) d') as (_ & Hperm & Hin).
  split_and!; try done.
  - apply Hin. split; [exact Hid|]. exists (Order._id order).
    unfold d'. simpl. apply lookup_insert_eq.
  - rewrite Hcast. by destruct cast as [[? ?] ?].
  - intros sent Hsent%cast_of_sends. rewrite Hcast in Hsent.
    injection Hsent as <-. by destruct cast as [[? ?] ?].
  - rewrite Hperm. unfold d'. simpl.
    rewrite map_to_list_insert by apply fresh_id_unused.
    rewrite fmap_cons, filter_cons. simpl. by rewrite decide_True.
Qed.

Lemma product_filter_no_search q :
  present (Query.search q) = None →
  ∃ keep, product_filter q = Some keep
    ∧ ∀ p, keep p = true ↔
        (∀ c, present (Query.category q) = Some c → Product.category p = Some c).
Proof.
  intros Hs. unfold product_filter. rewrite Hs. eexists. split; [reflexivity|].
  intros p. destruct (present (Query.category q)) as [c|].
  - rewrite bool_decide_eq_true. split; [by intros H c' [= <-] | by intros H; apply H].
  - split; [by intros _ c' | done].
Qed.

Lemma product_filter_search q pat :
  present (Query.search q) = Some pat →
  match regex_i pat with
  | None => product_filter q = None
  | Some test =>
      ∃ keep, product_filter q = Some keep
        ∧ ∀ p, keep p = true ↔
            (∀ c, present (Query.category q) = Some c → Product.category p = Some c)
            ∧ test (Product.name p) = true
  end.
Proof.
  intros Hs. unfold product_filter. rewrite Hs.
  destruct (regex_i pat) as [test|]; [|done].
  eexists. split; [reflexivity|].
  intros p. rewrite andb_true_iff. destruct (present (Query.category q)) as [c|].
  - rewrite bool_decide_eq_true.
    split; intros [H1 H2]; (split; [|done]); [by intros c' [= <-] | by apply H1].
  - split; intros [H1 H2]; (split; [|done]); [by intros c' | done].
Qed.

Lemma filter_all {A} (P : A → Prop) `{∀ x, Decision (P x)} (l : list A) :
  (∀ x, P x) → filter P l = l.
Proof.
  intros HP. induction l as [|x l IH]; [done|].
  rewrite filter_cons_True by apply HP. by rewrite IH.
Qed.

(** X9.  [GET /api/products]: a search pattern the database rejects is
    answered 500; otherwise the answer is 200 with the stored products that
    pass the filter, sorted by name.  With neither a category nor a search
    (absent or empty) every product is listed; with a category alone exactly
    the products of that category are. *)
Theorem catalog_listing_is_the_filtered_catalog q s :
  (∀ pat, present (Query.search q) = Some pat → regex_i pat = None →
     getProducts q s = Crashed)
  ∧ (∀ keep, product_filter q = Some keep →
       ∃ listed,
         getProducts q s = Sent 200 listed
         ∧ StronglySorted by_name listed
         ∧ listed ≡ₚ filter (λ p, keep p = true) (map_to_list (products (db s))).*2
         ∧ (∀ p, p ∈ listed ↔ keep p = true ∧ ∃ id, products (db s) !! id = Some p))
  ∧ (present (Query.search q) = None → present (Query.category q) = None →
       ∃ listed, getProducts q s = Sent 200 listed
                 ∧ listed ≡ₚ (map_to_list (products (db s))).*2)
  ∧ (∀ c, present (Query.search q) = None → present (Query.category q) = Some c →
       ∃ listed, getProducts q s = Sent 200 listed
                 ∧ ∀ p, p ∈ listed ↔ Product.category p = Some c
                                      ∧ ∃ id, products (db s) !! id = Some p).
Proof.
  assert (Hkeep : ∀ keep, product_filter q = Some keep →
       ∃ listed,
         getProducts q s = Sent 200 listed
         ∧ StronglySorted by_name listed
         ∧ listed ≡ₚ filter (λ p, keep p = true) (map_to_list (products (db s))).*2
         ∧ (∀ p, p ∈ listed ↔ keep p = true ∧ ∃ id, products (db s) !! id = Some p)).
  { intros keep Hk. unfold getProducts. rewrite Hk. eexists. split; [reflexivity|].
    unfold Product_find_sorted. split_and!.
    - apply StronglySorted_merge_sort; apply _.
    - apply merge_sort_Permutation.
    - intros p. rewrite merge_sort_Permutation, list_elem_of_filter.
      by rewrite elem_of_values. }
  split_and!; [|exact Hkeep|..].
  - intros pat Hs Hbad. unfold getProducts.
    pose proof (product_filter_search q pat Hs) as Hf. rewrite Hbad in Hf.
    by rewrite Hf.
  - intros Hs Hc.
    destruct (product_filter_no_search q Hs) as (keep & Hk & Hspec).
    destruct (Hkeep keep Hk) as (listed & Hget & _ & Hperm & _).
    exists listed. split; [done|]. rewrite Hperm.
    rewrite filter_all; [done|].
    intros p. apply Hspec. by rewrite Hc.
  - intros c Hs Hc.
    destruct (product_filter_no_search q Hs) as (keep & Hk & Hspec).
    destruct (Hkeep keep Hk) as (listed & Hget & _ & _ & Hin).
    exists listed. split; [done|]. intros p. rewrite Hin, Hspec, Hc.
    split; intros [H1 H2]; (split; [|done]); [by apply H1 | by intros c' [= <-]].
Qed.

(** ** Signing in *)

Lemma User_findOne_Some e d u :
  User_findOne e d = Some u → ∃ id, users d !! id = Some u ∧ User.email u = e.
Proof.
  unfold User_findOne. intros ([i [id v]] & Hfind & ->)%fmap_Some.
  apply list_find_Some in Hfind as (Hl & He & _). simpl in *.
  exists id. split; [|done].
  apply elem_of_map_to_list. by eapply list_elem_of_lookup_2.
Qed.

(** X10.  [POST /api/auth/login] never changes the state.  An unknown email
    and a wrong password get the same answer, 401 ['Invalid credentials'];
    a 200 answer is given only for a stored account with that email whose
    hash matches the password, and carries the token signed for it. *)
Theorem login_answers_the_same_to_every_failure env req s :
  (login env req s).2 = s
  ∧ (∀ e p,
       present (Body.email (Request.body req)) = Some e →
       present (Body.password (Request.body req)) = Some p →
       User_findOne e (db s) = None
       ∨ (∃ u, User_findOne e (db s) = Some u
               ∧ bcrypt_compare p (User.passwordHash u) = false) →
       (login env req s).1 = error 401 "Invalid credentials")
  ∧ (status (login env req s).1 = 200%nat →
       ∃ e p id u,
         Body.email (Request.body req) = Some e
         ∧ Body.password (Request.body req) = Some p
         ∧ users (db s) !! id = Some u
         ∧ User.email u = e
         ∧ bcrypt_compare p (User.passwordHash u) = true
         ∧ (login env req s).1
           = mkResponse 200 (JAuth (jwt_sign u (now env)) (view u))).
Proof.
  split_and!.
  - apply login_state.
  - intros e p He Hp Hfail. unfold login. rewrite He, Hp.
    destruct Hfail as [-> | (u & -> & Hcmp)]; [done|]. by rewrite Hcmp.
  - unfold login.
    destruct (present (Body.email _)) as [e|] eqn:He; [|discriminate].
    destruct (present (Body.password _)) as [p|] eqn:Hp; [|discriminate].
    destruct (User_findOne e (db s)) as [u|] eqn:Hu; [|discriminate].
    destruct (bcrypt_compare p (User.passwordHash u)) eqn:Hcmp; [|discriminate].
    simpl. intros _.
    apply present_Some in He as [He _]. apply present_Some in Hp as [Hp _].
    apply User_findOne_Some in Hu as (id & Hid & Hemail).
    by exists e, p, id, u.
Qed.

(** X11.  After a registration answered 201, logging in with the same email
    and password (which bcrypt matches against the hash it made) answers
    200 with a token for the account that was created, whose role is
    ['user']. *)
Theorem registered_account_can_log_in env req s env' req' password :
  status (register env req s).1 = 201%nat →
  Body.password (Request.body req) = Some password →
  Body.email (Request.body req') = Body.email (Request.body req) →
  Body.password (Request.body req') = Some password →
  bcrypt_compare password (bcrypt_hash password 10 (salt env)) = true →
  let s' := (register env req s).2 in
  ∃ u token,
    (register env req s).1 = mkResponse 201 (JAuth token (view u))
    ∧ users (db s') !! User._id u = Some u
    ∧ User.role u = "user"
    ∧ login env' req' s' = (mkResponse 200 (JAuth (jwt_sign u (now env')) (view u)), s').
Proof.
  intros Hok Hpw Hemail Hpw' Hcmp.
  destruct (register_created _ _ _ Hok)
    as (name & email & pw & Hn & He & Hp & Hfree & Hreg).
  simpl in Hreg. rewrite Hreg. simpl.
  set (u := User.mk _ name email _ _ _ _ _ _).
  set (s' := set_db _ s).
  assert (pw = password) as ->.
  { apply present_Some in Hp as [Hp _]. congruence. }
  assert (Hstored : users (db s') !! User._id u = Some u)
    by (simpl; apply lookup_insert_eq).
  exists u. eexists. split; [reflexivity|]. split; [done|]. split; [done|].
  unfold login. rewrite Hemail, He.
  assert (present (Body.password (Request.body req')) = Some password) as ->.
  { rewrite Hpw'. rewrite Hpw in Hp. exact Hp. }
  destruct (User_findOne email (db s')) as [v|] eqn:Hv.
  2:{ exfalso. destruct (User_findOne_is_Some email (db s') (User._id u) u Hstored eq_refl)
        as [w Hw]. congruence. }
  apply User_findOne_Some in Hv as (id & Hid & Hve).
  assert (v = u) as ->.
  { simpl in Hid. destruct (decide (fresh (dom (users (db s))) = id)) as [<-|Hne].
    - rewrite lookup_insert_eq in Hid. congruence.
    - rewrite lookup_insert_ne in Hid by done.
      pose proof (proj1 (User_findOne_None email (db s)) Hfree id v Hid) as Hneq.
      contradiction. }
  simpl. by rewrite Hcmp.
Qed.

(** ** Tokens *)

Lemma String_split_nonempty sep (t : string) : String_split sep t ≠ [].
Proof.
  destruct t as [|c t]; simpl; [done|].
  destruct (Ascii.eqb c sep); [done|]. by destruct (String_split sep t).
Qed.

Lemma String_split_spaceless (t : string) :
  spaceless t = true → String_split " "%char t = [t].
Proof.
  induction t as [|c t IH]; simpl; [done|].
  intros [Hc Ht]%andb_true_iff. apply negb_true_iff in Hc. rewrite Hc.
  by rewrite (IH Ht).
Qed.

(** The second field of a header is the first field of what follows the
    first space. *)
Lemma String_split_second (scheme rest : string) :
  spaceless scheme = true →
  String_split " "%char (scheme +:+ String " " rest) !! 1%nat
  = String_split " "%char rest !! 0%nat.
Proof.
  induction scheme as [|c scheme IH]; simpl.
  - done.
  - intros [Hc Hs]%andb_true_iff. apply negb_true_iff in Hc.
    change (String.app (String c scheme) (String " " rest))
      with (String c (scheme +:+ String " " rest)).
    simpl. rewrite Hc.
    destruct (String_split " "%char (scheme +:+ String " " rest)) as [|h t] eqn:Hsplit.
    + by destruct (String_split_nonempty " "%char (scheme +:+ String " " rest)).
    + simpl. by rewrite <- (IH Hs).
Qed.

Lemma bearer_token (scheme token : string) :
  spaceless scheme = true → spaceless token = true →
  String_split " "%char (scheme +:+ String " " token) !! 1%nat = Some token.
Proof.
  intros Hs Ht. rewrite (String_split_second _ _ Hs).
  by rewrite (String_split_spaceless _ Ht).
Qed.

Lemma header_is_present (scheme rest : string) :
  present (Some (scheme +:+ String " " rest)) = Some (scheme +:+ String " " rest).
Proof. by destruct scheme. Qed.

(** X12.  A token signed at [issued], presented as [Bearer <token>], passes
    [authMiddleware] with the claims it was signed for as long as the clock
    in seconds is below [issued] in seconds plus 604800, and is answered
    401 from that second on. *)
Theorem token_is_accepted_for_seven_days env req u issued :
  let token := jwt_sign u issued in
  Request.authorization req = Some ("Bearer" +:+ String " " token) →
  spaceless token = true →
  token ≠ "" →
  jwt_decode token = Some (claims_of u issued) →
  ((now env / 1000 < issued / 1000 + 604800)%Z →
     authMiddleware env req = inr (Request.with_user (claims_of u issued) req))
  ∧ ((issued / 1000 + 604800 ≤ now env / 1000)%Z →
     authMiddleware env req = inl (error 401 "Invalid token")).
Proof.
  intros token Hauth Hsp Hne Hdec.
  unfold authMiddleware. rewrite Hauth, header_is_present.
  rewrite (bearer_token "Bearer" token eq_refl Hsp).
  unfold jwt_verify. destruct (String.eqb_spec token ""); [done|].
  rewrite Hdec. simpl.
  replace (7 * 24 * 60 * 60)%Z with 604800%Z by done.
  split; intros Ht.
  - destruct (Z.leb_spec (issued / 1000 + 604800) (now env / 1000)); [lia | done].
  - destruct (Z.leb_spec (issued / 1000 + 604800) (now env / 1000)); [done | lia].
Qed.

Lemma authMiddleware_header env req scheme rest :
  spaceless scheme = true →
  let req' := with_authorization (scheme +:+ String " " rest) req in
  authMiddleware env req'
  = match jwt_verify (String_split " "%char rest !! 0%nat) (now env) with
    | Some c => inr (Request.with_user c req')
    | None => inl (error 401 "Invalid token")
    end.
Proof.
  intros Hs req'. unfold authMiddleware.
  change (Request.authorization req') with (Some (scheme +:+ String " " rest)).
  rewrite header_is_present. by rewrite (String_split_second scheme rest Hs).
Qed.

(** X13.  [authMiddleware] does not look at the word before the first space
    of the header: with any other word there (without a space, possibly
    empty) the request is accepted with the same claims, or refused with the
    same answer, as with [Bearer]. *)
Theorem authorization_scheme_is_not_checked env req scheme token :
  spaceless scheme = true →
  let bearer := with_authorization ("Bearer" +:+ String " " token) req in
  let other := with_authorization (scheme +:+ String " " token) req in
  (∀ res, authMiddleware env bearer = inl res ↔ authMiddleware env other = inl res)
  ∧ (∀ c, authMiddleware env bearer = inr (Request.with_user c bearer)
          ↔ authMiddleware env other = inr (Request.with_user c other)).
Proof.
  intros Hs bearer other. unfold bearer, other.
  rewrite (authMiddleware_header env req scheme token Hs).
  rewrite (authMiddleware_header env req "Bearer" token eq_refl).
  destruct (jwt_verify _ _) as [c|]; split; intros; split; intros H;
    simplify_eq; done.
Qed.

(** X14.  On every route under [/api/admin/], a request whose token verifies
    with the role ['admin'] is handed to the route's handler with [req.user]
    set to the claims. *)
Theorem admin_token_reaches_the_handler r env req s c :
  is_admin_route r = true →
  authMiddleware env req = inr (Request.with_user c req) →
  Claims.role c = "admin" →
  app r env req s = handler_of r env (Request.with_user c req) s.
Proof.
  intros Hr Hauth Hrole. unfold app.
  destruct r; try discriminate; simpl; rewrite Hauth; simpl;
    unfold adminMiddleware; simpl; rewrite Hrole; reflexivity.
Qed.

(** ** Closing a subscription *)

Lemma remove_first_absent cid (l : list SseClient.t) :
  Forall (λ c, Qeq_bool (SseClient.id c) cid = false) l →
  remove_first cid l = l.
Proof.
  induction 1 as [|c l Hc _ IH]; simpl; [done|]. by rewrite Hc, IH.
Qed.

(** X15.  The ['close'] listener removes one subscriber, the first in the
    list whose id equals the closing client's id, and touches neither the
    streams nor the database. *)
Theorem close_removes_the_first_subscriber_with_that_id
    cid (before : list SseClient.t) c after s :
  Forall (λ x, Qeq_bool (SseClient.id x) cid = false) before →
  Qeq_bool (SseClient.id c) cid = true →
  sseClients s = (before ++ c :: after)%list →
  sseClients (on_close cid s) = (before ++ after)%list
  ∧ sockets (on_close cid s) = sockets s
  ∧ db (on_close cid s) = db s
  ∧ length (sseClients (on_close cid s)) = pred (length (sseClients s)).
Proof.
  intros Hbefore Hc Hs. unfold on_close. simpl. rewrite Hs.
  assert (Hrm : remove_first cid (before ++ c :: after) = (before ++ after)%list).
  { clear Hs. induction Hbefore as [|x l Hx _ IH]; simpl.
    - by rewrite Hc.
    - by rewrite Hx, IH. }
  rewrite Hrm. split_and!; try done.
  rewrite !length_app. simpl. lia.
Qed.

Lemma holders_none res (l : list SseClient.t) :
  Forall (λ c, SseClient.res c ≠ res) l → holders res l = 0%nat.
Proof.
  unfold holders. induction 1 as [|c l Hc _ IH]; [done|].
  by rewrite filter_cons_False.
Qed.

(** X16.  A client that subscribes and whose id, the double sum
    [Date.now() + Math.random()], is the id of no subscriber, and that then
    disconnects, leaves the subscriber list as it was, and a later
    broadcast writes nothing to its stream. *)
Theorem closed_subscriber_gets_no_later_event env req s o :
  registry_ok s →
  Forall (λ x, Qeq_bool (SseClient.id x) (clientId env) = false)
         (sseClients s) →
  let cid := clientId env in
  let res := fresh (dom (sockets s)) in
  let closed := on_close cid (events env req s).2 in
  sseClients closed = sseClients s
  ∧ sockets closed !! res = Some (Socket.mk true 200 [LF])
  ∧ (broadcastNewOrder o (sseClients closed) (sockets closed)).1 !! res
    = Some (Socket.mk true 200 [LF])
  ∧ registry_ok closed.
Proof.
  intros Hreg Hfresh cid res closed.
  assert (Hclients : sseClients closed = sseClients s).
  { unfold closed, on_close. simpl.
    assert (Hrm : ∀ l after,
      Forall (λ x, Qeq_bool (SseClient.id x) cid = false) l →
      remove_first cid (l ++ SseClient.mk cid res :: after) = (l ++ after)%list).
    { intros l after Hl. induction Hl as [|x l Hx _ IH]; simpl.
      - by rewrite Qeq_bool_refl.
      - by rewrite Hx, IH. }
    change (remove_first cid (sseClients s ++ [SseClient.mk cid res]) = sseClients s).
    rewrite (Hrm _ [] Hfresh). apply app_nil_r. }
  assert (Hres : sockets closed !! res = Some (Socket.mk true 200 [LF])).
  { unfold closed, on_close. simpl. apply lookup_insert_eq. }
  assert (Hnone : holders res (sseClients closed) = 0%nat).
  { rewrite Hclients. apply holders_none. apply Forall_forall. intros c Hc Heq.
    destruct (Hreg c Hc) as [k Hk]. rewrite Heq in Hk.
    unfold res in Hk. by rewrite fresh_id_unused in Hk. }
  split_and!; try done.
  - destruct (broadcastNewOrder_spec o (sseClients closed) (sockets closed)) as [-> _].
    rewrite Hres, Hnone. simpl. by rewrite delivered_0.
  - intros c Hc. rewrite Hclients in Hc. destruct (Hreg c Hc) as [k Hk].
    unfold closed, on_close. simpl.
    destruct (decide (fresh (dom (sockets s)) = SseClient.res c)) as [<-|Hne].
    + by rewrite lookup_insert_eq.
    + rewrite lookup_insert_ne by done. by exists k.
Qed.

(** ** Seeding *)

Lemma no_account_with_role role (d : Db) :
  User_countDocuments_role role d = 0%nat
  ↔ ∀ id u, users d !! id = Some u → User.role u ≠ role.
Proof.
  unfold User_countDocuments_role. rewrite map_size_empty_iff, map_empty. split.
  - intros H id u Hu Hrole.
    pose proof (H id) as Hnone.
    rewrite map_lookup_filter_None in Hnone.
    destruct Hnone as [Hnone | Hnone]; [congruence|]. by apply (Hnone u).
  - intros H id. apply map_lookup_filter_None.
    destruct (users d !! id) as [u|] eqn:Hu; [right | by left].
    intros v [= <-]. simpl. by apply (H id u).
Qed.

Lemma User_findOne_users e d d' : users d' = users d → User_findOne e d' = User_findOne e d.
Proof. unfold User_findOne. by intros ->. Qed.

Lemma User_countDocuments_role_users role d d' :
  users d' = users d → User_countDocuments_role role d' = User_countDocuments_role role d.
Proof. unfold User_countDocuments_role. by intros ->. Qed.

(** The catalog step and the account step of [seed], apart. *)
Lemma seed_unfold env d :
  seed env d
  = let d1 :=
      if decide (Product_countDocuments d = 0%nat) then
        Product_insert "Milk" "Fresh milk" "Dairy" "1 litre" 60%Q (now env)
          (Product_insert "Rice" "Basmati rice" "Essentials" "1 kg packet" 90%Q
             (now env) d)
      else d in
    mkDb
      (if decide (User_countDocuments_role "admin" d = 0%nat) then
         match User_findOne "admin@grocery.com" d with
         | Some _ => users d
         | None =>
             <[fresh (dom (users d)) :=
                 User.mk (fresh (dom (users d))) "Admin" "admin@grocery.com"
                         (bcrypt_hash "admin123" 10 (salt env)) None "admin"
                         [] [] (now env)]> (users d)
         end
       else users d)
      (products d1) (orders d).
Proof.
  unfold seed. cbv zeta.
  set (d1 := if decide (Product_countDocuments d = 0%nat) then _ else d).
  assert (Hu : users d1 = users d) by (unfold d1; by case_decide).
  assert (Ho : orders d1 = orders d) by (unfold d1; by case_decide).
  rewrite (User_countDocuments_role_users _ d d1 Hu).
  unfold User_create_with_role. rewrite (User_findOne_users _ d d1 Hu).
  clearbody d1. destruct d1 as [us ps os]. simpl in *. subst.
  case_decide; [|reflexivity].
  destruct (User_findOne _ d); reflexivity.
Qed.

Lemma seed_catalog_not_empty env d : Product_countDocuments (seed env d) ≠ 0%nat.
Proof.
  rewrite seed_unfold. unfold Product_countDocuments. simpl.
  case_decide as Hc; [|done].
  unfold Product_insert. simpl. apply map_size_non_empty_iff, insert_non_empty.
Qed.

(** The default admin as [seed] creates it. *)
Lemma seed_users env d :
  users (seed env d)
  = if decide (User_countDocuments_role "admin" d = 0%nat) then
      match User_findOne "admin@grocery.com" d with
      | Some _ => users d
      | None =>
          <[fresh (dom (users d)) :=
              User.mk (fresh (dom (users d))) "Admin" "admin@grocery.com"
                      (bcrypt_hash "admin123" 10 (salt env)) None "admin"
                      [] [] (now env)]> (users d)
      end
    else users d.
Proof. by rewrite seed_unfold. Qed.

Lemma seed_admin_or_address_taken env d :
  User_countDocuments_role "admin" (seed env d) = 0%nat →
  is_Some (User_findOne "admin@grocery.com" (seed env d))
  ∧ users (seed env d) = users d.
Proof.
  intros Hcount. pose proof (seed_users env d) as Hu.
  case_decide as Hc.
  - destruct (User_findOne "admin@grocery.com" d) as [u|] eqn:Hfind.
    + split; [|done]. rewrite (User_findOne_users _ d _ Hu). by rewrite Hfind.
    + exfalso.
      apply (proj1 (no_account_with_role "admin" (seed env d)) Hcount
               (fresh (dom (users d)))
               (User.mk (fresh (dom (users d))) "Admin" "admin@grocery.com"
                  (bcrypt_hash "admin123" 10 (salt env)) None "admin" [] [] (now env)));
        [|done].
      rewrite Hu. apply lookup_insert_eq.
  - exfalso. apply Hc. by rewrite <- (User_countDocuments_role_users _ d _ Hu).
Qed.

(** X17.  Seeding twice is seeding once: [seed] applied to a seeded database
    changes nothing. *)
Theorem seed_is_idempotent env env' d : seed env' (seed env d) = seed env d.
Proof.
  rewrite (seed_unfold env' (seed env d)). cbv zeta.
  rewrite (decide_False (P := Product_countDocuments (seed env d) = 0%nat))
    by apply seed_catalog_not_empty.
  case_decide as Hcount; [|by destruct (seed env d)].
  destruct (seed_admin_or_address_taken env d Hcount) as [[u ->] _].
  by destruct (seed env d).
Qed.

Lemma seed_products env d :
  products (seed env d)
  = if decide (products d = ∅) then
      <[fresh (dom (<[fresh (dom (∅ : gmap N Product.t)) :=
                       Product.mk (fresh (dom (∅ : gmap N Product.t))) "Rice"
                         (Some "Basmati rice") 90%Q (Some "Essentials") None
                         "1 kg packet" (now env)]> (∅ : gmap N Product.t))) :=
          Product.mk
            (fresh (dom (<[fresh (dom (∅ : gmap N Product.t)) :=
                       Product.mk (fresh (dom (∅ : gmap N Product.t))) "Rice"
                         (Some "Basmati rice") 90%Q (Some "Essentials") None
                         "1 kg packet" (now env)]> (∅ : gmap N Product.t))))
            "Milk" (Some "Fresh milk") 60%Q (Some "Dairy") None "1 litre" (now env)]>
        (<[fresh (dom (∅ : gmap N Product.t)) :=
             Product.mk (fresh (dom (∅ : gmap N Product.t))) "Rice"
               (Some "Basmati rice") 90%Q (Some "Essentials") None
               "1 kg packet" (now env)]> ∅)
    else products d.
Proof.
  rewrite seed_unfold. cbv zeta. simpl. unfold Product_countDocuments.
  destruct (decide (products d = ∅)) as [He|Hne].
  - rewrite decide_True by (by apply map_size_empty_iff).
    unfold Product_insert. simpl. by rewrite He.
  - rewrite decide_False by (by rewrite map_size_empty_iff).
    done.
Qed.

(** X18.  [seed] never touches the orders and keeps every stored account and
    product as it is; a catalog that is not empty is left alone, and an
    empty one gets exactly two products under two different ids, one Rice
    at 90 and one Milk at 60, each with the description, category and unit
    of the source, no image and the creation time of the seeding. *)
Theorem seed_keeps_what_is_stored env d :
  orders (seed env d) = orders d
  ∧ (∀ id u, users d !! id = Some u → users (seed env d) !! id = Some u)
  ∧ (∀ id p, products d !! id = Some p → products (seed env d) !! id = Some p)
  ∧ (products d ≠ ∅ → products (seed env d) = products d)
  ∧ (products d = ∅ →
       ∃ rice milk,
         rice ≠ milk
         ∧ products (seed env d)
           = <[milk := Product.mk milk "Milk" (Some "Fresh milk") 60%Q
                         (Some "Dairy") None "1 litre" (now env)]>
               (<[rice := Product.mk rice "Rice" (Some "Basmati rice") 90%Q
                            (Some "Essentials") None "1 kg packet" (now env)]> ∅)
         ∧ size (products (seed env d)) = 2%nat).
Proof.
  split_and!.
  - by rewrite seed_unfold.
  - intros id u Hu. rewrite seed_users. case_decide; [|done].
    destruct (User_findOne _ d); [done|].
    rewrite lookup_insert_ne; [done|]. intros <-.
    rewrite fresh_id_unused in Hu. discriminate.
  - intros id p Hp. rewrite seed_products. rewrite decide_False; [done|].
    intros He. rewrite He in Hp. by rewrite lookup_empty in Hp.
  - intros Hne. rewrite seed_products. by rewrite decide_False.
  - intros He. rewrite seed_products. rewrite decide_True by done.
    set (rice := fresh (dom (∅ : gmap N Product.t))).
    set (stocked := <[rice := _]> (∅ : gmap N Product.t)).
    exists rice, (fresh (dom stocked)). split_and!.
    + intros Heq.
      assert (Hnew : stocked !! rice = None).
      { rewrite Heq at 1. apply fresh_id_unused. }
      unfold stocked in Hnew. by rewrite lookup_insert_eq in Hnew.
    + done.
    + rewrite map_size_insert_None by apply fresh_id_unused.
      unfold stocked.
      by rewrite map_size_insert_None, map_size_empty by apply lookup_empty.
Qed.

(** X19.  [seed] adds the default admin, and nothing else, to the accounts
    exactly when no account has the role ['admin'] and no account has the
    address [admin@grocery.com]; when the address is taken by an account
    that is not an admin, the accounts are left alone and there is still no
    admin afterwards. *)
Theorem seed_creates_the_admin_when_it_can env d :
  (User_countDocuments_role "admin" d = 0%nat →
   User_findOne "admin@grocery.com" d = None →
   let admin := User.mk (fresh (dom (users d))) "Admin" "admin@grocery.com"
                  (bcrypt_hash "admin123" 10 (salt env)) None "admin" [] []
                  (now env) in
   users d !! User._id admin = None
   ∧ users (seed env d) = <[User._id admin := admin]> (users d))
  ∧ (User_countDocuments_role "admin" d ≠ 0%nat → users (seed env d) = users d)
  ∧ (is_Some (User_findOne "admin@grocery.com" d) → users (seed env d) = users d)
  ∧ (User_countDocuments_role "admin" d = 0%nat →
     is_Some (User_findOne "admin@grocery.com" d) →
     User_countDocuments_role "admin" (seed env d) = 0%nat).
Proof.
  split_and!.
  - intros Hc Hf. simpl. split; [apply fresh_id_unused|].
    rewrite seed_users, decide_True by done. by rewrite Hf.
  - intros Hc. by rewrite seed_users, decide_False.
  - intros [u Hu]. rewrite seed_users, Hu. by case_decide.
  - intros Hc [u Hu].
    rewrite (User_countDocuments_role_users _ d); [done|].
    rewrite seed_users, Hu. by case_decide.
Qed.

(** X20.  After seeding a database with no admin and with the default address
    free, logging in with [admin@grocery.com] and [admin123] answers 200
    with a token whose claims carry the role ['admin']. *)
Theorem seeded_admin_can_log_in env d env' req regs socks :
  User_countDocuments_role "admin" d = 0%nat →
  User_findOne "admin@grocery.com" d = None →
  Body.email (Request.body req) = Some "admin@grocery.com" →
  Body.password (Request.body req) = Some "admin123" →
  bcrypt_compare "admin123" (bcrypt_hash "admin123" 10 (salt env)) = true →
  let s := mkServer (seed env d) regs socks in
  ∃ admin,
    users (db s) !! User._id admin = Some admin
    ∧ User.role admin = "admin"
    ∧ login env' req s
      = (mkResponse 200 (JAuth (jwt_sign admin (now env')) (view admin)), s)
    ∧ Claims.role (claims_of admin (now env')) = "admin".
Proof.
  intros Hc Hf Hemail Hpw Hcmp s.
  set (admin := User.mk (fresh (dom (users d))) "Admin" "admin@grocery.com"
                  (bcrypt_hash "admin123" 10 (salt env)) None "admin" [] []
                  (now env)).
  assert (Husers : users (seed env d) = <[User._id admin := admin]> (users d)).
  { rewrite seed_users, decide_True by done. by rewrite Hf. }
  assert (Hstored : users (db s) !! User._id admin = Some admin).
  { simpl. rewrite Husers. apply lookup_insert_eq. }
  exists admin. split_and!; try done.
  unfold login. rewrite Hemail, Hpw. simpl.
  destruct (User_findOne "admin@grocery.com" (seed env d)) as [v|] eqn:Hv.
  2:{ exfalso.
      destruct (User_findOne_is_Some "admin@grocery.com" (seed env d)
                  (User._id admin) admin Hstored eq_refl) as [w Hw]. congruence. }
  apply User_findOne_Some in Hv as (id & Hid & Hve).
  assert (v = admin) as ->.
  { rewrite Husers in Hid.
    destruct (decide (User._id admin = id)) as [<-|Hne].
    - rewrite lookup_insert_eq in Hid. congruence.
    - rewrite lookup_insert_ne in Hid by done.
      pose proof (proj1 (User_findOne_None "admin@grocery.com" d) Hf id v Hid).
      contradiction. }
  simpl. by rewrite Hcmp.
Qed.

(** ** The account routes *)

(** X21.  [PUT /api/me] by an authenticated account answers 200 and replaces
    only that account's document; its email, password hash, role, cart and
    creation time are unchanged, and each of name, phone and addresses is
    unchanged when the request does not carry it. *)
Theorem me_update_touches_only_name_phone_addresses b env req s c u :
  authMiddleware env req = inr (Request.with_user c req) →
  users (db s) !! Claims.id c = Some u →
  User._id u = Claims.id c →
  let u' := assign_me b u in
  PUT_me b env req s
  = (Sent 200 (MeUpdated.mk (User._id u) (User.name u') (User.email u)
                            (User.phone u') (User.addresses u')),
     set_db (set_users (<[User._id u := u']> (users (db s))) (db s)) s)
  ∧ User.email u' = User.email u
  ∧ User.passwordHash u' = User.passwordHash u
  ∧ User.role u' = User.role u
  ∧ User.cart u' = User.cart u
  ∧ User.createdAt u' = User.createdAt u
  ∧ (Me.name b = None → User.name u' = User.name u)
  ∧ (Me.phone b = None → User.phone u' = User.phone u)
  ∧ (Me.addresses b = None → User.addresses u' = User.addresses u)
  ∧ (∀ v, Me.name b = Some v → User.name u' = v).
Proof.
  intros Hauth Hu Hid u'. split_and!; try done.
  - unfold PUT_me, behind_auth. rewrite Hauth. unfold putMe, User_findById. simpl.
    rewrite Hu. unfold User_save. simpl. rewrite Hid, Hu. simpl.
    by rewrite bool_decide_eq_true_2.
  - unfold u', assign_me. simpl. by intros ->.
  - unfold u', assign_me. simpl. by intros ->.
  - unfold u', assign_me. simpl. by intros ->.
  - unfold u', assign_me. simpl. by intros v ->.
Qed.

(** X22.  After [PUT /api/me], [GET /api/me] by the same account answers with
    the updated document, without the password hash; the other accounts
    are as before. *)
Theorem me_update_then_read b env req s env' req' c u :
  authMiddleware env req = inr (Request.with_user c req) →
  authMiddleware env' req' = inr (Request.with_user c req') →
  users (db s) !! Claims.id c = Some u →
  User._id u = Claims.id c →
  GET_me env' req' (PUT_me b env req s).2
  = Sent 200 (without_passwordHash (assign_me b u))
  ∧ GET_me env' req' s = Sent 200 (without_passwordHash u)
  ∧ (∀ other v, other ≠ Claims.id c → users (db s) !! other = Some v →
       users (db (PUT_me b env req s).2) !! other = Some v).
Proof.
  intros Hauth Hauth' Hu Hid.
  assert (Hput : (PUT_me b env req s).2
                 = set_db (set_users (<[User._id u := assign_me b u]> (users (db s)))
                                     (db s)) s).
  { unfold PUT_me, behind_auth. rewrite Hauth. unfold putMe, User_findById. simpl.
    rewrite Hu. unfold User_save. simpl. rewrite Hid, Hu. simpl.
    by rewrite bool_decide_eq_true_2. }
  rewrite Hput. unfold GET_me, behind_auth. rewrite Hauth'.
  unfold getMe, User_findById. simpl. split_and!.
  - by rewrite Hid, lookup_insert_eq.
  - by rewrite Hu.
  - intros other v Hne Hv. rewrite lookup_insert_ne; [done|]. congruence.
Qed.

(** ** Changing the email *)

(** X23.  [PUT /api/auth/profile] with the correct current password and a new
    email different from the current one: when some account already has
    that email the answer is 500 and nothing changes; when none has, the
    answer is 200 and only the email of the caller's account changes. *)
Theorem profile_email_change env req s c u email currentPassword :
  authMiddleware env req = inr (Request.with_user c req) →
  Claims.id c = User._id u →
  users (db s) !! User._id u = Some u →
  Body.currentPassword (Request.body req) = Some currentPassword →
  bcrypt_compare (or_else (Some currentPassword) "") (User.passwordHash u) = true →
  Body.email (Request.body req) = Some email →
  email ≠ "" →
  email ≠ User.email u →
  Body.newPassword (Request.body req) = None →
  (is_Some (User_findOne email (db s)) →
     app PUT_auth_profile env req s = (caught DuplicateKey, s))
  ∧ (User_findOne email (db s) = None →
     app PUT_auth_profile env req s
     = (mkResponse 200 (JProfile email),
        set_db (set_users (<[User._id u := User.with_email email u]> (users (db s)))
                          (db s)) s)).
Proof.
  intros Hauth Hid Hu Hcur Hvalid Hemail Hne Hdiff Hnew.
  unfold app. simpl. rewrite Hauth. unfold profile. simpl.
  unfold User_findById. rewrite Hid, Hu, Hcur, Hvalid, Hemail, Hnew. simpl.
  unfold present, truthy. destruct (String.eqb_spec email ""); [done|]. simpl.
  unfold User_save. simpl. rewrite Hu.
  rewrite bool_decide_eq_false_2 by (simpl; congruence).
  split.
  - by intros [v ->].
  - by intros ->.
Qed.


(** ** Accounts stay well formed *)

Lemma accounts_ok_same_users d d' :
  users d' = users d → accounts_ok d → accounts_ok d'.
Proof. unfold accounts_ok. by intros ->. Qed.

Lemma accounts_ok_insert_new d u :
  accounts_ok d →
  User._id u = fresh (dom (users d)) →
  User_findOne (User.email u) d = None →
  accounts_ok (set_users (<[User._id u := u]> (users d)) d).
Proof.
  intros [Hkeys Huniq] Hid Hfree.
  pose proof (proj1 (User_findOne_None _ _) Hfree) as Hnone.
  split; simpl.
  - intros i v Hv. apply lookup_insert_Some in Hv as [[<- <-] | [_ Hv]]; [done|].
    by apply Hkeys.
  - intros i j v w Hv Hw Heq.
    apply lookup_insert_Some in Hv as [[<- <-] | [Hi Hv]];
      apply lookup_insert_Some in Hw as [[<- <-] | [Hj Hw]]; try done.
    + by destruct (Hnone j w Hw).
    + by destruct (Hnone i v Hv).
    + by apply (Huniq i j v w).
Qed.

Lemma accounts_ok_replace d k old u :
  accounts_ok d →
  users d !! k = Some old →
  User._id u = k →
  (User.email u = User.email old ∨ User_findOne (User.email u) d = None) →
  accounts_ok (set_users (<[k := u]> (users d)) d).
Proof.
  intros [Hkeys Huniq] Hold Hid Hemail. split; simpl.
  - intros i v Hv. apply lookup_insert_Some in Hv as [[<- <-] | [_ Hv]]; [done|].
    by apply Hkeys.
  - assert (Hother : ∀ j w, j ≠ k → users d !! j = Some w → User.email w ≠ User.email u).
    { intros j w Hj Hw Heq. destruct Hemail as [He | Hfree].
      - apply Hj. apply (Huniq j k w old Hw Hold). congruence.
      - by destruct (proj1 (User_findOne_None _ _) Hfree j w Hw). }
    intros i j v w Hv Hw Heq.
    apply lookup_insert_Some in Hv as [[<- <-] | [Hi Hv]];
      apply lookup_insert_Some in Hw as [[<- <-] | [Hj Hw]]; try done.
    + by destruct (Hother j w (not_eq_sym Hj) Hw).
    + by destruct (Hother i v (not_eq_sym Hi) Hv).
    + by apply (Huniq i j v w).
Qed.

Lemma User_create_accounts_ok name email hash phone now d u d' :
  accounts_ok d → User_create name email hash phone now d = inr (u, d') →
  accounts_ok d'.
Proof.
  intros Hok (Hfree & -> & ->)%User_create_ok.
  by apply accounts_ok_insert_new.
Qed.

Lemma User_save_accounts_ok u d d' k old :
  accounts_ok d → users d !! k = Some old → User._id u = k →
  User_save u d = inr d' → accounts_ok d'.
Proof.
  intros Hok Hold Hid. unfold User_save. rewrite Hid, Hold.
  case_bool_decide as He.
  - intros [= <-]. apply (accounts_ok_replace d k old u); auto.
  - destruct (User_findOne (User.email u) d) eqn:Hf; [discriminate|].
    intros [= <-]. apply (accounts_ok_replace d k old u); auto.
Qed.

Lemma register_accounts_ok env req s :
  accounts_ok (db s) → accounts_ok (db (register env req s).2).
Proof.
  intros Hok. unfold register.
  repeat (case_match; simpl; try done).
  by eapply User_create_accounts_ok.
Qed.

Lemma profile_accounts_ok env req s :
  accounts_ok (db s) → accounts_ok (db (profile env req s).2).
Proof.
  intros Hok. unfold profile.
  destruct (Request.user req) as [ru|]; [|done].
  destruct (User_findById (Claims.id ru) (db s)) as [user|] eqn:Huser; [|done].
  destruct (negb _); [done|].
  destruct (User_save _ _) as [e|d'] eqn:Hsave; [done|]. simpl.
  eapply (User_save_accounts_ok _ _ _ (Claims.id ru) user Hok Huser); [|exact Hsave].
  destruct Hok as [Hkeys _]. rewrite <- (Hkeys _ _ Huser).
  by repeat case_match.
Qed.

Lemma placeGuestOrder_accounts_ok env req s :
  accounts_ok (db s) → accounts_ok (db (placeGuestOrder env req s).2).
Proof.
  intros Hok. unfold placeGuestOrder.
  destruct (Body.items (Request.body req)) as [[|i items]|]; try done.
  destruct (User_create _ _ _ _ _ _) as [e|[guest d1]] eqn:Hcreate; [done|].
  assert (Hd1 : accounts_ok d1) by (by eapply User_create_accounts_ok).
  destruct (Order_create _ _ _ _ _ _ _) as [e|[order d2]] eqn:Horder; [done|].
  apply Order_create_ok in Horder as (_ & ->).
  destruct (broadcastNewOrder _ _ _). simpl.
  by apply (accounts_ok_same_users d1).
Qed.

Lemma handler_users_same r env req s :
  match r with
  | POST_auth_register | PUT_auth_profile | POST_placeGuestOrder => True
  | _ => users (db (handler_of r env req s).2) = users (db s)
  end.
Proof.
  destruct r; simpl; try done.
  - by rewrite login_state.
  - unfold placeOrder.
    destruct (Body.items (Request.body req)) as [[|i items]|]; try done.
    destruct (Request.user req) as [c|]; [|done].
    destruct (User_findById _ _) as [user|]; [|done].
    destruct (Order_create _ _ _ _ _ _ _) as [e|[order d1]] eqn:Horder; [done|].
    apply Order_create_ok in Horder as (_ & ->).
    by destruct (broadcastNewOrder _ _ _).
  - unfold adminDeleteOrder, Order_findByIdAndDelete, castObjectId, ok, throw.
    repeat (case_match; simpl; try done); by simplify_eq.
  - unfold adminCreateProduct, Product_create, ok, throw.
    repeat (case_match; simpl; try done); by simplify_eq.
  - unfold adminUpdateProduct, Product_findByIdAndUpdate, castObjectId, ok, throw.
    repeat (case_match; simpl; try done); by simplify_eq.
  - unfold adminDeleteProduct, Product_findByIdAndDelete, castObjectId, ok, throw.
    repeat (case_match; simpl; try done); by simplify_eq.
  - unfold adminOrderStatus, Order_findByIdAndUpdate, castObjectId, ok, throw.
    repeat (case_match; simpl; try done); by simplify_eq.
Qed.

Lemma handler_accounts_ok r env req s :
  accounts_ok (db s) → accounts_ok (db (handler_of r env req s).2).
Proof.
  intros Hok. pose proof (handler_users_same r env req s) as Hsame.
  destruct r; simpl in *;
    try (by apply (accounts_ok_same_users (db s))).
  - by apply register_accounts_ok.
  - by apply profile_accounts_ok.
  - by apply placeGuestOrder_accounts_ok.
Qed.

(** X24.  Accounts stay well formed: when every account is stored under its
    own [_id] and no two accounts share an email, the same holds after any
    sequence of requests to the modelled routes, after [seed], and after
    [PUT /api/me]. *)
Theorem accounts_stay_well_formed (reqs : list (Route * Env * Request.t)) s :
  accounts_ok (db s) →
  accounts_ok (db (serve reqs s))
  ∧ (∀ env, accounts_ok (seed env (db s)))
  ∧ (∀ b env req, accounts_ok (db (PUT_me b env req s).2)).
Proof.
  intros Hok. split_and!.
  - revert s Hok. induction reqs as [|[[r env] req] reqs IH]; intros s Hok; [done|].
    simpl. apply IH. unfold app.
    apply (route_preserves (λ s s', accounts_ok (db s) → accounts_ok (db s')));
      [done | | done].
    intros. by apply handler_accounts_ok.
  - intros env. destruct Hok as [Hkeys Huniq].
    pose proof (seed_users env (db s)) as Hu.
    case_decide as Hc; [|by apply (accounts_ok_same_users (db s))].
    destruct (User_findOne "admin@grocery.com" (db s)) eqn:Hf;
      [by apply (accounts_ok_same_users (db s))|].
    set (admin := User.mk _ _ _ _ _ _ _ _ _) in Hu.
    apply (accounts_ok_same_users
             (set_users (<[User._id admin := admin]> (users (db s))) (db s)));
      [done|].
    by apply accounts_ok_insert_new.
  - intros b env req. unfold PUT_me, behind_auth.
    destruct (authMiddleware env req) as [res|req']; [done|].
    unfold putMe.
    destruct (Request.user req') as [ru|]; [|done].
    destruct (User_findById (Claims.id ru) (db s)) as [user|] eqn:Huser; [|done].
    destruct (User_save _ _) as [e|d'] eqn:Hsave; [done|]. simpl.
    eapply (User_save_accounts_ok _ _ _ (Claims.id ru) user Hok Huser); [|exact Hsave].
    destruct Hok as [Hkeys _]. by rewrite <- (Hkeys _ _ Huser).
Qed.

(** ** Escaping *)

Lemma list_ascii_of_string_app (a b : string) :
  list_ascii_of_string (a +:+ b)
  = (list_ascii_of_string a ++ list_ascii_of_string b)%list.
Proof. induction a as [|c a IH]; simpl; [done | by rewrite <- IH]. Qed.

(** The five characters [escapeHtml] replaces. *)
Lemma escape_char_cases (c : Ascii.ascii) :
  (c = "&"%char ∧ escape_char c = "&amp;")
  ∨ (c = "<"%char ∧ escape_char c = "&lt;")
  ∨ (c = ">"%char ∧ escape_char c = "&gt;")
  ∨ (c = dquote ∧ escape_char c = "&quot;")
  ∨ (c = "'"%char ∧ escape_char c = "&#39;")
  ∨ (c ≠ "&"%char ∧ c ≠ "<"%char ∧ c ≠ ">"%char ∧ c ≠ dquote ∧ c ≠ "'"%char
     ∧ escape_char c = String c "").
Proof.
  unfold escape_char.
  destruct (Ascii.eqb_spec c "&"); [by left|].
  destruct (Ascii.eqb_spec c "<"); [by right; left|].
  destruct (Ascii.eqb_spec c ">"); [by right; right; left|].
  destruct (Ascii.eqb_spec c dquote); [by right; right; right; left|].
  destruct (Ascii.eqb_spec c "'"); [by right; right; right; right; left|].
  by repeat right.
Qed.

(** X25.  The result of [escapeHtml] contains none of the characters [<],
    [>], the double quote and the apostrophe; a string with none of the five
    replaced characters is returned as it is, and a missing or empty
    argument gives the empty string. *)
Theorem escapeHtml_leaves_no_markup (s : option string) :
  Forall (λ c, c ≠ "<"%char ∧ c ≠ ">"%char ∧ c ≠ dquote ∧ c ≠ "'"%char)
         (list_ascii_of_string (escapeHtml s))
  ∧ (∀ t, s = Some t →
       Forall (λ c, c ≠ "&"%char ∧ c ≠ "<"%char ∧ c ≠ ">"%char ∧ c ≠ dquote
                    ∧ c ≠ "'"%char) (list_ascii_of_string t) →
       escapeHtml s = t)
  ∧ (s = None ∨ s = Some "" → escapeHtml s = "").
Proof.
  split_and!.
  - unfold escapeHtml. generalize (or_else s ""). intros t.
    induction t as [|c t IH]; simpl; [constructor|].
    rewrite list_ascii_of_string_app. apply Forall_app. split; [|exact IH].
    destruct (escape_char_cases c)
      as [[_ ->] | [[_ ->] | [[_ ->] | [[_ ->] | [[_ ->] | (_ & H1 & H2 & H3 & H4 & ->)]]]]];
      simpl; repeat constructor; try done; by vm_compute.
  - intros t -> Hplain. unfold escapeHtml.
    assert (Hesc : escape t = t).
    { induction t as [|c t IH]; simpl; [done|].
      apply Forall_cons in Hplain as [(H0 & H1 & H2 & H3 & H4) Ht].
      destruct (escape_char_cases c)
        as [[? _] | [[? _] | [[? _] | [[? _] | [[? _] | (_ & _ & _ & _ & _ & ->)]]]]];
        try contradiction.
      simpl. by rewrite (IH Ht). }
    destruct t as [|c t]; [done|]. exact Hesc.
  - by intros [-> | ->].
Qed.

Lemma escape_char_head (c : Ascii.ascii) :
  ∃ h (t : string), escape_char c = String h t.
Proof.
  destruct (escape_char_cases c)
    as [[_ ->] | [[_ ->] | [[_ ->] | [[_ ->] | [[_ ->] | (_ & _ & _ & _ & _ & ->)]]]]];
    by eexists _, _.
Qed.

(** X26.  Escaping loses nothing: two strings with the same escaped form are
    the same string. *)
Theorem escape_loses_nothing (a b : string) : escape a = escape b → a = b.
Proof.
  revert b. induction a as [|x a IH]; intros [|y b]; simpl; try done.
  - destruct (escape_char_head y) as (h & t & ->). discriminate.
  - destruct (escape_char_head x) as (h & t & ->). discriminate.
  - intros Heq.
    assert (Hxy : x = y ∧ escape a = escape b).
    { destruct (escape_char_cases x)
        as [[-> Hx] | [[-> Hx] | [[-> Hx] | [[-> Hx] | [[-> Hx] | (X0 & X1 & X2 & X3 & X4 & Hx)]]]]];
      destruct (escape_char_cases y)
        as [[-> Hy] | [[-> Hy] | [[-> Hy] | [[-> Hy] | [[-> Hy] | (Y0 & Y1 & Y2 & Y3 & Y4 & Hy)]]]]];
      rewrite ?Hx, ?Hy in Heq; simpl in Heq; simplify_eq; try done. }
    destruct Hxy as [-> Hrest]. f_equal. by apply IH.
Qed.

(** ** The cart of the storefront *)

Lemma cart_get_None id (cart : Cart) : cart_get id cart = None ↔ id ∉ cart.*1.
Proof.
  induction cart as [|[k v] cart IH]; simpl.
  - split; [intros _; apply not_elem_of_nil | done].
  - rewrite not_elem_of_cons. destruct (String.eqb_spec k id) as [->|Hne].
    + split; [done | by intros [? _]].
    + rewrite IH. split; [by intros ?; split | by intros [_ ?]].
Qed.

Lemma cart_get_set_eq id v (cart : Cart) : cart_get id (cart_set id v cart) = Some v.
Proof.
  induction cart as [|[k w] cart IH]; simpl.
  - by rewrite String.eqb_refl.
  - destruct (String.eqb_spec k id) as [->|Hne]; simpl.
    + by rewrite String.eqb_refl.
    + destruct (String.eqb_spec k id); [done | exact IH].
Qed.

Lemma cart_get_set_ne id id' v (cart : Cart) :
  id' ≠ id → cart_get id' (cart_set id v cart) = cart_get id' cart.
Proof.
  intros Hne. induction cart as [|[k w] cart IH]; simpl.
  - destruct (String.eqb_spec id id'); [congruence | done].
  - destruct (String.eqb_spec k id) as [->|Hk]; simpl.
    + destruct (String.eqb_spec id id'); [congruence | done].
    + destruct (String.eqb_spec k id'); [done | exact IH].
Qed.

Lemma cart_get_delete_ne id id' (cart : Cart) :
  id' ≠ id → cart_get id' (cart_delete id cart) = cart_get id' cart.
Proof.
  intros Hne. induction cart as [|[k w] cart IH]; simpl; [done|].
  destruct (String.eqb_spec k id) as [->|Hk]; simpl.
  - destruct (String.eqb_spec id id'); [congruence | done].
  - destruct (String.eqb_spec k id'); [done | exact IH].
Qed.

Lemma cart_get_delete_eq id (cart : Cart) :
  cart_ok cart → cart_get id (cart_delete id cart) = None.
Proof.
  unfold cart_ok. induction cart as [|[k w] cart IH]; simpl; [done|].
  intros [Hk Hnd]%NoDup_cons.
  destruct (String.eqb_spec k id) as [->|Hne]; simpl.
  - by apply cart_get_None.
  - destruct (String.eqb_spec k id); [done | by apply IH].
Qed.

Lemma cart_set_keys_held id v (cart : Cart) :
  id ∈ cart.*1 → (cart_set id v cart).*1 = cart.*1.
Proof.
  induction cart as [|[k w] cart IH]; intros Hin.
  - by apply not_elem_of_nil in Hin.
  - simpl. destruct (String.eqb_spec k id) as [->|Hne]; [done|].
    simpl. f_equal. apply IH.
    apply elem_of_cons in Hin as [->|?]; done.
Qed.

Lemma cart_set_keys_new id v (cart : Cart) :
  id ∉ cart.*1 → (cart_set id v cart).*1 = (cart.*1 ++ [id])%list.
Proof.
  induction cart as [|[k w] cart IH]; intros Hout; [done|].
  simpl in Hout. apply not_elem_of_cons in Hout as [Hne Hout].
  simpl. destruct (String.eqb_spec k id) as [->|_]; [done|].
  simpl. f_equal. by apply IH.
Qed.

Lemma cart_set_ok id v (cart : Cart) : cart_ok cart → cart_ok (cart_set id v cart).
Proof.
  unfold cart_ok. intros Hnd.
  destruct (decide (id ∈ cart.*1)) as [Hin|Hout].
  - by rewrite cart_set_keys_held.
  - rewrite cart_set_keys_new by done.
    apply NoDup_app. split_and!; [done | | apply NoDup_singleton].
    intros x Hx ->%list_elem_of_singleton. contradiction.
Qed.

Lemma cart_delete_ok id (cart : Cart) : cart_ok cart → cart_ok (cart_delete id cart).
Proof.
  unfold cart_ok. induction cart as [|[k w] cart IH]; simpl; [done|].
  intros [Hk Hnd]%NoDup_cons.
  destruct (String.eqb_spec k id); [done|]. simpl.
  apply NoDup_cons. split; [|by apply IH].
  intros Hin. apply Hk. apply cart_get_None in Hk.
  destruct (cart_get k (cart_delete id cart)) eqn:Hget.
  - rewrite cart_get_delete_ne in Hget by done. congruence.
  - by apply cart_get_None in Hget.
Qed.

(** X27.  [addToCart], [changeQty] and [removeItem] keep the keys of the cart
    distinct and leave the quantity of every other product as it was. *)
Theorem cart_operations_act_on_one_product id (cart : Cart) qEl delta :
  cart_ok cart →
  (cart_ok (addToCart qEl id cart)
   ∧ cart_ok (changeQty id delta cart)
   ∧ cart_ok (removeItem id cart))
  ∧ (∀ id', id' ≠ id →
       cart_get id' (addToCart qEl id cart) = cart_get id' cart
       ∧ cart_get id' (changeQty id delta cart) = cart_get id' cart
       ∧ cart_get id' (removeItem id cart) = cart_get id' cart).
Proof.
  intros Hok. split.
  - split_and!.
    + by apply cart_set_ok.
    + unfold changeQty. rewrite cart_get_set_eq.
      case_match; [apply cart_delete_ok|]; by apply cart_set_ok.
    + by apply cart_delete_ok.
  - intros id' Hne. split_and!.
    + by apply cart_get_set_ne.
    + unfold changeQty. rewrite cart_get_set_eq.
      case_match; rewrite ?cart_get_delete_ne by done; by apply cart_get_set_ne.
    + by apply cart_get_delete_ne.
Qed.

(** X28.  [addToCart] stores the double sum of the held quantity and the
    entered one, where a missing product counts as 0 and a missing field,
    [NaN] and 0 count as 1 and any other parsed number, negative ones
    included, is taken as it is; [changeQty] removes the product when the
    sum is zero or below and stores the sum otherwise; [removeItem] removes
    the product.  The sum is that of doubles: 2 and 3 make 5, and 1 added
    to 2^53 leaves 2^53. *)
Theorem cart_quantities id (cart : Cart) qEl delta :
  cart_ok cart →
  let held := number_or (cart_get id cart) (double 0 0) in
  cart_get id (addToCart qEl id cart) = Some (Double_add held (entered qEl))
  ∧ (qEl = None ∨ qEl = Some SpecFloat.S754_nan
     ∨ (∃ sign, qEl = Some (SpecFloat.S754_zero sign)) →
     entered qEl = double 1 0)
  ∧ (∀ x, x ≠ SpecFloat.S754_nan → (∀ sign, x ≠ SpecFloat.S754_zero sign) →
       entered (Some x) = x)
  ∧ cart_get id (changeQty id delta cart)
    = (if Double_leb (Double_add held delta) (double 0 0) then None
       else Some (Double_add held delta))
  ∧ cart_get id (removeItem id cart) = None
  ∧ Double_add (double 2 0) (double 3 0) = double 5 0
  ∧ Double_add (double 1 0) (double 9007199254740992 0)
    = double 9007199254740992 0.
Proof.
  intros Hok held. split_and!.
  - unfold addToCart. by rewrite cart_get_set_eq.
  - by intros [-> | [-> | [sign ->]]].
  - intros x Hnan Hzero. destruct x as [sign| | |]; try done.
    by destruct (Hzero sign).
  - unfold changeQty. rewrite cart_get_set_eq. fold held.
    destruct (Double_leb (Double_add held delta) (double 0 0)).
    + apply cart_get_delete_eq. by apply cart_set_ok.
    + apply cart_get_set_eq.
  - by apply cart_get_delete_eq.
  - vm_compute. reflexivity.
  - vm_compute. reflexivity.
Qed.

End MoreProperties.

(** * The remaining properties on concrete requests *)

Section MoreInstances.

#[local] Existing Instance Demo.libs.
#[local] Existing Instance Sample.regex.

Lemma created_product_can_be_fetched_witness :
  status (adminCreateProduct Demo.env Sample.new_product Demo.shop).1 = 201%nat
  ∧ ∃ p, (adminCreateProduct Demo.env Sample.new_product Demo.shop).1
         = mkResponse 201 (JProduct p)
         ∧ products (db Demo.shop) !! Product._id p = None
         ∧ Some (Product.name p) = Some "Milk".
Proof.
  assert (Hok : status (adminCreateProduct Demo.env Sample.new_product Demo.shop).1
                = 201%nat) by reflexivity.
  split; [exact Hok|].
  destruct (created_product_can_be_fetched Demo.env Sample.new_product Demo.shop
              Demo.later Sample.product_1 Hok) as (p & Hres & Hnew & Hname & _).
  exists p. by split_and!.
Defined.

Lemma deleted_product_is_gone_witness :
  Request.params_id Sample.product_0 = ObjectIdString 0%N
  ∧ status (adminDeleteProduct Demo.env Sample.product_0 Demo.shop).1 = 200%nat
  ∧ getProduct Demo.later Sample.product_0
      (adminDeleteProduct Demo.env Sample.product_0 Demo.shop).2
    = (error 404 "Not found",
       (adminDeleteProduct Demo.env Sample.product_0 Demo.shop).2).
Proof.
  assert (Hok : status (adminDeleteProduct Demo.env Sample.product_0 Demo.shop).1
                = 200%nat) by reflexivity.
  split; [reflexivity|]. split; [exact Hok|].
  apply (deleted_product_is_gone Demo.env Sample.product_0 Demo.shop Demo.later
           Sample.product_0 0%N eq_refl eq_refl Hok).
Defined.

Lemma updated_product_is_what_is_fetched_witness :
  Request.params_id Demo.price_change = ObjectIdString 0%N
  ∧ status (adminUpdateProduct Demo.env Demo.price_change Demo.shop).1 = 200%nat
  ∧ getProduct Demo.later Sample.product_0
      (adminUpdateProduct Demo.env Demo.price_change Demo.shop).2
    = ((adminUpdateProduct Demo.env Demo.price_change Demo.shop).1,
       (adminUpdateProduct Demo.env Demo.price_change Demo.shop).2).
Proof.
  assert (Hok : status (adminUpdateProduct Demo.env Demo.price_change Demo.shop).1
                = 200%nat) by reflexivity.
  split; [reflexivity|]. split; [exact Hok|].
  apply (updated_product_is_what_is_fetched Demo.env Demo.price_change Demo.shop
           Demo.later Sample.product_0 0%N eq_refl eq_refl). exact Hok.
Defined.

Lemma order_snapshot_is_immutable_witness :
  Forall (λ x : Route * Env * Request.t, x.1.1 ≠ DELETE_admin_orders_id)
         [(PUT_admin_orders_id_status, Demo.env, Sample.mark_completed);
          (POST_placeGuestOrder, Demo.later, Demo.guest_checkout)]
  ∧ orders (db Demo.shop) !! 0%N = Some Demo.pending_order
  ∧ ∃ o', orders (db (serve [(PUT_admin_orders_id_status, Demo.env, Sample.mark_completed);
                             (POST_placeGuestOrder, Demo.later, Demo.guest_checkout)]
                            Demo.shop)) !! 0%N = Some o'
          ∧ Order.items o' = [Demo.rice]
          ∧ Order.total o' = Some 180%Q.
Proof.
  assert (Hall : Forall (λ x : Route * Env * Request.t, x.1.1 ≠ DELETE_admin_orders_id)
         [(PUT_admin_orders_id_status, Demo.env, Sample.mark_completed);
          (POST_placeGuestOrder, Demo.later, Demo.guest_checkout)])
    by (repeat constructor; discriminate).
  split; [exact Hall|]. split; [reflexivity|].
  destruct (order_snapshot_is_immutable _ Demo.shop 0%N Demo.pending_order Hall eq_refl)
    as (o' & Ho' & _ & _ & Hitems & Htotal & _).
  exists o'. by split_and!.
Defined.

Lemma my_orders_are_exactly_the_callers_witness :
  authMiddleware Demo.env Sample.shopper_session
  = inr (Request.with_user Demo.shopper Sample.shopper_session)
  ∧ ∃ listed, GET_orders_my Demo.env Sample.shopper_session Demo.shop = Sent 200 listed
              ∧ length listed = 1%nat.
Proof.
  assert (Hauth : authMiddleware Demo.env Sample.shopper_session
                  = inr (Request.with_user Demo.shopper Sample.shopper_session))
    by reflexivity.
  split; [exact Hauth|].
  destruct (my_orders_are_exactly_the_callers Demo.env Sample.shopper_session
              Demo.shop Demo.shopper Hauth) as (listed & Hget & _ & _ & Hlen).
  exists listed. split; [exact Hget|]. rewrite Hlen. reflexivity.
Defined.

Lemma placed_order_shows_in_my_orders_witness :
  status (app POST_orders Demo.env Demo.shopper_checkout Demo.shop).1 = 201%nat
  ∧ ∃ order listed,
      GET_orders_my Demo.later Sample.shopper_session
        (app POST_orders Demo.env Demo.shopper_checkout Demo.shop).2
      = Sent 200 listed
      ∧ order ∈ listed
      ∧ Order.total order = Some 180%Q
      ∧ length listed = 2%nat.
Proof.
  assert (Hok : status (app POST_orders Demo.env Demo.shopper_checkout Demo.shop).1
                = 201%nat) by reflexivity.
  assert (Hauth : authMiddleware Demo.env Demo.shopper_checkout
                  = inr (Request.with_user Demo.shopper Demo.shopper_checkout))
    by reflexivity.
  assert (Hauth' : authMiddleware Demo.later Sample.shopper_session
                  = inr (Request.with_user Demo.shopper Sample.shopper_session))
    by reflexivity.
  split; [exact Hok|].
  destruct (placed_order_shows_in_my_orders Demo.env Demo.shopper_checkout Demo.shop
              Demo.shopper Demo.asha Demo.later Sample.shopper_session
              Hauth Hauth' eq_refl eq_refl Hok)
    as (order & listed & _ & Hget & Hin & _ & Hsent & _ & Hlen).
  exists order, listed. split_and!; [exact Hget | exact Hin | |].
  - apply (Hsent ([Demo.rice], Some 180%Q, Some Demo.home)).
    split_and!; reflexivity.
  - rewrite Hlen. reflexivity.
Defined.

Lemma registered_account_can_log_in_witness :
  status (register Demo.env Demo.bina_registers Demo.shop).1 = 201%nat
  ∧ bcrypt_compare "pw1" (bcrypt_hash "pw1" 10 (salt Demo.env)) = true
  ∧ status (login Demo.later Sample.bina_logs_in
              (register Demo.env Demo.bina_registers Demo.shop).2).1 = 200%nat.
Proof.
  assert (Hok : status (register Demo.env Demo.bina_registers Demo.shop).1 = 201%nat)
    by reflexivity.
  assert (Hcmp : bcrypt_compare "pw1" (bcrypt_hash "pw1" 10 (salt Demo.env)) = true)
    by reflexivity.
  split; [exact Hok|]. split; [exact Hcmp|].
  destruct (registered_account_can_log_in Demo.env Demo.bina_registers Demo.shop
              Demo.later Sample.bina_logs_in "pw1" Hok eq_refl eq_refl eq_refl Hcmp)
    as (u & token & _ & _ & _ & Hlogin).
  by rewrite Hlogin.
Defined.

Lemma token_is_accepted_for_seven_days_witness :
  jwt_decode (jwt_sign Demo.asha 1700000000000%Z)
  = Some (claims_of Demo.asha 1700000000000%Z)
  ∧ authMiddleware Demo.later Sample.shopper_session
    = inr (Request.with_user (claims_of Demo.asha 1700000000000%Z)
                           Sample.shopper_session)
  ∧ authMiddleware Sample.a_week_later Sample.shopper_session
    = inl (error 401 "Invalid token").
Proof.
  assert (Hheader : Request.authorization Sample.shopper_session
                    = Some ("Bearer" +:+ String " " (jwt_sign Demo.asha 1700000000000%Z)))
    by (vm_compute; reflexivity).
  assert (Hsp : spaceless (jwt_sign Demo.asha 1700000000000%Z) = true)
    by (vm_compute; reflexivity).
  assert (Hne : jwt_sign Demo.asha 1700000000000%Z ≠ "")
    by (vm_compute; discriminate).
  assert (Hdec : jwt_decode (jwt_sign Demo.asha 1700000000000%Z)
                 = Some (claims_of Demo.asha 1700000000000%Z))
    by (vm_compute; reflexivity).
  split; [exact Hdec|]. split.
  - apply (token_is_accepted_for_seven_days Demo.later Sample.shopper_session
             Demo.asha 1700000000000%Z Hheader Hsp Hne Hdec).
    vm_compute. reflexivity.
  - apply (token_is_accepted_for_seven_days Sample.a_week_later Sample.shopper_session
             Demo.asha 1700000000000%Z Hheader Hsp Hne Hdec).
    vm_compute. discriminate.
Defined.

Lemma authorization_scheme_is_not_checked_witness :
  spaceless "Basic" = true
  ∧ authMiddleware Demo.env
      (with_authorization ("Basic" +:+ String " " "manager.jwt") Sample.manager_session)
    = inr (Request.with_user Demo.manager
             (with_authorization ("Basic" +:+ String " " "manager.jwt")
                                 Sample.manager_session)).
Proof.
  split; [reflexivity|].
  apply (proj2 (authorization_scheme_is_not_checked Demo.env Sample.manager_session
                  "Basic" "manager.jwt" eq_refl) Demo.manager).
  reflexivity.
Defined.

Lemma admin_token_reaches_the_handler_witness :
  is_admin_route GET_admin_orders = true
  ∧ Claims.role Demo.manager = "admin"
  ∧ app GET_admin_orders Demo.env Sample.manager_session Demo.shop
    = adminOrders Demo.env (Request.with_user Demo.manager Sample.manager_session)
                  Demo.shop.
Proof.
  split; [reflexivity|]. split; [reflexivity|].
  apply (admin_token_reaches_the_handler GET_admin_orders Demo.env
           Sample.manager_session Demo.shop Demo.manager); reflexivity.
Defined.

Lemma close_removes_the_first_subscriber_with_that_id_witness :
  Qeq_bool (SseClient.id Sample.second_tab) (9 # 2) = true
  ∧ sseClients (on_close (9 # 2) Sample.two_tabs) = [Sample.first_tab].
Proof.
  split; [reflexivity|].
  apply (close_removes_the_first_subscriber_with_that_id (9 # 2) [Sample.first_tab]
           Sample.second_tab [] Sample.two_tabs);
    [repeat constructor | reflexivity | reflexivity].
Defined.

Lemma closed_subscriber_gets_no_later_event_witness :
  sseClients (on_close (clientId Demo.env)
                (events Demo.env Demo.guest_checkout Sample.two_tabs).2)
  = sseClients Sample.two_tabs.
Proof.
  apply (closed_subscriber_gets_no_later_event Demo.env Demo.guest_checkout
           Sample.two_tabs
           (OrderSummary.mk 0%N "A" (OrderSummary.Stored None) [] None 0%Z
                            "pending")).
  - intros c Hc. unfold Sample.two_tabs in Hc. simpl in Hc.
    apply elem_of_cons in Hc as [-> | Hc]; [by eexists|].
    apply list_elem_of_singleton in Hc as ->. by eexists.
  - repeat constructor.
Defined.

(** Two dashboards that connect in the same millisecond, one with the
    random part 0.5 and one with 0.5 + 2^-14, get the same id: next to
    1700000000000 the doubles are 2^-12 apart.  When the second one
    disconnects, its listener removes the entry of the first. *)
Example subscribers_with_one_id :
  let both :=
    (events Sample.same_millisecond Demo.guest_checkout
       (events Demo.env Demo.guest_checkout Demo.shop).2).2 in
  sseClients both
  = [SseClient.mk (clientId Demo.env) 0%N;
     SseClient.mk (clientId Sample.same_millisecond) 1%N]
  ∧ Qeq_bool (clientId Demo.env) (clientId Sample.same_millisecond) = true
  ∧ sseClients (on_close (clientId Sample.same_millisecond) both)
    = [SseClient.mk (clientId Sample.same_millisecond) 1%N].
Proof. split_and!; reflexivity. Qed.

Lemma seeded_admin_can_log_in_witness :
  User_countDocuments_role "admin" (mkDb ∅ ∅ ∅) = 0%nat
  ∧ status (login Demo.later Sample.admin_logs_in
              (mkServer (seed Demo.env (mkDb ∅ ∅ ∅)) [] ∅)).1 = 200%nat.
Proof.
  assert (Hnone : User_countDocuments_role "admin" (mkDb ∅ ∅ ∅) = 0%nat)
    by reflexivity.
  assert (Hfree : User_findOne "admin@grocery.com" (mkDb ∅ ∅ ∅) = None)
    by reflexivity.
  assert (Hcmp : bcrypt_compare "admin123" (bcrypt_hash "admin123" 10 (salt Demo.env))
                 = true) by reflexivity.
  split; [exact Hnone|].
  destruct (seeded_admin_can_log_in Demo.env (mkDb ∅ ∅ ∅) Demo.later
              Sample.admin_logs_in [] ∅ Hnone Hfree eq_refl eq_refl Hcmp)
    as (admin & _ & _ & Hlogin & _).
  by rewrite Hlogin.
Defined.

Lemma me_update_touches_only_name_phone_addresses_witness :
  users (db Demo.shop) !! Claims.id Demo.shopper = Some Demo.asha
  ∧ (PUT_me Sample.me Demo.env Sample.shopper_session Demo.shop).1
    = Sent 200 (MeUpdated.mk 1%N "Asha K" "asha@example.com" None []).
Proof.
  split; [reflexivity|].
  assert (Hauth : authMiddleware Demo.env Sample.shopper_session
                  = inr (Request.with_user Demo.shopper Sample.shopper_session))
    by reflexivity.
  destruct (me_update_touches_only_name_phone_addresses Sample.me Demo.env
              Sample.shopper_session Demo.shop Demo.shopper Demo.asha
              Hauth eq_refl eq_refl) as [Hput _].
  by rewrite Hput.
Defined.

Lemma me_update_then_read_witness :
  users (db Demo.shop) !! Claims.id Demo.shopper = Some Demo.asha
  ∧ GET_me Demo.later Sample.shopper_session
      (PUT_me Sample.me Demo.env Sample.shopper_session Demo.shop).2
    = Sent 200 (without_passwordHash (assign_me Sample.me Demo.asha)).
Proof.
  split; [reflexivity|].
  assert (Hauth : authMiddleware Demo.env Sample.shopper_session
                  = inr (Request.with_user Demo.shopper Sample.shopper_session))
    by reflexivity.
  assert (Hauth' : authMiddleware Demo.later Sample.shopper_session
                  = inr (Request.with_user Demo.shopper Sample.shopper_session))
    by reflexivity.
  apply (me_update_then_read Sample.me Demo.env Sample.shopper_session Demo.shop
           Demo.later Sample.shopper_session Demo.shopper Demo.asha
           Hauth Hauth' eq_refl eq_refl).
Defined.

Lemma profile_email_change_witness :
  is_Some (User_findOne "admin@grocery.com" (db Demo.shop))
  ∧ app PUT_auth_profile Demo.env Sample.taken_email Demo.shop
    = (caught DuplicateKey, Demo.shop)
  ∧ User_findOne "asha@new.example" (db Demo.shop) = None
  ∧ status (app PUT_auth_profile Demo.env Sample.new_email Demo.shop).1 = 200%nat.
Proof.
  assert (Htaken : is_Some (User_findOne "admin@grocery.com" (db Demo.shop)))
    by (by eexists).
  assert (Hauth1 : authMiddleware Demo.env Sample.taken_email
                   = inr (Request.with_user Demo.shopper Sample.taken_email))
    by reflexivity.
  assert (Hauth2 : authMiddleware Demo.env Sample.new_email
                   = inr (Request.with_user Demo.shopper Sample.new_email))
    by reflexivity.
  assert (Hvalid : bcrypt_compare (or_else (Some "secret") "")
                     (User.passwordHash Demo.asha) = true) by reflexivity.
  assert (Hfree : User_findOne "asha@new.example" (db Demo.shop) = None)
    by reflexivity.
  assert (Hne1 : "admin@grocery.com" ≠ "") by discriminate.
  assert (Hne2 : "asha@new.example" ≠ "") by discriminate.
  assert (Hd1 : "admin@grocery.com" ≠ User.email Demo.asha) by discriminate.
  assert (Hd2 : "asha@new.example" ≠ User.email Demo.asha) by discriminate.
  split; [exact Htaken|]. split.
  - apply (profile_email_change Demo.env Sample.taken_email Demo.shop Demo.shopper
             Demo.asha "admin@grocery.com" "secret"
             Hauth1 eq_refl eq_refl eq_refl Hvalid eq_refl Hne1 Hd1 eq_refl).
    exact Htaken.
  - split; [exact Hfree|].
    rewrite (proj2 (profile_email_change Demo.env Sample.new_email Demo.shop
                      Demo.shopper Demo.asha "asha@new.example" "secret"
                      Hauth2 eq_refl eq_refl eq_refl Hvalid eq_refl Hne2 Hd2 eq_refl)
                   Hfree).
    reflexivity.
Defined.

Lemma accounts_stay_well_formed_witness :
  accounts_ok (db Demo.empty_server)
  ∧ accounts_ok
      (db (serve [(POST_auth_register, Demo.env, Demo.bina_registers);
                  (POST_auth_register, Demo.later, Demo.bina_again);
                  (POST_placeGuestOrder, Demo.later, Demo.guest_checkout)]
                 Demo.empty_server)).
Proof.
  assert (Hok : accounts_ok (db Demo.empty_server)).
  { split; simpl; intros *; by rewrite lookup_empty. }
  split; [exact Hok|].
  exact (proj1 (accounts_stay_well_formed _ Demo.empty_server Hok)).
Defined.

Lemma escape_loses_nothing_witness :
  escape ("<" +:+ "b>") = escape "<b>" ∧ "<" +:+ "b>" = "<b>".
Proof.
  assert (H : escape ("<" +:+ "b>") = escape "<b>") by reflexivity.
  split; [exact H|].
  exact (escape_loses_nothing ("<" +:+ "b>") "<b>" H).
Defined.

Lemma cart_operations_act_on_one_product_witness :
  cart_ok Sample.basket
  ∧ cart_ok (changeQty "milk" (double (-1) 0) Sample.basket)
  ∧ cart_get "rice" (changeQty "milk" (double (-1) 0) Sample.basket)
    = Some (double 2 0).
Proof.
  assert (Hok : cart_ok Sample.basket).
  { unfold cart_ok, Sample.basket. simpl.
    apply NoDup_cons. split; [|apply NoDup_singleton].
    intros Hin%list_elem_of_singleton. discriminate. }
  destruct (cart_operations_act_on_one_product "milk" Sample.basket None
              (double (-1) 0) Hok)
    as [(_ & Hchange & _) Hother].
  split; [exact Hok|]. split; [exact Hchange|].
  destruct (Hother "rice") as (_ & -> & _); [discriminate | reflexivity].
Defined.

Lemma cart_quantities_witness :
  cart_ok Sample.basket
  ∧ cart_get "milk" (changeQty "milk" (double (-1) 0) Sample.basket) = None
  ∧ cart_get "rice" (addToCart (Some (double 3 0)) "rice" Sample.basket)
    = Some (double 5 0).
Proof.
  assert (Hok : cart_ok Sample.basket).
  { unfold cart_ok, Sample.basket. simpl.
    apply NoDup_cons. split; [|apply NoDup_singleton].
    intros Hin%list_elem_of_singleton. discriminate. }
  split; [exact Hok|]. split.
  - destruct (cart_quantities "milk" Sample.basket None (double (-1) 0) Hok)
      as (_ & _ & _ & -> & _). reflexivity.
  - destruct (cart_quantities "rice" Sample.basket (Some (double 3 0))
                (double 0 0) Hok)
      as (-> & _). reflexivity.
Defined.

End MoreInstances.
